(** * fizmatcommbot: the gatekeeper bot of [TgBotAra/bot.py]

    A shallow embedding of the bot's database layer, e-mail validation,
    registration state machine, group guard with its notice throttle, and
    administrative commands, followed by the properties of the specification
    stated over it.

    Conventions.
    - A Python [str] is a list of Unicode code points ([str := list N]).
    - The part of the Unicode character database that the program reaches
      through [str.lower], [re.IGNORECASE], [str.isdigit] and [int] is a
      parameter ([UnicodeData]); ASCII and the handful of code points that
      interact with ASCII are written out.
    - A handler is a computation over the program state ([World]) that
      records the platform requests it issues and may end in a Python
      exception. *)

From Stdlib Require Import ZArith NArith QArith Lia List Bool Sorted.
From stdpp Require Import gmap strings list fin_maps.
Import ListNotations.

(** * Python strings *)

Definition str := list N.

(** An ASCII literal of the source as code points. *)
Definition str_of (s : string) : str :=
  map (fun a => N.of_nat (Ascii.nat_of_ascii a)) (String.list_ascii_of_string s).

(** ** Code points written out in the source or in the libraries *)

Local Open Scope N_scope.

Definition is_ascii (c : N) : bool := c <? 128.
Definition ascii_upper (c : N) : bool := (65 <=? c) && (c <=? 90).
Definition ascii_lower (c : N) : bool := (97 <=? c) && (c <=? 122).
Definition ascii_digit (c : N) : bool := (48 <=? c) && (c <=? 57).
Definition ascii_tolower (c : N) : N := if ascii_upper c then c + 32 else c.

(** [Py_UNICODE_ISSPACE]: the code points [str.strip], [str.split] and
    [int] treat as whitespace. *)
Definition Py_UNICODE_ISSPACE (c : N) : bool :=
  ((0x09 <=? c) && (c <=? 0x0D)) || ((0x1C <=? c) && (c <=? 0x20))
  || (c =? 0x85) || (c =? 0xA0) || (c =? 0x1680)
  || ((0x2000 <=? c) && (c <=? 0x200A))
  || (c =? 0x2028) || (c =? 0x2029) || (c =? 0x202F) || (c =? 0x205F)
  || (c =? 0x3000).

(** The four non-ASCII code points whose case mappings meet ASCII:
    U+0130 (capital I with dot), U+0131 (dotless i), U+017F (long s) and
    U+212A (Kelvin sign). *)
Definition meets_ascii (c : N) : bool :=
  (c =? 0x130) || (c =? 0x131) || (c =? 0x17F) || (c =? 0x212A).

(** A code point whose case mapping is left to the Unicode database. *)
Definition ucd_plain (c : N) : bool :=
  negb (is_ascii c) && negb (meets_ascii c) && negb (Py_UNICODE_ISSPACE c).

(** The Unicode character database, as far as the program consults it.
    [ucd_lower pre c post] is the lowercase mapping [str.lower] applies to
    [c] when [pre] precedes it (nearest code point first) and [post] follows
    it; [ucd_tolower] is the simple mapping the regular-expression engine
    uses. Both are consulted on [ucd_plain] code points only, and the two
    laws say that such code points never map into ASCII, whitespace or the
    four code points of [meets_ascii]. *)
Class UnicodeData := {
  ucd_tolower : N -> N;
  ucd_lower : list N -> N -> list N -> list N;
  ucd_iscased : N -> bool;
  ucd_isdigit : N -> bool;
  ucd_decimal : N -> option N;
  ucd_tolower_plain : forall c,
    ucd_plain c = true -> ucd_plain (ucd_tolower c) = true;
  ucd_lower_plain : forall pre c post,
    ucd_plain c = true ->
    ucd_lower pre c post <> [] /\
    forallb ucd_plain (ucd_lower pre c post) = true
}.

(** A database without any non-ASCII case pair or digit: the smallest model
    of the laws, used to run the program on concrete inputs. *)
Lemma caseless_lower_plain (pre : list N) (c : N) (post : list N) :
  ucd_plain c = true -> [c] <> [] /\ forallb ucd_plain [c] = true.
Proof.
  intros Hc. split; [discriminate|]. simpl. rewrite Hc. reflexivity.
Qed.

Definition caseless_ucd : UnicodeData := {|
  ucd_tolower c := c;
  ucd_lower _ c _ := [c];
  ucd_iscased _ := false;
  ucd_isdigit _ := false;
  ucd_decimal _ := None;
  ucd_tolower_plain := fun c Hc => Hc;
  ucd_lower_plain := caseless_lower_plain
|}.

Section PythonStrings.
Context {U : UnicodeData}.

(** ** [str] methods *)

Definition py_or_empty (s : option str) : str :=
  match s with Some t => t | None => [] end.

Fixpoint lstrip (s : str) : str :=
  match s with
  | c :: r => if Py_UNICODE_ISSPACE c then lstrip r else s
  | [] => []
  end.

Definition rstrip (s : str) : str := rev (lstrip (rev s)).

(** [s.strip()] *)
Definition strip (s : str) : str := rstrip (lstrip s).

(** The lowercase mapping of one code point in its context. *)
Definition lower_cp (pre : list N) (c : N) (post : list N) : list N :=
  if is_ascii c then [ascii_tolower c]
  else if c =? 0x130 then [0x69; 0x307]
  else if c =? 0x212A then [0x6B]
  else if (c =? 0x131) || (c =? 0x17F) || Py_UNICODE_ISSPACE c then [c]
  else ucd_lower pre c post.

Fixpoint lower_from (pre : list N) (s : str) : str :=
  match s with
  | c :: post => lower_cp pre c post ++ lower_from (c :: pre) post
  | [] => []
  end.

(** [s.lower()] *)
Definition lower (s : str) : str := lower_from [] s.

(** [Py_UNICODE_TOLOWER], the one-to-one mapping behind [re.IGNORECASE]. *)
Definition unicode_tolower (c : N) : N :=
  if is_ascii c then ascii_tolower c
  else if c =? 0x130 then 0x69
  else if c =? 0x212A then 0x6B
  else if (c =? 0x131) || (c =? 0x17F) || Py_UNICODE_ISSPACE c then c
  else ucd_tolower c.

(** [_sre.unicode_iscased] *)
Definition unicode_iscased (c : N) : bool :=
  if is_ascii c then ascii_upper c || ascii_lower c
  else if meets_ascii c then true
  else if Py_UNICODE_ISSPACE c then false
  else ucd_iscased c.

(** [s.startswith(p)] *)
Fixpoint startswith (s p : str) : bool :=
  match p, s with
  | [], _ => true
  | a :: p', b :: s' => (a =? b) && startswith s' p'
  | _ :: _, [] => false
  end.

(** Lexicographic order on code points: the order of SQLite's BINARY
    collation on the UTF-8 encodings. *)
Fixpoint str_leb (a b : str) : bool :=
  match a, b with
  | [], _ => true
  | _ :: _, [] => false
  | x :: a', y :: b' => (x <? y) || ((x =? y) && str_leb a' b')
  end.

(** [s.split()]: the maximal runs of non-whitespace; [cur] is the run
    being read, last code point first. *)
Fixpoint split_from (cur : option str) (s : str) : list str :=
  match s with
  | [] => match cur with Some w => [rev w] | None => [] end
  | c :: r =>
      if Py_UNICODE_ISSPACE c
      then match cur with
           | Some w => rev w :: split_from None r
           | None => split_from None r
           end
      else split_from (Some (c :: py_or_empty cur)) r
  end.

Definition split (s : str) : list str := split_from None s.

Fixpoint take_word (s : str) : str * str :=
  match s with
  | c :: r =>
      if Py_UNICODE_ISSPACE c then ([], s)
      else let '(w, t) := take_word r in (c :: w, t)
  | [] => ([], [])
  end.

(** [s.split(maxsplit=1)]: the first word and, if anything but whitespace
    follows it, the rest with its leading whitespace removed. *)
Definition split_maxsplit1 (s : str) : list str :=
  match lstrip s with
  | [] => []
  | s1 =>
      let '(w, t) := take_word s1 in
      match lstrip t with
      | [] => [w]
      | rest => [w; rest]
      end
  end.

(** [s.partition(sep)] for a one-character separator: the text before the
    first [sep], and the text after it when there is one. *)
Fixpoint partition1 (sep : N) (s : str) : str * option str :=
  match s with
  | [] => ([], None)
  | c :: r =>
      if c =? sep then ([], Some r)
      else let '(a, b) := partition1 sep r in (c :: a, b)
  end.

(** [s.isdigit()] *)
Definition unicode_isdigit (c : N) : bool :=
  if is_ascii c then ascii_digit c
  else if meets_ascii c || Py_UNICODE_ISSPACE c then false
  else ucd_isdigit c.

Definition isdigit (s : str) : bool :=
  match s with
  | [] => false
  | _ :: _ => forallb unicode_isdigit s
  end.

(** ** [int(s)] for a [str] in base ten *)

Inductive int_tok :=
| TSpace | TDigit (d : Z) | TPlus | TMinus | TUnder | TOther.

(** What [PyLong_FromUnicodeObject] makes of one code point: non-ASCII
    whitespace and decimal digits are turned into their ASCII counterparts
    first, and the parser proper knows the ASCII whitespace only. *)
Definition int_tok_of (c : N) : int_tok :=
  if is_ascii c then
    if ((9 <=? c) && (c <=? 13)) || (c =? 32) then TSpace
    else if ascii_digit c then TDigit (Z.of_N (c - 48))
    else if c =? 43 then TPlus
    else if c =? 45 then TMinus
    else if c =? 95 then TUnder
    else TOther
  else if Py_UNICODE_ISSPACE c then TSpace
  else if meets_ascii c then TOther
  else match ucd_decimal c with
       | Some d => TDigit (Z.of_N d)
       | None => TOther
       end.

Fixpoint skip_space (l : list int_tok) : list int_tok :=
  match l with
  | TSpace :: r => skip_space r
  | _ => l
  end.

Definition only_space (l : list int_tok) : bool :=
  match skip_space l with [] => true | _ :: _ => false end.

(** The digits after the first one: single underscores may separate them. *)
Fixpoint int_digits (acc : Z) (under : bool) (l : list int_tok) : option Z :=
  match l with
  | TDigit d :: r => int_digits (acc * 10 + d)%Z false r
  | TUnder :: r => if under then None else int_digits acc true r
  | _ => if under then None else if only_space l then Some acc else None
  end.

(** [int(s)]: [None] stands for [ValueError]. *)
Definition py_int (s : str) : option Z :=
  let l := skip_space (map int_tok_of s) in
  let '(neg, l') :=
    match l with
    | TMinus :: r => (true, r)
    | TPlus :: r => (false, r)
    | _ => (false, l)
    end in
  match l' with
  | TDigit d :: r =>
      match int_digits d false r with
      | Some n => Some (if neg then (- n)%Z else n)
      | None => None
      end
  | _ => None
  end.

End PythonStrings.

(** * The [re] module, for the one pattern of the program *)

(** The parse tree of a pattern, as [re.compile(..., re.DEBUG)] prints it. *)
Inductive set_item :=
| SET_LITERAL (c : N)
| SET_RANGE (lo hi : N).

Inductive sre_single :=
| LITERAL (c : N)
| IN (items : list set_item).

Inductive sre_op :=
| AT_BEGINNING
| AT_END
| ONE (x : sre_single)
| MAX_REPEAT (min : nat) (x : sre_single).

(** [re._casefix._EXTRA_CASES]: lowercase code points that share their
    uppercase with other lowercase code points. *)
Definition _EXTRA_CASES : list (N * list N) :=
  [ (0x69, [0x131]); (0x73, [0x17f]); (0xb5, [0x3bc]); (0x131, [0x69]);
    (0x17f, [0x73]); (0x345, [0x3b9; 0x1fbe]); (0x390, [0x1fd3]);
    (0x3b0, [0x1fe3]); (0x3b2, [0x3d0]); (0x3b5, [0x3f5]); (0x3b8, [0x3d1]);
    (0x3b9, [0x345; 0x1fbe]); (0x3ba, [0x3f0]); (0x3bc, [0xb5]);
    (0x3c0, [0x3d6]); (0x3c1, [0x3f1]); (0x3c2, [0x3c3]); (0x3c3, [0x3c2]);
    (0x3c6, [0x3d5]); (0x3d0, [0x3b2]); (0x3d1, [0x3b8]); (0x3d5, [0x3c6]);
    (0x3d6, [0x3c0]); (0x3f0, [0x3ba]); (0x3f1, [0x3c1]); (0x3f5, [0x3b5]);
    (0x432, [0x1c80]); (0x434, [0x1c81]); (0x43e, [0x1c82]);
    (0x441, [0x1c83]); (0x442, [0x1c84; 0x1c85]); (0x44a, [0x1c86]);
    (0x463, [0x1c87]); (0x1c80, [0x432]); (0x1c81, [0x434]);
    (0x1c82, [0x43e]); (0x1c83, [0x441]); (0x1c84, [0x442; 0x1c85]);
    (0x1c85, [0x442; 0x1c84]); (0x1c86, [0x44a]); (0x1c87, [0x463]);
    (0x1c88, [0xa64b]); (0x1e61, [0x1e9b]); (0x1e9b, [0x1e61]);
    (0x1fbe, [0x345; 0x3b9]); (0x1fd3, [0x390]); (0x1fe3, [0x3b0]);
    (0xa64b, [0x1c88]); (0xfb05, [0xfb06]); (0xfb06, [0xfb05]) ].

Fixpoint assoc_default (k : N) (t : list (N * list N)) : list N :=
  match t with
  | (k', v) :: t' => if k =? k' then v else assoc_default k t'
  | [] => []
  end.

Definition fixes (lo : N) : list N := assoc_default lo _EXTRA_CASES.

Definition mem (x : N) (l : list N) : bool := existsb (N.eqb x) l.

(** The code points [lo..hi], in order. *)
Definition code_range (lo hi : N) : list N :=
  map (fun i => lo + N.of_nat i) (seq 0 (N.to_nat (hi + 1 - lo))).

Section Sre.
Context {U : UnicodeData}.

(** ** Matching with [IGNORECASE] on a [str] pattern *)

(** Membership of a lowered code point in the character map that
    [_optimize_charset] builds for a set. *)
Definition charmap_one (av x : N) : bool :=
  let lo := unicode_tolower av in (x =? lo) || mem x (fixes lo).

Definition charmap_item (it : set_item) (x : N) : bool :=
  match it with
  | SET_LITERAL av => charmap_one av x
  | SET_RANGE a b => existsb (fun i => charmap_one i x) (code_range a b)
  end.

Definition item_hascased (it : set_item) : bool :=
  match it with
  | SET_LITERAL av => unicode_iscased av
  | SET_RANGE a b => existsb unicode_iscased (code_range a b)
  end.

Definition item_plain (it : set_item) (ch : N) : bool :=
  match it with
  | SET_LITERAL av => ch =? av
  | SET_RANGE a b => (a <=? ch) && (ch <=? b)
  end.

(** One position of the subject against a one-character operator. *)
Definition sre_test (x : sre_single) (ch : N) : bool :=
  match x with
  | LITERAL av =>
      if unicode_iscased av
      then let lo := unicode_tolower av in
           mem (unicode_tolower ch) (lo :: fixes lo)
      else ch =? av
  | IN items =>
      if existsb item_hascased items
      then existsb (fun it => charmap_item it (unicode_tolower ch)) items
      else existsb (fun it => item_plain it ch) items
  end.

(** Greedy repetition with backtracking: zero or more positions that pass
    [t], then the rest of the pattern [k]. *)
Fixpoint sre_star (t : N -> bool) (k : bool -> str -> bool)
    (bos : bool) (s : str) : bool :=
  k bos s ||
  match s with
  | c :: r => t c && sre_star t k false r
  | [] => false
  end.

Fixpoint sre_at_least (n : nat) (t : N -> bool) (k : bool -> str -> bool)
    (bos : bool) (s : str) : bool :=
  match n with
  | O => sre_star t k bos s
  | S n' =>
      match s with
      | c :: r => t c && sre_at_least n' t k false r
      | [] => false
      end
  end.

(** [sre_match p bos s]: the operators [p] match all of [s]; [bos] says
    whether [s] starts at the beginning of the subject. *)
Fixpoint sre_match (p : list sre_op) (bos : bool) (s : str) {struct p} : bool :=
  match p with
  | [] => match s with [] => true | _ :: _ => false end
  | AT_BEGINNING :: p' => bos && sre_match p' bos s
  | AT_END :: p' =>
      match s with
      | [] => sre_match p' bos s
      | [c] => (c =? 10) && sre_match p' bos s
      | _ => false
      end
  | ONE x :: p' =>
      match s with
      | c :: r => sre_test x c && sre_match p' false r
      | [] => false
      end
  | MAX_REPEAT n x :: p' => sre_at_least n (sre_test x) (sre_match p') bos s
  end.

(** [pattern.fullmatch(s)], as a truth value. *)
Definition fullmatch (p : list sre_op) (s : str) : bool := sre_match p true s.

End Sre.

(** * E-mail validation *)

(** [[A-Za-z0-9._%+-]] *)
Definition LOCAL_PART_SET : list set_item :=
  [ SET_RANGE 65 90; SET_RANGE 97 122; SET_RANGE 48 57;
    SET_LITERAL 46; SET_LITERAL 95; SET_LITERAL 37;
    SET_LITERAL 43; SET_LITERAL 45 ].

Definition LOCAL_PART : sre_single := IN LOCAL_PART_SET.

(** [@fizmat\.kz]: ten literals. *)
Definition AT_FIZMAT_KZ : list sre_single :=
  map LITERAL [64; 102; 105; 122; 109; 97; 116; 46; 107; 122].

(** [re.compile(r"^[A-Za-z0-9._%+-]+@fizmat\.kz$", re.IGNORECASE)] *)
Definition FIZMAT_EMAIL_RE : list sre_op :=
  AT_BEGINNING :: MAX_REPEAT 1 LOCAL_PART :: map ONE AT_FIZMAT_KZ ++ [AT_END].

Section Validation.
Context {U : UnicodeData}.

Definition is_valid_fizmat_email (email : str) : bool :=
  match email with
  | [] => false
  | _ :: _ => fullmatch FIZMAT_EMAIL_RE (lower (strip email))
  end.

End Validation.

(** ** The validation rule in the words of the specification

    A string is accepted when, after trimming, it is a local part of one or
    more letters, digits or [. _ % + -], then [@], then [fizmat.kz] in any
    letter case. *)

Definition spec_local_char (c : N) : bool :=
  ascii_upper c || ascii_lower c || ascii_digit c || mem c [46; 95; 37; 43; 45].

Definition spec_email (s : str) : bool :=
  match partition1 64 s with
  | (c :: local, Some domain) =>
      forallb spec_local_char (c :: local)
      && bool_decide (map ascii_tolower domain = str_of "fizmat.kz")
  | _ => false
  end.

Definition spec_accepts (s : str) : bool := spec_email (strip s).

Close Scope N_scope.



(** * The platform: updates, requests and their outcomes *)

Inductive ChatType := PRIVATE | GROUP | SUPERGROUP | CHANNEL.

(** The [status] of a chat member. *)
Inductive ChatMemberStatus :=
| CREATOR | ADMINISTRATOR | MEMBER | RESTRICTED | LEFT | KICKED.

Record User := { user_id : Z; is_bot : bool }.

Record Chat := { chat_id : Z; chat_type : ChatType }.

Record Message := {
  message_id : Z;
  chat : Chat;
  from_user : option User;
  text : option str
}.

Record CallbackQuery := {
  cb_id : Z;
  cb_from_user : User;
  cb_message : Message;
  cb_data : option str
}.

Record ChatMemberUpdated := {
  event_chat : Chat;
  new_chat_member_user : User;
  new_chat_member_status : ChatMemberStatus
}.

Inductive Update :=
| message_update (m : Message)
| callback_query_update (cb : CallbackQuery)
| chat_member_update (ev : ChatMemberUpdated).

Record ChatPermissions := {
  can_send_messages : bool;
  can_send_audios : bool;
  can_send_documents : bool;
  can_send_photos : bool;
  can_send_videos : bool;
  can_send_video_notes : bool;
  can_send_voice_notes : bool;
  can_send_polls : bool;
  can_send_other_messages : bool;
  can_add_web_page_previews : bool
}.

Definition locked_perms : ChatPermissions :=
  {| can_send_messages := false; can_send_audios := false;
     can_send_documents := false; can_send_photos := false;
     can_send_videos := false; can_send_video_notes := false;
     can_send_voice_notes := false; can_send_polls := false;
     can_send_other_messages := false; can_add_web_page_previews := false |}.

Definition open_perms : ChatPermissions :=
  {| can_send_messages := true; can_send_audios := true;
     can_send_documents := true; can_send_photos := true;
     can_send_videos := true; can_send_video_notes := true;
     can_send_voice_notes := true; can_send_polls := true;
     can_send_other_messages := true; can_add_web_page_previews := true |}.

(** A stored profile: the columns of [profiles] besides the key. The
    [email] column is nullable. *)
Record Profile := {
  first_name : str;
  last_name : str;
  school_cls : str;
  email : option str;
  created_at : str
}.

(** The texts the bot sends, by the place of the source that builds them;
    the arguments are the values the source formats into the text. A deep
    link is represented by the chat it verifies. *)
Inductive Text :=
| dm_text (link : option Z)
| need_dm_notice (bot_username : option str)
| already_registered (restored : bool)
| ask_first_name
| ask_last_name
| ask_school_cls
| ask_email
| bad_email_format
| check_data (first last cls mail : str)
| reenter_first_name
| reenter_last_name
| reenter_school_cls
| reenter_email
| email_domain_error
| access_opened
| registration_finished
| user_allowed (user : Z)
| who_admins_only
| who_usage
| who_profile (user : Z) (p : Profile)
| who_not_found
| remove_admins_only
| remove_usage
| removed (user : Z)
| info_text
| export_admins_only
| setup_in_group_only
| setup_admins_only
| setup_text (link : option Z).

(** The file [export_csv] writes: its name is derived from the clock, its
    content is the header followed by one record per profile. *)
Record CsvFile := {
  csv_timestamp : Z;
  csv_rows : list (Z * Profile)
}.

(** Requests to the platform and the other effects a handler has outside
    the program state. *)
Inductive ApiCall :=
| restrict_chat_member (chat user : Z) (permissions : ChatPermissions)
| send_message (chat : Z) (t : Text)
| delete_message (chat message : Z)
| answer_callback_query (cb : Z)
| get_chat_member (chat user : Z)
| create_start_link (payload_chat : Z)
| pin_chat_message (chat message : Z)
| answer_document (chat : Z) (f : CsvFile)
| asyncio_sleep (seconds : Z)
| write_file (f : CsvFile).

(** The ways a request to the platform fails. [TelegramNetworkError]
    stands for every failure that is none of the three the source catches. *)
Inductive TelegramError :=
| TelegramForbiddenError
| TelegramBadRequest
| TelegramNotFound
| TelegramNetworkError.

(** Python exceptions the program raises, catches or lets through. *)
Inductive PyExc :=
| ValueError
| IndexError
| OverflowError
| AttributeError
| IntegrityError
| TelegramAPIError (e : TelegramError).

(** What surrounds one run of a handler: the clocks, and how the platform
    answers each request ([None]: it succeeds). *)
Record Env := {
  utcnow_isoformat : str;
  utcnow_timestamp : Z;
  time_time : Q;
  api_error : ApiCall -> option TelegramError;
  member_status : Z -> Z -> ChatMemberStatus;
  sent_message_id : Z;
  me_username : option str
}.

(** * Program state *)

(** [class Reg(StatesGroup)] *)
Module Reg.
Inductive t := first_name | last_name | school_cls | email | confirm.
End Reg.

(** The FSM context of one (chat, user) pair. *)
Record Session := {
  state : option Reg.t;
  data : gmap string str
}.

Definition no_session : Session := {| state := None; data := ∅ |}.

(** The database file, the FSM storage and the module-level globals. *)
Record World := {
  profiles : gmap Z Profile;
  idx_profiles_email_unique : bool;
  pending : gmap (Z * Z) str;
  storage : gmap (Z * Z) Session;
  NEED_DM_CACHE : gmap Z (gset Z);
  LAST_NOTICE_AT : gmap Z Q;
  BOT_USERNAME : option str
}.

Definition set_profiles (f : gmap Z Profile -> gmap Z Profile) (w : World) : World :=
  {| profiles := f (profiles w);
     idx_profiles_email_unique := idx_profiles_email_unique w;
     pending := pending w; storage := storage w;
     NEED_DM_CACHE := NEED_DM_CACHE w; LAST_NOTICE_AT := LAST_NOTICE_AT w;
     BOT_USERNAME := BOT_USERNAME w |}.

Definition set_idx (b : bool) (w : World) : World :=
  {| profiles := profiles w;
     idx_profiles_email_unique := b;
     pending := pending w; storage := storage w;
     NEED_DM_CACHE := NEED_DM_CACHE w; LAST_NOTICE_AT := LAST_NOTICE_AT w;
     BOT_USERNAME := BOT_USERNAME w |}.

Definition set_pending (f : gmap (Z * Z) str -> gmap (Z * Z) str) (w : World) : World :=
  {| profiles := profiles w;
     idx_profiles_email_unique := idx_profiles_email_unique w;
     pending := f (pending w); storage := storage w;
     NEED_DM_CACHE := NEED_DM_CACHE w; LAST_NOTICE_AT := LAST_NOTICE_AT w;
     BOT_USERNAME := BOT_USERNAME w |}.

Definition set_storage (f : gmap (Z * Z) Session -> gmap (Z * Z) Session) (w : World) : World :=
  {| profiles := profiles w;
     idx_profiles_email_unique := idx_profiles_email_unique w;
     pending := pending w; storage := f (storage w);
     NEED_DM_CACHE := NEED_DM_CACHE w; LAST_NOTICE_AT := LAST_NOTICE_AT w;
     BOT_USERNAME := BOT_USERNAME w |}.

Definition set_throttle (c : gmap Z (gset Z)) (l : gmap Z Q) (w : World) : World :=
  {| profiles := profiles w;
     idx_profiles_email_unique := idx_profiles_email_unique w;
     pending := pending w; storage := storage w;
     NEED_DM_CACHE := c; LAST_NOTICE_AT := l;
     BOT_USERNAME := BOT_USERNAME w |}.

(** * Handlers as computations *)

Inductive Res (A : Type) :=
| Ok (a : A)
| Raise (e : PyExc).
Arguments Ok {A} a.
Arguments Raise {A} e.

(** A run of a computation returns or raises, leaves a state behind either
    way, and lists the requests it issued. *)
#[projections(primitive)]
Record Run (A : Type) := {
  result : Res A;
  final_world : World;
  calls : list ApiCall
}.
Arguments result {A} r.
Arguments final_world {A} r.
Arguments calls {A} r.
Arguments Build_Run {A} result final_world calls.

Definition M (A : Type) : Type := World -> Run A.

Definition ret {A} (a : A) : M A :=
  fun w => {| result := Ok a; final_world := w; calls := [] |}.

Definition raise {A} (e : PyExc) : M A :=
  fun w => {| result := Raise e; final_world := w; calls := [] |}.

Definition bind {A B} (c : M A) (k : A -> M B) : M B :=
  fun w =>
    let r1 := c w in
    match result r1 with
    | Ok a =>
        let r2 := k a (final_world r1) in
        {| result := result r2; final_world := final_world r2;
           calls := calls r1 ++ calls r2 |}
    | Raise e =>
        {| result := Raise e; final_world := final_world r1;
           calls := calls r1 |}
    end.

Declare Scope py_scope.
Delimit Scope py_scope with py.
Notation "x <- c ;; k" := (bind c (fun x => k))
  (at level 100, c at next level, right associativity) : py_scope.
Notation "c ;; k" := (bind c (fun _ => k))
  (at level 100, right associativity) : py_scope.

Definition get : M World :=
  fun w => {| result := Ok w; final_world := w; calls := [] |}.

Definition modify (f : World -> World) : M unit :=
  fun w => {| result := Ok tt; final_world := f w; calls := [] |}.

(** [try: body except <classes>: handler] *)
Definition try_except {A} (body : M A) (classes : PyExc -> bool)
    (handler : M A) : M A :=
  fun w =>
    let r1 := body w in
    match result r1 with
    | Raise e =>
        if classes e
        then let r2 := handler (final_world r1) in
             {| result := result r2; final_world := final_world r2;
                calls := calls r1 ++ calls r2 |}
        else r1
    | Ok _ => r1
    end.

(** [except (TelegramForbiddenError, TelegramBadRequest)] *)
Definition forbidden_or_bad (e : PyExc) : bool :=
  match e with
  | TelegramAPIError (TelegramForbiddenError | TelegramBadRequest) => true
  | _ => false
  end.

(** [except (TelegramForbiddenError, TelegramBadRequest, TelegramNotFound)] *)
Definition telegram_errors (e : PyExc) : bool :=
  match e with
  | TelegramAPIError
      (TelegramForbiddenError | TelegramBadRequest | TelegramNotFound) => true
  | _ => false
  end.

(** [except Exception] *)
Definition any_exception (e : PyExc) : bool := true.

(** [except ValueError] *)
Definition value_error (e : PyExc) : bool :=
  match e with ValueError => true | _ => false end.

(** * The bot *)

Definition NOTICE_COOLDOWN : Q := 60.
Definition BATCH_THRESHOLD : nat := 20.

(** The range of SQLite's INTEGER. Identifiers delivered by the platform
    lie in it; an integer read from a message text may not, and binding it
    to a statement raises [OverflowError]. *)
Definition sqlite_integer (x : Z) : bool :=
  ((- 2 ^ 63 <=? x) && (x <? 2 ^ 63))%Z.

(** Two rows of [profiles] hold the same non-null e-mail. *)
Definition has_duplicate_email (ps : gmap Z Profile) : bool :=
  existsb (fun '(k1, p1) =>
    existsb (fun '(k2, p2) =>
      negb (k1 =? k2)%Z &&
      match email p1 with
      | Some e => bool_decide (email p2 = Some e)
      | None => false
      end) (map_to_list ps)) (map_to_list ps).

(** A row other than [user]'s holds the e-mail [e]. *)
Definition email_taken (ps : gmap Z Profile) (user : Z) (e : str) : bool :=
  existsb (fun '(k, p) => negb (k =? user)%Z && bool_decide (email p = Some e))
    (map_to_list ps).

(** [ORDER BY created_at DESC LIMIT 1] over the rows of one user. *)
Definition newer (a b : Z * Z * str) : Z * Z * str :=
  if str_leb (snd b) (snd a) then a else b.

Definition latest_pending (user : Z) (pend : gmap (Z * Z) str) : option Z :=
  match List.filter (fun r : Z * Z * str => (fst (fst r) =? user)%Z) (map_to_list pend) with
  | [] => None
  | r :: rs => Some (snd (fst (fold_left newer rs r)))
  end.

(** Insertion by [created_at], after the rows that are not newer. *)
Fixpoint insert_by_created_at (r : Z * Profile) (l : list (Z * Profile)) : list (Z * Profile) :=
  match l with
  | [] => [r]
  | x :: l' =>
      if str_leb (created_at (snd x)) (created_at (snd r))
      then x :: insert_by_created_at r l'
      else r :: l
  end.

(** [SELECT ... FROM profiles ORDER BY created_at] *)
Definition order_by_created_at (ps : gmap Z Profile) : list (Z * Profile) :=
  fold_right insert_by_created_at [] (map_to_list ps).

Section Bot.
Context {U : UnicodeData}.
Variable ALLOWED_ADMINS : gset Z.
Variable env : Env.

Local Open Scope Z_scope.
Local Open Scope py_scope.

(** A request to the platform. *)
Definition api (c : ApiCall) : M unit :=
  fun w =>
    {| result := match api_error env c with
                 | None => Ok tt
                 | Some e => Raise (TelegramAPIError e)
                 end;
       final_world := w; calls := [c] |}.

(** An effect that does not fail. *)
Definition effect (c : ApiCall) : M unit :=
  fun w => {| result := Ok tt; final_world := w; calls := [c] |}.

(** [message.answer(text)] *)
Definition answer (message : Message) (t : Text) : M unit :=
  api (send_message (chat_id (chat message)) t).

(** ** DB layer *)

Definition ensure_schema_upgrade : M unit :=
  w <- get ;;
  if idx_profiles_email_unique w then ret tt
  else if has_duplicate_email (profiles w) then ret tt
  else modify (set_idx true).

Definition init_db : M unit := ensure_schema_upgrade.

Definition is_registered (user_id : Z) : M bool :=
  w <- get ;;
  ret (match profiles w !! user_id with Some _ => true | None => false end).

Definition save_profile (user_id : Z)
    (first_name last_name school_cls email : option str) : M unit :=
  let email_norm := lower (strip (py_or_empty email)) in
  if negb (is_valid_fizmat_email email_norm) then raise ValueError
  else
    w <- get ;;
    if idx_profiles_email_unique w && email_taken (profiles w) user_id email_norm
    then raise IntegrityError
    else modify (set_profiles (insert user_id
           {| first_name := strip (py_or_empty first_name);
              last_name := strip (py_or_empty last_name);
              school_cls := strip (py_or_empty school_cls);
              email := Some email_norm;
              created_at := utcnow_isoformat env |})).

Definition add_pending (user_id chat_id : Z) : M unit :=
  modify (set_pending (insert (user_id, chat_id) (utcnow_isoformat env))).

Definition consume_pending (user_id : Z) : M (option Z) :=
  w <- get ;;
  match latest_pending user_id (pending w) with
  | None => ret None
  | Some chat_id =>
      modify (set_pending (delete (user_id, chat_id))) ;;
      ret (Some chat_id)
  end.

Definition get_profile_row (user_id : Z) : M (option Profile) :=
  w <- get ;; ret (profiles w !! user_id).

Definition delete_profile (user_id : Z) : M unit :=
  modify (set_profiles (delete user_id)).

(** Binding an integer that was read from a text. *)
Definition bind_integer (x : Z) : M unit :=
  if sqlite_integer x then ret tt else raise OverflowError.

(** ** FSM context *)

Definition session_of (w : World) (key : Z * Z) : Session :=
  match storage w !! key with Some s => s | None => no_session end.

Definition get_state (key : Z * Z) : M (option Reg.t) :=
  w <- get ;; ret (state (session_of w key)).

Definition set_state (key : Z * Z) (st : Reg.t) : M unit :=
  w <- get ;;
  modify (set_storage (insert key
    {| state := Some st; data := data (session_of w key) |})).

Definition update_data (key : Z * Z) (k : string) (v : str) : M unit :=
  w <- get ;;
  modify (set_storage (insert key
    {| state := state (session_of w key);
       data := <[k := v]> (data (session_of w key)) |})).

Definition get_data (key : Z * Z) : M (gmap string str) :=
  w <- get ;; ret (data (session_of w key)).

(** [state.clear()] *)
Definition clear (key : Z * Z) : M unit :=
  modify (set_storage (insert key no_session)).

(** [data.get(k, "")] *)
Definition data_get (d : gmap string str) (k : string) : str :=
  match d !! k with Some v => v | None => [] end.

(** ** Small utils *)

Definition send_ephemeral_group_notice (chat_id : Z) (t : Text) (ttl : Z) : M unit :=
  sent <- try_except (api (send_message chat_id t) ;; ret true)
            forbidden_or_bad (ret false) ;;
  if sent : bool then
    effect (asyncio_sleep ttl) ;;
    try_except (api (delete_message chat_id (sent_message_id env)))
      telegram_errors (ret tt)
  else ret tt.

Definition is_admin (chat_id user_id : Z) : M bool :=
  try_except
    (api (get_chat_member chat_id user_id) ;;
     ret (match member_status env chat_id user_id with
          | CREATOR | ADMINISTRATOR => true
          | _ => false
          end))
    telegram_errors (ret false).

Definition is_group (t : ChatType) : bool :=
  match t with GROUP | SUPERGROUP => true | _ => false end.

(** [create_start_link(bot, payload=f"verify_{chat_id}")] under
    [try ... except Exception: link = None] *)
Definition start_link (chat_id : Z) : M (option Z) :=
  try_except (api (create_start_link chat_id) ;; ret (Some chat_id))
    any_exception (ret None).

(** ** Group handlers *)

Definition on_user_join (event : ChatMemberUpdated) : M unit :=
  let chat := event_chat event in
  let user := new_chat_member_user event in
  if negb (is_group (chat_type chat)) then ret tt
  else if is_bot user then ret tt
  else
    registered <- is_registered (user_id user) ;;
    if registered : bool then ret tt
    else
      try_except
        (api (restrict_chat_member (chat_id chat) (user_id user) locked_perms))
        telegram_errors (ret tt) ;;
      add_pending (user_id user) (chat_id chat) ;;
      link <- start_link (chat_id chat) ;;
      try_except (api (send_message (user_id user) (dm_text link)))
        telegram_errors (ret tt).

(** The [except] branch of the private notification in
    [guard_group_messages]: the batched, throttled group notice. *)
Definition batch_notice (chat_id user_id : Z) : M unit :=
  w <- get ;;
  let members := {[user_id]} ∪ default ∅ (NEED_DM_CACHE w !! chat_id) in
  let cache := <[chat_id := members]> (NEED_DM_CACHE w) in
  let now := time_time env in
  let last := default 0%Q (LAST_NOTICE_AT w !! chat_id) in
  if Qle_bool NOTICE_COOLDOWN (now - last)
     || (BATCH_THRESHOLD <=? size members)%nat
  then
    modify (set_throttle (<[chat_id := ∅]> cache)
                         (<[chat_id := now]> (LAST_NOTICE_AT w))) ;;
    try_except (api (send_message chat_id (need_dm_notice (BOT_USERNAME w))))
      telegram_errors (ret tt)
  else modify (set_throttle cache (LAST_NOTICE_AT w)).

Definition guard_group_messages (message : Message) : M unit :=
  match from_user message with
  | None => ret tt
  | Some user =>
      if is_bot user then ret tt
      else
        let user_id := user_id user in
        let chat_id := chat_id (chat message) in
        registered <- is_registered user_id ;;
        if registered : bool then ret tt
        else
          add_pending user_id chat_id ;;
          try_except
            (api (restrict_chat_member chat_id user_id locked_perms))
            telegram_errors (ret tt) ;;
          try_except (api (delete_message chat_id (message_id message)))
            telegram_errors (ret tt) ;;
          link <- start_link chat_id ;;
          try_except (api (send_message user_id (dm_text link)))
            telegram_errors (batch_notice chat_id user_id)
  end.

(** ** Startup *)

Definition on_startup : M unit :=
  init_db ;;
  modify (fun w =>
    {| profiles := profiles w;
       idx_profiles_email_unique := idx_profiles_email_unique w;
       pending := pending w; storage := storage w;
       NEED_DM_CACHE := NEED_DM_CACHE w; LAST_NOTICE_AT := LAST_NOTICE_AT w;
       BOT_USERNAME := me_username env |}).

(** ** DM / form handlers *)

(** [message.from_user.id] *)
Definition from_user_id (message : Message) : M Z :=
  match from_user message with
  | Some u => ret (user_id u)
  | None => raise AttributeError
  end.

(** [if chat_id:] holds for an identifier other than [None] and [0]. *)
Definition truthy (chat_id : option Z) : option Z :=
  match chat_id with
  | Some c => if c =? 0 then None else Some c
  | None => None
  end.

Definition unlock_user_in_chat (chat_id user_id : Z) : M unit :=
  try_except
    (api (restrict_chat_member chat_id user_id open_perms) ;;
     api (send_message chat_id (user_allowed user_id)))
    telegram_errors (ret tt).

Definition start (message : Message) (ctx : Z * Z) : M unit :=
  let args := split_maxsplit1 (py_or_empty (text message)) in
  let payload := match args with _ :: p :: _ => p | _ => [] end in
  uid <- from_user_id message ;;
  registered <- is_registered uid ;;
  if registered : bool then
    chat_id <- consume_pending uid ;;
    match truthy chat_id with
    | Some c =>
        unlock_user_in_chat c uid ;;
        answer message (already_registered true)
    | None => answer message (already_registered false)
    end
  else
    (if startswith payload (str_of "verify_") then
       try_except
         (match snd (partition1 95 payload) with
          | None => raise IndexError
          | Some digits =>
              match py_int digits with
              | None => raise ValueError
              | Some chat_id =>
                  bind_integer chat_id ;; add_pending uid chat_id
              end
          end)
         any_exception (ret tt)
     else ret tt) ;;
    set_state ctx Reg.first_name ;;
    answer message ask_first_name.

Definition reg_first_name (message : Message) (ctx : Z * Z) : M unit :=
  update_data ctx "first_name" (strip (py_or_empty (text message))) ;;
  set_state ctx Reg.last_name ;;
  answer message ask_last_name.

Definition reg_last_name (message : Message) (ctx : Z * Z) : M unit :=
  update_data ctx "last_name" (strip (py_or_empty (text message))) ;;
  set_state ctx Reg.school_cls ;;
  answer message ask_school_cls.

Definition reg_class (message : Message) (ctx : Z * Z) : M unit :=
  update_data ctx "school_cls" (strip (py_or_empty (text message))) ;;
  set_state ctx Reg.email ;;
  answer message ask_email.

Definition reg_email (message : Message) (ctx : Z * Z) : M unit :=
  let email := lower (strip (py_or_empty (text message))) in
  if negb (is_valid_fizmat_email email) then answer message bad_email_format
  else
    update_data ctx "email" email ;;
    data <- get_data ctx ;;
    set_state ctx Reg.confirm ;;
    answer message
      (check_data (data_get data "first_name") (data_get data "last_name")
                  (data_get data "school_cls") (data_get data "email")).

Definition edit_first (cb : CallbackQuery) (ctx : Z * Z) : M unit :=
  answer (cb_message cb) reenter_first_name ;;
  set_state ctx Reg.first_name ;;
  api (answer_callback_query (cb_id cb)).

Definition edit_last (cb : CallbackQuery) (ctx : Z * Z) : M unit :=
  answer (cb_message cb) reenter_last_name ;;
  set_state ctx Reg.last_name ;;
  api (answer_callback_query (cb_id cb)).

Definition edit_cls (cb : CallbackQuery) (ctx : Z * Z) : M unit :=
  answer (cb_message cb) reenter_school_cls ;;
  set_state ctx Reg.school_cls ;;
  api (answer_callback_query (cb_id cb)).

Definition edit_email (cb : CallbackQuery) (ctx : Z * Z) : M unit :=
  answer (cb_message cb) reenter_email ;;
  set_state ctx Reg.email ;;
  api (answer_callback_query (cb_id cb)).

Definition confirm (cb : CallbackQuery) (ctx : Z * Z) : M unit :=
  data <- get_data ctx ;;
  let uid := user_id (cb_from_user cb) in
  saved <- try_except
    (save_profile uid
       (Some (data_get data "first_name")) (Some (data_get data "last_name"))
       (Some (data_get data "school_cls")) (Some (data_get data "email")) ;;
     ret true)
    value_error
    (answer (cb_message cb) email_domain_error ;;
     set_state ctx Reg.email ;;
     api (answer_callback_query (cb_id cb)) ;;
     ret false) ;;
  if saved : bool then
    clear ctx ;;
    chat_id <- consume_pending uid ;;
    match truthy chat_id with
    | Some c =>
        unlock_user_in_chat c uid ;;
        answer (cb_message cb) access_opened
    | None => answer (cb_message cb) registration_finished
    end ;;
    api (answer_callback_query (cb_id cb))
  else ret tt.

(** ** Admin tools *)

(** [ALLOWED_ADMINS and message.from_user.id not in ALLOWED_ADMINS] *)
Definition not_allowed (message : Message) : M bool :=
  if bool_decide (ALLOWED_ADMINS = ∅) then ret false
  else
    uid <- from_user_id message ;;
    ret (negb (bool_decide (uid ∈ ALLOWED_ADMINS))).

(** The argument of [/who] and [/remove]: [None] when fewer than two words
    are given or the second is not made of digits. *)
Definition digits_argument (message : Message) : option str :=
  match split (py_or_empty (text message)) with
  | _ :: a :: _ => if isdigit a then Some a else None
  | _ => None
  end.

(** [int(parts[1])] *)
Definition int_of (a : str) : M Z :=
  match py_int a with
  | Some n => ret n
  | None => raise ValueError
  end.

Definition who_cmd_private (message : Message) : M unit :=
  refused <- not_allowed message ;;
  if refused : bool then answer message who_admins_only
  else
    match digits_argument message with
    | None => answer message who_usage
    | Some a =>
        target_id <- int_of a ;;
        bind_integer target_id ;;
        row <- get_profile_row target_id ;;
        match row with
        | Some p => answer message (who_profile target_id p)
        | None => answer message who_not_found
        end
    end.

Definition remove_cmd (message : Message) : M unit :=
  refused <- not_allowed message ;;
  if refused : bool then answer message remove_admins_only
  else
    match digits_argument message with
    | None => answer message remove_usage
    | Some a =>
        target_id <- int_of a ;;
        bind_integer target_id ;;
        delete_profile target_id ;;
        answer message (removed target_id)
    end.

Definition info_cmd (message : Message) : M unit := answer message info_text.

Definition export_csv (message : Message) : M unit :=
  permitted <-
    match chat_type (chat message) with
    | PRIVATE => ret true
    | _ =>
        uid <- from_user_id message ;;
        is_admin (chat_id (chat message)) uid
    end ;;
  if permitted : bool then
    w <- get ;;
    let f := {| csv_timestamp := utcnow_timestamp env;
                csv_rows := order_by_created_at (profiles w) |} in
    effect (write_file f) ;;
    try_except (api (answer_document (chat_id (chat message)) f))
      forbidden_or_bad (ret tt)
  else
    send_ephemeral_group_notice (chat_id (chat message)) export_admins_only 8.

Definition setup_instructions (message : Message) : M unit :=
  if negb (is_group (chat_type (chat message)))
  then answer message setup_in_group_only
  else
    uid <- from_user_id message ;;
    admin <- is_admin (chat_id (chat message)) uid ;;
    if admin : bool then
      link <- start_link (chat_id (chat message)) ;;
      try_except
        (api (send_message (chat_id (chat message)) (setup_text link)) ;;
         api (pin_chat_message (chat_id (chat message)) (sent_message_id env)))
        telegram_errors (ret tt)
    else
      send_ephemeral_group_notice (chat_id (chat message)) setup_admins_only 8.

(** ** The dispatcher *)

(** The FSM context of an update is keyed by its chat and its sender. *)
Definition fsm_key (c : Chat) (u : option User) : Z * Z :=
  (chat_id c, match u with Some x => user_id x | None => 0 end).

(** The [Command] filter of the framework: the command a message carries,
    if its first word is [/name] or [/name@mention] with a mention of this
    bot. *)
Definition command_of (w : World) (message : Message) : option str :=
  match split_maxsplit1 (py_or_empty (text message)) with
  | (prefix :: rest) :: _ =>
      if (prefix =? 47)%N then
        let '(command, mention) := partition1 64 rest in
        match py_or_empty mention, py_or_empty (BOT_USERNAME w) with
        | _ :: _ as m, _ :: _ as me =>
            if bool_decide (lower m = lower me) then Some command else None
        | _, _ => Some command
        end
      else None
  | _ => None
  end.

Definition is_command (w : World) (message : Message) (name : string) : bool :=
  bool_decide (command_of w message = Some (str_of name)).

Definition is_data (cb : CallbackQuery) (name : string) : bool :=
  bool_decide (cb_data cb = Some (str_of name)).

(** Message handlers, in the order the source registers them; the first
    whose filters pass handles the message. *)
Definition dispatch_message (message : Message) : M unit :=
  w <- get ;;
  let ctx := fsm_key (chat message) (from_user message) in
  let st := match from_user message with
            | Some _ => state (session_of w ctx)
            | None => None
            end in
  if is_group (chat_type (chat message)) then guard_group_messages message
  else if is_command w message "start" then start message ctx
  else
    match st with
    | Some Reg.first_name => reg_first_name message ctx
    | Some Reg.last_name => reg_last_name message ctx
    | Some Reg.school_cls => reg_class message ctx
    | Some Reg.email => reg_email message ctx
    | _ =>
        if is_command w message "who"
           && match chat_type (chat message) with PRIVATE => true | _ => false end
        then who_cmd_private message
        else if is_command w message "remove"
           && match chat_type (chat message) with PRIVATE => true | _ => false end
        then remove_cmd message
        else if is_command w message "info" then info_cmd message
        else if is_command w message "export" then export_csv message
        else if is_command w message "setup_instructions"
        then setup_instructions message
        else ret tt
    end.

Definition dispatch_callback (cb : CallbackQuery) : M unit :=
  w <- get ;;
  let ctx := fsm_key (chat (cb_message cb)) (Some (cb_from_user cb)) in
  match state (session_of w ctx) with
  | Some Reg.confirm =>
      if is_data cb "edit_first" then edit_first cb ctx
      else if is_data cb "edit_last" then edit_last cb ctx
      else if is_data cb "edit_cls" then edit_cls cb ctx
      else if is_data cb "edit_email" then edit_email cb ctx
      else if is_data cb "confirm" then confirm cb ctx
      else ret tt
  | _ => ret tt
  end.

Definition feed_update (upd : Update) : M unit :=
  match upd with
  | message_update m => dispatch_message m
  | callback_query_update cb => dispatch_callback cb
  | chat_member_update ev =>
      match new_chat_member_status ev with
      | MEMBER => on_user_join ev
      | _ => ret tt
      end
  end.

End Bot.


(** * Notions the claims are stated with *)

(** What [consume_pending] leaves of the table. *)
Definition consumed (user : Z) (pend : gmap (Z * Z) str) : gmap (Z * Z) str :=
  match latest_pending user pend with
  | Some chat => delete (user, chat) pend
  | None => pend
  end.

Definition is_restrict (c : ApiCall) : bool :=
  match c with restrict_chat_member _ _ _ => true | _ => false end.

(** The group notice of the throttle, sent to [chat]. *)
Definition is_notice (chat : Z) (c : ApiCall) : bool :=
  match c with
  | send_message c' (need_dm_notice _) => (c' =? chat)%Z
  | _ => false
  end.

(** The platform's side of a run: a [restrict_chat_member] it accepts mutes
    or unmutes the member, according to [can_send_messages]. [muted] holds
    the (chat, user) pairs that cannot write. *)
Definition platform_step (env : Env) (muted : gset (Z * Z)) (c : ApiCall) : gset (Z * Z) :=
  match c with
  | restrict_chat_member chat user p =>
      match api_error env c with
      | None =>
          if can_send_messages p then muted ∖ {[(chat, user)]}
          else muted ∪ {[(chat, user)]}
      | Some _ => muted
      end
  | _ => muted
  end.

Definition muted_after (env : Env) (l : list ApiCall) (muted : gset (Z * Z)) : gset (Z * Z) :=
  fold_left (platform_step env) l muted.

(** The update shows [user] in [group]: a message there, or the user
    becoming a member. *)
Definition observes (upd : Update) (user group : Z) : bool :=
  match upd with
  | message_update m =>
      is_group (chat_type (chat m)) && (chat_id (chat m) =? group)%Z
      && match from_user m with
         | Some u => (user_id u =? user)%Z
         | None => false
         end
  | chat_member_update ev =>
      (chat_id (event_chat ev) =? group)%Z
      && (user_id (new_chat_member_user ev) =? user)%Z
  | callback_query_update _ => false
  end.

(** Updates as the platform delivers them: a message arrives in a private
    chat, a group or a supergroup; a private chat has the identifier of its
    user, who is the sender of every message in it. *)
Definition private_of (c : Chat) (u : User) : bool :=
  match chat_type c with
  | PRIVATE => (chat_id c =? user_id u)%Z
  | GROUP | SUPERGROUP => true
  | CHANNEL => false
  end.

Definition well_formed (upd : Update) : bool :=
  match upd with
  | message_update m =>
      match from_user m with
      | Some u => private_of (chat m) u
      | None => is_group (chat_type (chat m))
      end
  | callback_query_update cb =>
      private_of (chat (cb_message cb)) (cb_from_user cb)
  | chat_member_update ev => is_group (chat_type (event_chat ev))
  end.

(** The program state with the session of [ctx] replaced. *)
Definition with_session (ctx : Z * Z) (s : Session) (w : World) : World :=
  set_storage (insert ctx s) w.

(** Every stored e-mail is its own lowercase. *)
Definition emails_lowercase {U : UnicodeData} (w : World) : Prop :=
  forall k p m, profiles w !! k = Some p -> email p = Some m -> lower m = m.

Definition private_chat (user : Z) : Chat :=
  {| chat_id := user; chat_type := PRIVATE |}.

(** A text message of [user] in the private chat with the bot. *)
Definition private_message (user : Z) (t : string) : Message :=
  {| message_id := 1; chat := private_chat user;
     from_user := Some {| user_id := user; is_bot := false |};
     text := Some (str_of t) |}.

(** [user] presses the button [d] under the bot's summary. *)
Definition button (user : Z) (d : string) : CallbackQuery :=
  {| cb_id := 1;
     cb_from_user := {| user_id := user; is_bot := false |};
     cb_message := {| message_id := 2; chat := private_chat user;
                      from_user := None; text := None |};
     cb_data := Some (str_of d) |}.

(** The texts [texts], typed one after the other by [user] in the private
    chat with the bot. *)
Definition type_texts {U : UnicodeData} (ALLOWED_ADMINS : gset Z) (env : Env)
    (user : Z) (texts : list string) (w : World) : World :=
  fold_left
    (fun w t => final_world (feed_update ALLOWED_ADMINS env
                               (message_update (private_message user t)) w))
    texts w.

(** The throttle is due: the cooldown has passed since the last notice in
    [group], or the set of [group], with [user] added, has reached the
    threshold. *)
Definition notice_due (env : Env) (w : World) (group user : Z) : Prop :=
  (NOTICE_COOLDOWN <= time_time env - default 0%Q (LAST_NOTICE_AT w !! group))%Q
  \/ BATCH_THRESHOLD <= size ({[user]} ∪ default (∅ : gset Z) (NEED_DM_CACHE w !! group)).

(** The run sent the group notice to [group]. *)
Definition noticed {A} (group : Z) (run : Run A) : bool :=
  existsb (is_notice group) (calls run).

(** The state after a sequence of updates, each with its environment. *)
Definition feed_updates {U : UnicodeData} (ALLOWED_ADMINS : gset Z)
    (steps : list (Env * Update)) (w : World) : World :=
  fold_left
    (fun w step => final_world (feed_update ALLOWED_ADMINS (fst step) (snd step) w))
    steps w.

(** None of the updates sends the group notice to [group]. *)
Fixpoint none_noticed {U : UnicodeData} (ALLOWED_ADMINS : gset Z) (group : Z)
    (steps : list (Env * Update)) (w : World) : bool :=
  match steps with
  | [] => true
  | step :: rest =>
      let run := feed_update ALLOWED_ADMINS (fst step) (snd step) w in
      negb (noticed group run)
      && none_noticed ALLOWED_ADMINS group rest (final_world run)
  end.

(** The sender of a group message. *)
Definition group_sender (upd : Update) (group : Z) : option Z :=
  match upd with
  | message_update m =>
      if is_group (chat_type (chat m)) && (chat_id (chat m) =? group)%Z
      then match from_user m with
           | Some u => Some (user_id u)
           | None => None
           end
      else None
  | _ => None
  end.

(** The handler of a step of the form. *)
Definition field_handler {U : UnicodeData} (st : Reg.t)
    : Env -> Message -> Z * Z -> M unit :=
  match st with
  | Reg.first_name => reg_first_name
  | Reg.last_name => reg_last_name
  | Reg.school_cls => reg_class
  | Reg.email => reg_email
  | Reg.confirm => fun _ _ _ => ret tt
  end.

(** The reading of "re-entering one field and reaching confirm again
    preserves the other three values", for the first-name button: whenever
    the texts typed after the button bring the session back to the confirm
    state, the other three values are the ones of before. *)
Definition reentry_preserves_others {U : UnicodeData} (ALLOWED_ADMINS : gset Z)
    (w : World) (user : Z) : Prop :=
  forall env texts,
    let w1 := final_world (feed_update ALLOWED_ADMINS env
                             (callback_query_update (button user "edit_first")) w) in
    let w2 := type_texts ALLOWED_ADMINS env user texts w1 in
    state (session_of w2 (user, user)) = Some Reg.confirm ->
    forall k, In k ["last_name"; "school_cls"; "email"]%string ->
      data (session_of w2 (user, user)) !! k = data (session_of w (user, user)) !! k.

(** The reading of "locked until the user is observed there again": the
    pending entry of [user] for [group] survives every update that does not
    show the user in that group. *)
Definition stays_until_observed {U : UnicodeData} (ALLOWED_ADMINS : gset Z)
    (w : World) (user group : Z) : Prop :=
  forall env upd,
    well_formed upd = true -> observes upd user group = false ->
    pending (final_world (feed_update ALLOWED_ADMINS env upd w)) !! (user, group)
    = pending w !! (user, group).

(** * Configuration *)

Section Configuration.
Context {U : UnicodeData}.

(** [s.split(sep)] for a one-character separator: the pieces between the
    separators, the empty ones included. *)
Fixpoint split_sep (sep : N) (s : str) : list str :=
  match s with
  | [] => [[]]
  | c :: r =>
      if (c =? sep)%N then [] :: split_sep sep r
      else match split_sep sep r with
           | w :: ws => (c :: w) :: ws
           | [] => [[c]]
           end
  end.

(** [sys.int_info.default_max_str_digits]: [int] raises [ValueError] for a
    numeral with more digits. A message text is shorter than that, a value
    of the environment need not be. *)
Definition int_max_str_digits : nat := 4300.

Definition is_digit_tok (t : int_tok) : bool :=
  match t with TDigit _ => true | _ => false end.

(** [int(s)] with the limit: [None] stands for [ValueError]. *)
Definition py_int_limited (s : str) : option Z :=
  if (int_max_str_digits <? length (List.filter is_digit_tok (map int_tok_of s)))%nat
  then None
  else py_int s.

(** [os.getenv("ALLOWED_ADMINS", "").strip()] *)
Definition ALLOWED_ADMINS_RAW (getenv : option str) : str :=
  strip (py_or_empty getenv).

(** [{int(x) for x in xs if x.strip().isdigit()}]; [None]: an [int(x)]
    raised [ValueError], which ends the program while it is loaded. *)
Fixpoint int_set (xs : list str) : option (gset Z) :=
  match xs with
  | [] => Some ∅
  | x :: r =>
      if isdigit (strip x) then
        match py_int_limited x with
        | Some n =>
            match int_set r with
            | Some s => Some ({[n]} ∪ s)
            | None => None
            end
        | None => None
        end
      else int_set r
  end.

(** The set [ALLOWED_ADMINS] the module computes from the environment. *)
Definition ALLOWED_ADMINS_from (getenv : option str) : option (gset Z) :=
  match ALLOWED_ADMINS_RAW getenv with
  | [] => Some ∅
  | raw => int_set (split_sep 44 raw)
  end.

End Configuration.

(** * Notions the further properties are stated with *)

(** No two rows of [profiles] hold the same non-null e-mail. *)
Definition unique_emails (ps : gmap Z Profile) : Prop :=
  forall k1 k2 p1 p2 e,
    ps !! k1 = Some p1 -> ps !! k2 = Some p2 ->
    email p1 = Some e -> email p2 = Some e -> k1 = k2.

(** The unique index, if the database has it, holds of the rows. *)
Definition index_holds (w : World) : Prop :=
  idx_profiles_email_unique w = true -> unique_emails (profiles w).

(** The platform fails with the errors the handlers name in their [except]
    clauses only: forbidden, bad request, not found. *)
Definition only_caught_errors (env : Env) : Prop :=
  forall c e, api_error env c = Some e ->
    telegram_errors (TelegramAPIError e) = true.

(** An update the group handlers take: a message in a group or supergroup,
    or a change of membership. *)
Definition group_update (upd : Update) : bool :=
  match upd with
  | message_update m => is_group (chat_type (chat m))
  | chat_member_update _ => true
  | callback_query_update _ => false
  end.


(** The user an update comes from. *)
Definition update_sender (upd : Update) : option Z :=
  match upd with
  | message_update m =>
      match from_user m with Some u => Some (user_id u) | None => None end
  | callback_query_update cb => Some (user_id (cb_from_user cb))
  | chat_member_update ev => Some (user_id (new_chat_member_user ev))
  end.

(** The FSM context the dispatcher gives the handler of an update. *)
Definition update_context (upd : Update) : option (Z * Z) :=
  match upd with
  | message_update m => Some (fsm_key (chat m) (from_user m))
  | callback_query_update cb =>
      Some (fsm_key (chat (cb_message cb)) (Some (cb_from_user cb)))
  | chat_member_update _ => None
  end.

(** The update is a [/remove] command. *)
Definition is_remove {U : UnicodeData} (w : World) (upd : Update) : bool :=
  match upd with
  | message_update m => is_command w m "remove"
  | _ => false
  end.

(** The number a string of ASCII digits denotes. *)
Definition digits_value (a : str) : Z :=
  fold_left (fun acc c => (acc * 10 + Z.of_N (c - 48))%Z) a 0%Z.

(** [",".join(items)] *)
Fixpoint join_comma (items : list str) : str :=
  match items with
  | [] => []
  | [a] => a
  | a :: rest => a ++ 44%N :: join_comma rest
  end.

(** A numeral: ASCII digits, at least one, no more than [int] accepts. *)
Definition numeral (a : str) : Prop :=
  a <> [] /\ forallb ascii_digit a = true /\
  (length a <= int_max_str_digits)%nat.

(** The order of [created_at] on the rows of an export. *)
Definition created_before (a b : Z * Profile) : Prop :=
  str_leb (created_at (snd a)) (created_at (snd b)) = true.

(** Every session in the confirm state holds an e-mail that passes the
    check [save_profile] makes. *)
Definition confirm_ready {U : UnicodeData} (w : World) : Prop :=
  forall ctx,
    state (session_of w ctx) = Some Reg.confirm ->
    is_valid_fizmat_email
      (lower (strip (data_get (data (session_of w ctx)) "email"))) = true.

(** The reply of the [except ValueError] branch of [confirm]. *)
Definition is_domain_error (c : ApiCall) : bool :=
  match c with
  | send_message _ email_domain_error => true
  | _ => false
  end.


(** The key under which a step of the form stores the text it receives;
    the e-mail step stores a text only when it accepts it. *)
Definition step_field (st : Reg.t) : option string :=
  match st with
  | Reg.first_name => Some "first_name"%string
  | Reg.last_name => Some "last_name"%string
  | Reg.school_cls => Some "school_cls"%string
  | Reg.email | Reg.confirm => None
  end.
(** * Properties *)

(** Handlers are simplified down to these functions, not through them. *)
Arguments lower : simpl never.
Arguments strip : simpl never.
Arguments is_valid_fizmat_email : simpl never.
Arguments email_taken : simpl never.
Arguments has_duplicate_email : simpl never.
Arguments latest_pending : simpl never.
Arguments order_by_created_at : simpl never.
Arguments session_of : simpl never.
Arguments data_get : simpl never.
Arguments split : simpl never.
Arguments split_maxsplit1 : simpl never.
Arguments py_int : simpl never.
Arguments isdigit : simpl never.
Arguments str_of : simpl never.
Arguments startswith : simpl never.
Arguments sqlite_integer : simpl never.
Arguments Qle_bool : simpl never.

(** ** Code points and ranges *)

Local Open Scope N_scope.

Lemma code_range_In (lo hi x : N) :
  In x (code_range lo hi) <-> lo <= x <= hi.
Proof.
  unfold code_range. rewrite in_map_iff. split.
  - intros (i & <- & Hi). apply in_seq in Hi. lia.
  - intros Hx. exists (N.to_nat (x - lo)). split; [lia|].
    apply in_seq. lia.
Qed.

Lemma mem_In (x : N) (l : list N) : mem x l = true <-> In x l.
Proof.
  unfold mem. rewrite existsb_exists. split.
  - intros (y & Hy & Heq). apply N.eqb_eq in Heq. now subst.
  - intros Hx. exists x. split; [assumption | apply N.eqb_refl].
Qed.

(** A fact of all code points below a bound follows from its check on the
    range. *)
Lemma below_by_range (P : N -> bool) (n x : N) :
  forallb P (code_range 0 n) = true -> x <= n -> P x = true.
Proof.
  intros Hall Hx. rewrite forallb_forall in Hall. apply Hall.
  apply code_range_In. lia.
Qed.

Lemma lstrip_suffix (s : str) :
  exists l, s = l ++ lstrip s /\ forallb Py_UNICODE_ISSPACE l = true.
Proof.
  induction s as [|c r (l & Hl & Hws)]; simpl.
  - exists []. split; reflexivity.
  - destruct (Py_UNICODE_ISSPACE c) eqn:Hc.
    + exists (c :: l). simpl. rewrite Hc, Hws. split; [now f_equal | reflexivity].
    + exists []. split; reflexivity.
Qed.

(** [strip] removes whitespace at both ends and nothing else. *)
Lemma strip_decompose (s : str) :
  exists l r, s = l ++ strip s ++ r /\
    forallb Py_UNICODE_ISSPACE l = true /\ forallb Py_UNICODE_ISSPACE r = true.
Proof.
  destruct (lstrip_suffix s) as (l & Hl & Hlws).
  destruct (lstrip_suffix (rev (lstrip s))) as (r & Hr & Hrws).
  exists l, (rev r). unfold strip, rstrip. split; [|split].
  - rewrite Hl at 1. f_equal.
    rewrite <- rev_app_distr, <- Hr. now rewrite rev_involutive.
  - assumption.
  - rewrite forallb_forall in *. intros x Hx. apply Hrws. now apply in_rev.
Qed.

Lemma lstrip_ascii (s : str) :
  forallb is_ascii s = true -> forallb is_ascii (lstrip s) = true.
Proof.
  induction s as [|c r IH]; simpl; [reflexivity|].
  intros H. apply andb_true_iff in H as [Hc Hr].
  destruct (Py_UNICODE_ISSPACE c); [auto|]. simpl. now rewrite Hc, Hr.
Qed.

Lemma forallb_rev (P : N -> bool) (s : str) :
  forallb P (rev s) = forallb P s.
Proof.
  induction s as [|c r IH]; simpl; [reflexivity|].
  rewrite forallb_app, IH. simpl. rewrite andb_true_r. apply andb_comm.
Qed.

Lemma strip_ascii (s : str) :
  forallb is_ascii s = true -> forallb is_ascii (strip s) = true.
Proof.
  intros H. unfold strip, rstrip. rewrite forallb_rev.
  apply lstrip_ascii. rewrite forallb_rev. now apply lstrip_ascii.
Qed.

Section LowerFacts.
Context {U : UnicodeData}.

(** On ASCII text [lower] is the ASCII mapping, code point by code point. *)
Lemma lower_from_ascii (pre s : str) :
  forallb is_ascii s = true -> lower_from pre s = map ascii_tolower s.
Proof.
  revert pre. induction s as [|c r IH]; intros pre H; simpl; [reflexivity|].
  simpl in H. apply andb_true_iff in H as [Hc Hr].
  unfold lower_cp. rewrite Hc. simpl. f_equal. now apply IH.
Qed.

Lemma lower_ascii (s : str) :
  forallb is_ascii s = true -> lower s = map ascii_tolower s.
Proof. apply lower_from_ascii. Qed.

End LowerFacts.

(** ** The matcher *)

Section SreFacts.
Context {U : UnicodeData}.

Fixpoint match_singles (xs : list sre_single) (s : str) : bool :=
  match xs, s with
  | [], [] => true
  | x :: xs', c :: s' => sre_test x c && match_singles xs' s'
  | _, _ => false
  end.

Lemma sre_match_singles (xs : list sre_single) (bos : bool) (s : str) :
  sre_match (map ONE xs ++ [AT_END]) bos s = match_singles xs s.
Proof.
  revert bos s. induction xs as [|x xs IH]; intros bos s.
  - destruct s as [|c [|c' s]]; simpl; try reflexivity.
    apply andb_false_r.
  - destruct s as [|c s]; simpl; [reflexivity|]. now rewrite IH.
Qed.

Lemma sre_star_ext (t : N -> bool) (k k' : bool -> str -> bool) :
  (forall b s, k b s = k' b s) ->
  forall b s, sre_star t k b s = sre_star t k' b s.
Proof.
  intros Hk b s. revert b. induction s as [|c r IH]; intros b; simpl.
  - now rewrite Hk.
  - now rewrite Hk, IH.
Qed.

(** The repetition splits the subject into a run that passes the test and
    a rest that the continuation accepts. *)
Lemma sre_star_split (t : N -> bool) (k : str -> bool) (b : bool) (s : str) :
  sre_star t (fun _ => k) b s = true <->
  exists l1 l2, s = l1 ++ l2 /\ forallb t l1 = true /\ k l2 = true.
Proof.
  revert b. induction s as [|c r IH]; intros b; simpl.
  - rewrite orb_false_r. split.
    + intros H. exists [], []. auto.
    + intros (l1 & l2 & Heq & _ & Hk).
      symmetry in Heq. apply app_eq_nil in Heq as [-> ->]. exact Hk.
  - rewrite orb_true_iff, andb_true_iff, IH. split.
    + intros [Hk | (Hc & l1 & l2 & -> & Hl1 & Hk)].
      * exists [], (c :: r). auto.
      * exists (c :: l1), l2. simpl. rewrite Hc, Hl1. auto.
    + intros (l1 & l2 & Heq & Hl1 & Hk). destruct l1 as [|c' l1].
      * simpl in Heq. subst l2. now left.
      * simpl in Heq. injection Heq as <- ->. simpl in Hl1.
        apply andb_true_iff in Hl1 as [Hc Hl1]. right. split; [exact Hc|].
        exists l1, l2. auto.
Qed.

(** What [FIZMAT_EMAIL_RE.fullmatch] accepts. *)
Lemma fullmatch_fizmat (s : str) :
  fullmatch FIZMAT_EMAIL_RE s = true <->
  exists l1 l2, s = l1 ++ l2 /\ l1 <> [] /\
    forallb (sre_test LOCAL_PART) l1 = true /\
    match_singles AT_FIZMAT_KZ l2 = true.
Proof.
  unfold fullmatch, FIZMAT_EMAIL_RE.
  cbn [sre_match andb sre_at_least].
  destruct s as [|c r].
  - split; [discriminate|].
    intros (l1 & l2 & Heq & Hne & _). symmetry in Heq.
    apply app_eq_nil in Heq as [-> _]. now contradiction Hne.
  - rewrite andb_true_iff.
    rewrite (sre_star_ext _ _ (fun _ => match_singles AT_FIZMAT_KZ))
      by (intros; apply sre_match_singles).
    rewrite sre_star_split. split.
    + intros (Hc & l1 & l2 & -> & Hl1 & Hk).
      exists (c :: l1), l2. cbn [forallb app]. rewrite Hc, Hl1.
      repeat split; auto.
    + intros (l1 & l2 & Heq & Hne & Hl1 & Hk).
      destruct l1 as [|c' l1]; [now contradiction Hne|].
      cbn [app] in Heq. injection Heq as <- ->. cbn [forallb] in Hl1.
      apply andb_true_iff in Hl1 as [Hc Hl1]. split; [exact Hc|].
      exists l1, l2. auto.
Qed.

End SreFacts.

Close Scope N_scope.

(** ** E-mail validation *)

Local Open Scope N_scope.

(** Lowered code points the local-part set holds. *)
Definition lowered_local (x : N) : bool :=
  ascii_lower x || ascii_digit x || mem x [46; 95; 37; 43; 45; 0x131; 0x17F].

(** A code point that is ASCII and not whitespace, or one of the two
    lowercase code points that share their uppercase with an ASCII letter. *)
Definition near_ascii (x : N) : bool :=
  (is_ascii x && negb (Py_UNICODE_ISSPACE x)) || (x =? 0x131) || (x =? 0x17F).

(** A code point some operator of the pattern accepts. *)
Definition re_char {U : UnicodeData} (d : N) : bool :=
  sre_test LOCAL_PART d || existsb (fun x => sre_test x d) AT_FIZMAT_KZ.

(** A code point [str.lower] leaves alone in every context. *)
Definition lower_fixed (c : N) : bool :=
  (is_ascii c && negb (ascii_upper c))
  || (c =? 0x131) || (c =? 0x17F) || Py_UNICODE_ISSPACE c.

Lemma partition1_Some (sep : N) (s a b : str) :
  partition1 sep s = (a, Some b) ->
  s = a ++ sep :: b /\ forallb (fun c => negb (c =? sep)) a = true.
Proof.
  revert a b. induction s as [|c r IH]; intros a b; simpl; [discriminate|].
  destruct (c =? sep) eqn:Hc.
  - intros [= <- <-]. apply N.eqb_eq in Hc. subst. split; reflexivity.
  - destruct (partition1 sep r) as [a' b'] eqn:Hp. intros [= <- ->].
    destruct (IH a' b eq_refl) as [-> Ha]. simpl. rewrite Hc, Ha.
    split; reflexivity.
Qed.

Lemma partition1_app (sep : N) (a b : str) :
  forallb (fun c => negb (c =? sep)) a = true ->
  partition1 sep (a ++ sep :: b) = (a, Some b).
Proof.
  induction a as [|c a IH]; simpl.
  - intros _. now rewrite N.eqb_refl.
  - intros H. apply andb_true_iff in H as [Hc Ha].
    apply negb_true_iff in Hc. rewrite Hc, (IH Ha). reflexivity.
Qed.

Lemma ascii_tolower_at (a : N) : ascii_tolower a = 64 -> a = 64.
Proof.
  unfold ascii_tolower, ascii_upper.
  destruct (65 <=? a) eqn:H1; destruct (a <=? 90) eqn:H2; simpl; try lia.
  apply N.leb_le in H1. lia.
Qed.

Lemma lowered_local_bound (x : N) : lowered_local x = true -> x < 512.
Proof.
  unfold lowered_local. intros H.
  apply orb_true_iff in H as [H | H];
    [apply orb_true_iff in H as [H | H] |].
  - unfold ascii_lower in H. apply andb_true_iff in H as [_ H].
    apply N.leb_le in H. lia.
  - unfold ascii_digit in H. apply andb_true_iff in H as [_ H].
    apply N.leb_le in H. lia.
  - apply mem_In in H. simpl in H.
    repeat (destruct H as [H | H]; [lia|]). contradiction.
Qed.

Section EmailFacts.
Context {U : UnicodeData}.

Lemma fixes_bound (lo y : N) : lo <= 127 -> In y (fixes lo) -> y < 512.
Proof.
  intros Hlo Hy.
  assert (H : forallb (fun y => y <? 512) (fixes lo) = true).
  { apply (below_by_range (fun lo => forallb (fun y => y <? 512) (fixes lo)) 127);
      [vm_compute; reflexivity | exact Hlo]. }
  rewrite forallb_forall in H. apply N.ltb_lt. now apply H.
Qed.

Lemma charmap_one_bound (av x : N) :
  av < 128 -> charmap_one av x = true -> x < 512.
Proof.
  intros Hav. unfold charmap_one, unicode_tolower, is_ascii.
  rewrite (proj2 (N.ltb_lt av 128) Hav).
  assert (Hlo : ascii_tolower av <= 127).
  { unfold ascii_tolower, ascii_upper.
    destruct (65 <=? av) eqn:H1; destruct (av <=? 90) eqn:H2; simpl; try lia.
    apply N.leb_le in H2. lia. }
  intros H. apply orb_true_iff in H as [H | H].
  - apply N.eqb_eq in H. lia.
  - apply mem_In in H. eapply fixes_bound; eassumption.
Qed.

Lemma charmap_local_bound (x : N) :
  existsb (fun it => charmap_item it x) LOCAL_PART_SET = true -> x < 512.
Proof.
  intros H. apply existsb_exists in H as (it & Hit & H).
  unfold LOCAL_PART_SET in Hit. simpl in Hit.
  assert (Hrange : forall a b, b < 128 ->
            charmap_item (SET_RANGE a b) x = true -> x < 512).
  { intros a b Hb Hx. simpl in Hx. apply existsb_exists in Hx as (i & Hi & Hx).
    apply code_range_In in Hi. apply (charmap_one_bound i); [lia | exact Hx]. }
  repeat (destruct Hit as [<- | Hit];
          [first [ apply Hrange in H; [exact H | lia]
                 | apply charmap_one_bound in H; [exact H | lia] ] |]).
  contradiction.
Qed.

Lemma charmap_local (x : N) :
  existsb (fun it => charmap_item it x) LOCAL_PART_SET = lowered_local x.
Proof.
  destruct (N.le_gt_cases x 511) as [Hx | Hx].
  - apply eqb_prop.
    apply (below_by_range
             (fun x => Bool.eqb (existsb (fun it => charmap_item it x) LOCAL_PART_SET)
                                (lowered_local x)) 511);
      [vm_compute; reflexivity | exact Hx].
  - transitivity false.
    + apply not_true_is_false. intros H. apply charmap_local_bound in H. lia.
    + symmetry. apply not_true_is_false. intros H.
      apply lowered_local_bound in H. lia.
Qed.

Lemma sre_test_local (c : N) :
  sre_test LOCAL_PART c = lowered_local (unicode_tolower c).
Proof.
  unfold sre_test, LOCAL_PART.
  replace (existsb item_hascased LOCAL_PART_SET) with true
    by (vm_compute; reflexivity).
  apply charmap_local.
Qed.

Lemma lowered_local_near (x : N) : lowered_local x = true -> near_ascii x = true.
Proof.
  intros H. assert (Hx : x < 512) by now apply lowered_local_bound.
  revert H. apply implb_true_iff.
  apply (below_by_range (fun x => implb (lowered_local x) (near_ascii x)) 511);
    [vm_compute; reflexivity | lia].
Qed.

Lemma sre_test_literal (a d : N) :
  sre_test (LITERAL a) d =
  if unicode_iscased a
  then mem (unicode_tolower d) (unicode_tolower a :: fixes (unicode_tolower a))
  else d =? a.
Proof. reflexivity. Qed.

(** The literals of the pattern accept a code point only if it lowers to
    ASCII or to U+0131. *)
Lemma sre_test_domain_near (d : N) :
  existsb (fun x => sre_test x d) AT_FIZMAT_KZ = true ->
  near_ascii (unicode_tolower d) = true \/ d = 64 \/ d = 46.
Proof.
  intros H. apply existsb_exists in H as (x & Hx & H).
  unfold AT_FIZMAT_KZ in Hx. cbn [map In] in Hx.
  rewrite <- (N.eqb_eq d 64), <- (N.eqb_eq d 46).
  repeat (destruct Hx as [<- | Hx];
    [ rewrite sre_test_literal in H;
      match type of H with
      | context [unicode_iscased ?a] =>
          let b := eval vm_compute in (unicode_iscased a) in
          change (unicode_iscased a) with b in H
      end;
      cbv iota in H;
      first
        [ right; left; exact H
        | right; right; exact H
        | left; apply mem_In in H;
          match type of H with
          | In ?v ?l =>
              let l' := eval vm_compute in l in change (In v l') in H
          end;
          cbn [In] in H;
          repeat (destruct H as [<- | H]; [reflexivity|]); contradiction ] |]).
  contradiction.
Qed.

Lemma near_ascii_64 : near_ascii 64 = true /\ near_ascii 46 = true.
Proof. split; reflexivity. Qed.

(** Which code points lower next to ASCII. *)
Lemma tolower_near (c : N) :
  near_ascii (unicode_tolower c) = true ->
  ucd_plain c = false /\ Py_UNICODE_ISSPACE c = false.
Proof.
  unfold unicode_tolower. destruct (is_ascii c) eqn:Ha.
  - intros H. split; [unfold ucd_plain; now rewrite Ha|].
    unfold is_ascii in Ha. apply N.ltb_lt in Ha.
    assert (Hc : implb (near_ascii (ascii_tolower c))
                       (negb (Py_UNICODE_ISSPACE c)) = true).
    { apply (below_by_range
               (fun c => implb (near_ascii (ascii_tolower c))
                               (negb (Py_UNICODE_ISSPACE c))) 127);
        [vm_compute; reflexivity | lia]. }
    rewrite H in Hc. simpl in Hc. now apply negb_true_iff in Hc.
  - destruct (c =? 0x130) eqn:H1.
    { apply N.eqb_eq in H1. subst c. intros _. split; reflexivity. }
    destruct (c =? 0x212A) eqn:H2.
    { apply N.eqb_eq in H2. subst c. intros _. split; reflexivity. }
    destruct (c =? 0x131) eqn:H3.
    { apply N.eqb_eq in H3. subst c. intros _. split; reflexivity. }
    destruct (c =? 0x17F) eqn:H4.
    { apply N.eqb_eq in H4. subst c. intros _. split; reflexivity. }
    simpl. destruct (Py_UNICODE_ISSPACE c) eqn:Hws.
    + unfold near_ascii. rewrite Ha, H3, H4. discriminate.
    + intros H. exfalso.
      assert (Hp : ucd_plain c = true).
      { unfold ucd_plain, meets_ascii. now rewrite Ha, H1, H2, H3, H4, Hws. }
      apply ucd_tolower_plain in Hp. revert H Hp.
      generalize (ucd_tolower c). intros x. unfold near_ascii, ucd_plain, meets_ascii.
      destruct (is_ascii x), (x =? 0x130), (x =? 0x131), (x =? 0x17F),
        (x =? 0x212A), (Py_UNICODE_ISSPACE x); simpl; congruence.
Qed.

Lemma re_char_classify (d : N) :
  re_char d = true -> ucd_plain d = false /\ Py_UNICODE_ISSPACE d = false.
Proof.
  unfold re_char. intros H. apply orb_true_iff in H as [H | H].
  - rewrite sre_test_local in H. apply tolower_near. now apply lowered_local_near.
  - apply sre_test_domain_near in H as [H | [-> | ->]].
    + now apply tolower_near.
    + split; reflexivity.
    + split; reflexivity.
Qed.

Lemma match_singles_chars (xs : list sre_single) (s : str) :
  match_singles xs s = true ->
  forallb (fun d => existsb (fun x => sre_test x d) xs) s = true.
Proof.
  revert s. induction xs as [|x xs IH]; intros [|c s]; simpl; try discriminate.
  - reflexivity.
  - intros H. apply andb_true_iff in H as [Hc Hs]. rewrite Hc. simpl.
    apply IH in Hs. rewrite forallb_forall in *. intros d Hd.
    rewrite (Hs d Hd). apply orb_true_r.
Qed.

(** Every code point of an accepted subject is accepted by an operator. *)
Lemma fullmatch_chars (s : str) :
  fullmatch FIZMAT_EMAIL_RE s = true -> forallb re_char s = true.
Proof.
  intros H. apply fullmatch_fizmat in H as (l1 & l2 & -> & _ & H1 & H2).
  apply match_singles_chars in H2. rewrite forallb_app.
  apply andb_true_iff. split; rewrite forallb_forall in *; intros d Hd;
    unfold re_char.
  - now rewrite (H1 d Hd).
  - rewrite (H2 d Hd). apply orb_true_r.
Qed.

End EmailFacts.

Close Scope N_scope.

(** ** Lowercasing and stored e-mails *)

Local Open Scope N_scope.

(** A code point [str.lower] can produce: no ASCII capital, and neither of
    the two capitals of [meets_ascii]. *)
Definition lower_output (d : N) : bool :=
  negb (ascii_upper d) && negb (d =? 0x130) && negb (d =? 0x212A).

Lemma ascii_space_not_upper (c : N) :
  is_ascii c = true -> Py_UNICODE_ISSPACE c = true -> ascii_upper c = false.
Proof.
  unfold is_ascii. intros Ha Hws. apply N.ltb_lt in Ha.
  assert (H : implb (Py_UNICODE_ISSPACE c) (negb (ascii_upper c)) = true).
  { apply (below_by_range
             (fun c => implb (Py_UNICODE_ISSPACE c) (negb (ascii_upper c))) 127);
      [vm_compute; reflexivity | lia]. }
  rewrite Hws in H. simpl in H. now apply negb_true_iff in H.
Qed.

Lemma ascii_tolower_output (c : N) :
  is_ascii c = true -> lower_output (ascii_tolower c) = true.
Proof.
  unfold is_ascii. intros Ha. apply N.ltb_lt in Ha.
  apply (below_by_range (fun c => lower_output (ascii_tolower c)) 127);
    [vm_compute; reflexivity | lia].
Qed.

Lemma plain_output (d : N) : ucd_plain d = true -> lower_output d = true.
Proof.
  unfold ucd_plain, lower_output, meets_ascii, ascii_upper, is_ascii.
  intros H. apply andb_true_iff in H as [H _].
  apply andb_true_iff in H as [Ha Hm].
  apply negb_true_iff in Ha. apply N.ltb_ge in Ha.
  destruct (d =? 0x130); [discriminate|].
  destruct (d =? 0x131); [discriminate|].
  destruct (d =? 0x17F); [discriminate|].
  destruct (d =? 0x212A); [discriminate|].
  rewrite (proj2 (N.leb_gt d 90)) by lia. now rewrite andb_false_r.
Qed.

Section StoredEmail.
Context {U : UnicodeData}.

Lemma lower_cp_fixed (pre : list N) (c : N) (post : list N) :
  lower_fixed c = true -> lower_cp pre c post = [c].
Proof.
  unfold lower_fixed, lower_cp. intros H. destruct (is_ascii c) eqn:Ha.
  - f_equal. unfold ascii_tolower.
    enough (Hu : ascii_upper c = false) by now rewrite Hu.
    unfold is_ascii in Ha. apply N.ltb_lt in Ha.
    simpl in H. apply orb_true_iff in H as [H | H].
    + apply orb_true_iff in H as [H | H].
      * apply orb_true_iff in H as [H | H].
        -- now apply negb_true_iff in H.
        -- apply N.eqb_eq in H. lia.
      * apply N.eqb_eq in H. lia.
    + apply ascii_space_not_upper; [now apply N.ltb_lt | exact H].
  - simpl in H.
    destruct (c =? 0x130) eqn:H1.
    { apply N.eqb_eq in H1. subst c. discriminate H. }
    destruct (c =? 0x212A) eqn:H2.
    { apply N.eqb_eq in H2. subst c. discriminate H. }
    now rewrite H.
Qed.

Lemma lower_from_fixed (pre s : str) :
  forallb lower_fixed s = true -> lower_from pre s = s.
Proof.
  revert pre. induction s as [|c r IH]; intros pre H; simpl; [reflexivity|].
  simpl in H. apply andb_true_iff in H as [Hc Hr].
  rewrite (lower_cp_fixed _ _ _ Hc), (IH _ Hr). reflexivity.
Qed.

Lemma lower_cp_output (pre : list N) (c : N) (post : list N) (d : N) :
  In d (lower_cp pre c post) -> lower_output d = true.
Proof.
  unfold lower_cp. destruct (is_ascii c) eqn:Ha.
  { intros [<- | []]. now apply ascii_tolower_output. }
  destruct (c =? 0x130) eqn:H1.
  { intros [<- | [<- | []]]; reflexivity. }
  destruct (c =? 0x212A) eqn:H2.
  { intros [<- | []]. reflexivity. }
  destruct ((c =? 0x131) || (c =? 0x17F) || Py_UNICODE_ISSPACE c) eqn:H3.
  - intros [<- | []]. unfold lower_output. rewrite H1, H2.
    unfold ascii_upper. unfold is_ascii in Ha. apply N.ltb_ge in Ha.
    rewrite (proj2 (N.leb_gt c 90)) by lia. now rewrite andb_false_r.
  - intros Hd. apply plain_output.
    assert (Hp : ucd_plain c = true).
    { unfold ucd_plain, meets_ascii. rewrite Ha, H1, H2.
      apply orb_false_iff in H3 as [H3 Hws].
      apply orb_false_iff in H3 as [H3 H4]. now rewrite H3, H4, Hws. }
    destruct (ucd_lower_plain pre c post Hp) as [_ Hall].
    rewrite forallb_forall in Hall. now apply Hall.
Qed.

Lemma lower_from_output (pre s : str) (d : N) :
  In d (lower_from pre s) -> lower_output d = true.
Proof.
  revert pre. induction s as [|c r IH]; intros pre; simpl; [contradiction|].
  intros H. apply in_app_or in H as [H | H].
  - eapply lower_cp_output; eassumption.
  - eapply IH; eassumption.
Qed.

(** A code point whose mapping is left to the database leaves such a code
    point in the lowered text. *)
Lemma plain_survives (pre s : str) (c : N) :
  In c s -> ucd_plain c = true ->
  exists d, In d (lower_from pre s) /\ ucd_plain d = true.
Proof.
  revert pre. induction s as [|a r IH]; intros pre; simpl; [contradiction|].
  intros [-> | Hin] Hp.
  - assert (Hcp : lower_cp pre c r = ucd_lower pre c r).
    { unfold lower_cp. unfold ucd_plain, meets_ascii in Hp.
      destruct (is_ascii c); [discriminate|].
      destruct (c =? 0x130); [discriminate|].
      destruct (c =? 0x131); [discriminate|].
      destruct (c =? 0x17F); [discriminate|].
      destruct (c =? 0x212A); [discriminate|].
      destruct (Py_UNICODE_ISSPACE c); [discriminate|]. reflexivity. }
    destruct (ucd_lower_plain pre c r Hp) as [Hne Hall].
    rewrite Hcp. destruct (ucd_lower pre c r) as [|d l]; [now contradiction Hne|].
    exists d. split; [now left|]. simpl in Hall.
    now apply andb_true_iff in Hall as [Hd _].
  - destruct (IH (a :: pre) Hin Hp) as (d & Hd & Hpd).
    exists d. split; [apply in_or_app; now right | exact Hpd].
Qed.

(** An accepted e-mail holds no code point whose lowercase mapping is left
    to the database. *)
Lemma valid_email_no_plain (e : str) (c : N) :
  is_valid_fizmat_email e = true -> In c (strip e) -> ucd_plain c = false.
Proof.
  unfold is_valid_fizmat_email. destruct e as [|a e']; [discriminate|].
  intros Hm Hc. destruct (ucd_plain c) eqn:Hp; [|reflexivity].
  destruct (plain_survives [] _ _ Hc Hp) as (d & Hd & Hpd).
  apply fullmatch_chars in Hm. rewrite forallb_forall in Hm.
  apply Hm, re_char_classify in Hd. destruct Hd. congruence.
Qed.

(** What [save_profile] stores as an e-mail is its own lowercase. *)
Lemma stored_email_lower (x : str) :
  is_valid_fizmat_email (lower (strip x)) = true ->
  lower (lower (strip x)) = lower (strip x).
Proof.
  set (e := lower (strip x)). intros Hv.
  apply lower_from_fixed. apply forallb_forall. intros c Hc.
  assert (Hout : lower_output c = true) by (eapply lower_from_output; exact Hc).
  assert (Hcases : Py_UNICODE_ISSPACE c = true \/ ucd_plain c = false).
  { destruct (strip_decompose e) as (l & r & He & Hl & Hr).
    rewrite He in Hc. rewrite forallb_forall in Hl, Hr.
    apply in_app_or in Hc as [Hc | Hc]; [left; now apply Hl|].
    apply in_app_or in Hc as [Hc | Hc]; [|left; now apply Hr].
    right. eapply valid_email_no_plain; eassumption. }
  unfold lower_fixed. destruct Hcases as [Hws | Hp].
  - rewrite Hws. apply orb_true_r.
  - unfold lower_output in Hout. unfold ucd_plain, meets_ascii in Hp.
    destruct (is_ascii c), (ascii_upper c), (c =? 0x130), (c =? 0x131),
      (c =? 0x17F), (c =? 0x212A), (Py_UNICODE_ISSPACE c);
      simpl in *; congruence.
Qed.

End StoredEmail.

Close Scope N_scope.

(** ** Validation against the rule of the specification *)

Local Open Scope N_scope.

Section ValidationFacts.
Context {U : UnicodeData}.

Lemma sre_test_local_ascii (a : N) :
  is_ascii a = true ->
  sre_test LOCAL_PART (ascii_tolower a) = spec_local_char a.
Proof.
  unfold is_ascii. intros Ha. apply N.ltb_lt in Ha. apply eqb_prop.
  apply (below_by_range
           (fun a => Bool.eqb (sre_test LOCAL_PART (ascii_tolower a))
                              (spec_local_char a)) 127);
    [vm_compute; reflexivity | lia].
Qed.

Lemma sre_test_literal_ascii (k a : N) :
  In k [64; 102; 105; 122; 109; 97; 116; 46; 107; 122] ->
  is_ascii a = true ->
  sre_test (LITERAL k) (ascii_tolower a) = (ascii_tolower a =? k).
Proof.
  unfold is_ascii. intros Hk Ha. apply N.ltb_lt in Ha. apply eqb_prop.
  cbn [In] in Hk.
  repeat (destruct Hk as [<- | Hk];
    [ match goal with
      | |- Bool.eqb (sre_test (LITERAL ?k) _) _ = true =>
          apply (below_by_range
                   (fun a => Bool.eqb (sre_test (LITERAL k) (ascii_tolower a))
                                      (ascii_tolower a =? k)) 127);
            [vm_compute; reflexivity | lia]
      end |]).
  contradiction.
Qed.

(** On ASCII text the literals of the pattern compare the lowered text. *)
Lemma match_literals_ascii (ks t : list N) :
  incl ks [64; 102; 105; 122; 109; 97; 116; 46; 107; 122] ->
  forallb is_ascii t = true ->
  match_singles (map LITERAL ks) (map ascii_tolower t) = true <->
  map ascii_tolower t = ks.
Proof.
  revert t. induction ks as [|k ks IH]; intros [|a t] Hks Ht;
    cbn [map match_singles]; try (split; discriminate).
  - split; reflexivity.
  - cbn [forallb] in Ht. apply andb_true_iff in Ht as [Ha Ht].
    rewrite andb_true_iff, sre_test_literal_ascii
      by (auto; apply Hks; now left).
    rewrite N.eqb_eq, IH by (auto; intros y Hy; apply Hks; now right).
    split; [intros [-> ->]; reflexivity | intros [= -> ->]; auto].
Qed.

Lemma spec_local_char_at (c : N) :
  spec_local_char c = true -> negb (c =? 64) = true.
Proof.
  destruct (c =? 64) eqn:H; [|reflexivity].
  apply N.eqb_eq in H. subst c. discriminate.
Qed.

(** The matcher on lowered ASCII text and the rule of the specification. *)
Lemma fullmatch_ascii (t : str) :
  forallb is_ascii t = true ->
  fullmatch FIZMAT_EMAIL_RE (map ascii_tolower t) = spec_email t.
Proof.
  intros Ht. apply eq_true_iff_eq. rewrite fullmatch_fizmat. split.
  - intros (l1 & l2 & Heq & Hne & H1 & H2).
    apply map_eq_app in Heq as (t1 & t2 & -> & <- & <-).
    rewrite forallb_app in Ht. apply andb_true_iff in Ht as [Ht1 Ht2].
    apply match_literals_ascii in H2; [|apply incl_refl | exact Ht2].
    destruct t2 as [|a dom]; [discriminate|].
    cbn [map] in H2. injection H2 as Ha Hdom.
    apply ascii_tolower_at in Ha. subst a.
    assert (Hloc : forallb spec_local_char t1 = true).
    { apply forallb_forall. intros c Hc. rewrite forallb_forall in H1, Ht1.
      rewrite <- sre_test_local_ascii by now apply Ht1.
      apply H1. now apply in_map. }
    unfold spec_email. rewrite partition1_app.
    + destruct t1 as [|c t1]; [now contradiction Hne|].
      rewrite Hloc. cbn [andb]. apply bool_decide_eq_true. exact Hdom.
    + apply forallb_forall. intros c Hc. apply spec_local_char_at.
      rewrite forallb_forall in Hloc. now apply Hloc.
  - unfold spec_email. destruct (partition1 64 t) as [[|c local] [dom|]] eqn:Hp;
      try discriminate.
    intros H. apply andb_true_iff in H as [Hloc Hdom].
    apply bool_decide_eq_true in Hdom.
    apply partition1_Some in Hp as [-> _].
    rewrite forallb_app in Ht. apply andb_true_iff in Ht as [Ht1 Ht2].
    exists (map ascii_tolower (c :: local)), (map ascii_tolower (64 :: dom)).
    split; [apply map_app|]. split; [discriminate|]. split.
    + apply forallb_forall. intros d Hd.
      apply in_map_iff in Hd as (a & <- & Ha).
      rewrite forallb_forall in Hloc, Ht1.
      rewrite sre_test_local_ascii by now apply Ht1. now apply Hloc.
    + apply match_literals_ascii; [apply incl_refl | exact Ht2 |].
      cbn [map]. rewrite Hdom. reflexivity.
Qed.

(** On ASCII strings the validation is the rule of the specification. *)
Lemma is_valid_fizmat_email_ascii (s : str) :
  forallb is_ascii s = true -> is_valid_fizmat_email s = spec_accepts s.
Proof.
  intros Hs. unfold is_valid_fizmat_email, spec_accepts.
  destruct s as [|c r]; [reflexivity|].
  rewrite lower_ascii by now apply strip_ascii.
  apply fullmatch_ascii. now apply strip_ascii.
Qed.

End ValidationFacts.

Close Scope N_scope.

(** ** The order of [created_at] and the newest pending entry *)

Lemma str_leb_refl (a : str) : str_leb a a = true.
Proof.
  induction a as [|x a IH]; simpl; [reflexivity|].
  rewrite N.eqb_refl, IH. apply orb_true_r.
Qed.

Lemma str_leb_total (a b : str) : str_leb a b = false -> str_leb b a = true.
Proof.
  revert b. induction a as [|x a IH]; intros [|y b]; simpl; try discriminate.
  - reflexivity.
  - intros H. apply orb_false_iff in H as [Hlt H].
    apply N.ltb_ge in Hlt. destruct (N.eqb_spec x y) as [->|Hne].
    + simpl in H. rewrite N.eqb_refl, (IH _ H). apply orb_true_r.
    + rewrite (proj2 (N.ltb_lt y x)) by lia. reflexivity.
Qed.

Lemma str_leb_trans (a b c : str) :
  str_leb a b = true -> str_leb b c = true -> str_leb a c = true.
Proof.
  revert b c. induction a as [|x a IH]; intros [|y b] [|z c]; simpl;
    try discriminate; try reflexivity.
  intros H1 H2.
  apply orb_true_iff in H1 as [H1 | H1]; apply orb_true_iff in H2 as [H2 | H2].
  - apply N.ltb_lt in H1, H2. rewrite (proj2 (N.ltb_lt x z)) by lia. reflexivity.
  - apply andb_true_iff in H2 as [H2 _]. apply N.eqb_eq in H2. subst z.
    now rewrite H1.
  - apply andb_true_iff in H1 as [H1 _]. apply N.eqb_eq in H1. subst y.
    now rewrite H2.
  - apply andb_true_iff in H1 as [H1 H1']. apply andb_true_iff in H2 as [H2 H2'].
    apply N.eqb_eq in H1, H2. subst y z. rewrite N.eqb_refl, (IH _ _ H1' H2').
    apply orb_true_r.
Qed.

Lemma newer_cases (a b : Z * Z * str) :
  (newer a b = a \/ newer a b = b) /\
  str_leb (snd a) (snd (newer a b)) = true /\
  str_leb (snd b) (snd (newer a b)) = true.
Proof.
  unfold newer. destruct (str_leb (snd b) (snd a)) eqn:H.
  - repeat split; auto using str_leb_refl.
  - repeat split; auto using str_leb_refl, str_leb_total.
Qed.

(** The fold keeps an element of the list that no element is newer than. *)
Lemma fold_newer (rs : list (Z * Z * str)) (r : Z * Z * str) :
  In (fold_left newer rs r) (r :: rs) /\
  forall x, In x (r :: rs) -> str_leb (snd x) (snd (fold_left newer rs r)) = true.
Proof.
  revert r. induction rs as [|a rs IH]; intros r; simpl.
  - split; [now left|]. intros x [<- | []]. apply str_leb_refl.
  - destruct (IH (newer r a)) as [Hin Hmax].
    destruct (newer_cases r a) as (Hn & Hr & Ha).
    split.
    + destruct Hin as [Heq | Hin]; [|now right; right].
      rewrite <- Heq. destruct Hn as [-> | ->]; [now left | right; now left].
    + intros x [<- | [<- | Hx]].
      * eapply str_leb_trans; [exact Hr|]. apply Hmax. now left.
      * eapply str_leb_trans; [exact Ha|]. apply Hmax. now left.
      * apply Hmax. now right.
Qed.

Lemma pending_rows_In (user : Z) (pend : gmap (Z * Z) str) (r : Z * Z * str) :
  In r (List.filter (fun r : Z * Z * str => (fst (fst r) =? user)%Z) (map_to_list pend))
  <-> fst (fst r) = user /\ pend !! fst r = Some (snd r).
Proof.
  rewrite filter_In, <- list_elem_of_In.
  destruct r as [k t]. rewrite elem_of_map_to_list. simpl.
  rewrite Z.eqb_eq. tauto.
Qed.

(** [consume_pending] finds nothing exactly when the user has no entry. *)
Lemma latest_pending_None (user : Z) (pend : gmap (Z * Z) str) :
  latest_pending user pend = None <-> forall c, pend !! (user, c) = None.
Proof.
  unfold latest_pending.
  destruct (List.filter _ (map_to_list pend)) as [|r rs] eqn:Hf.
  - split; [|reflexivity]. intros _ c.
    destruct (pend !! (user, c)) as [t|] eqn:Hc; [|reflexivity].
    assert (H : In (user, c, t) []).
    { rewrite <- Hf. apply pending_rows_In. auto. }
    contradiction.
  - split; [discriminate|]. intros Hnone.
    assert (H : In r (r :: rs)) by now left.
    rewrite <- Hf in H. apply pending_rows_In in H as [Hu Hr].
    destruct r as [[u c] t]. simpl in *. subst u. now rewrite Hnone in Hr.
Qed.

(** The entry [consume_pending] selects belongs to the user and none of the
    user's entries has a greater [created_at]. *)
Lemma latest_pending_Some (user chat : Z) (pend : gmap (Z * Z) str) :
  latest_pending user pend = Some chat ->
  exists t, pend !! (user, chat) = Some t /\
    forall c' t', pend !! (user, c') = Some t' -> str_leb t' t = true.
Proof.
  unfold latest_pending.
  destruct (List.filter _ (map_to_list pend)) as [|r rs] eqn:Hf; [discriminate|].
  intros [= <-]. destruct (fold_newer rs r) as [Hin Hmax].
  rewrite <- Hf in Hin. apply pending_rows_In in Hin as [Hu Hr].
  destruct (fold_left newer rs r) as [[u c] t] eqn:Hbest.
  cbn [fst snd] in *. subst u.
  exists t. split; [exact Hr|]. intros c' t' Hc'.
  apply (Hmax (user, c', t')). rewrite <- Hf. apply pending_rows_In. auto.
Qed.

Lemma email_taken_spec (ps : gmap Z Profile) (user : Z) (e : str) :
  email_taken ps user e = true <->
  exists other p, other <> user /\ ps !! other = Some p /\ email p = Some e.
Proof.
  unfold email_taken. rewrite existsb_exists. split.
  - intros ([k p] & Hin & H). apply andb_true_iff in H as [Hk He].
    apply negb_true_iff, Z.eqb_neq in Hk. apply bool_decide_eq_true in He.
    apply list_elem_of_In, elem_of_map_to_list in Hin. eauto.
  - intros (k & p & Hk & Hp & He). exists (k, p). split.
    + now apply list_elem_of_In, elem_of_map_to_list.
    + apply andb_true_iff. split.
      * now apply negb_true_iff, Z.eqb_neq.
      * now apply bool_decide_eq_true.
Qed.

(** ** Reasoning about runs

    [wp c Q w]: the run of [c] from [w] ends in a result, a state and a list
    of requests that satisfy [Q]. *)

Definition wp {A} (c : M A) (Q : Res A -> World -> list ApiCall -> Prop)
    (w : World) : Prop :=
  Q (result (c w)) (final_world (c w)) (calls (c w)).

Lemma wp_ret {A} (a : A) Q w : Q (Ok a) w [] -> wp (ret a) Q w.
Proof. exact (fun H => H). Qed.

Lemma wp_raise {A} (e : PyExc) (Q : Res A -> World -> list ApiCall -> Prop) w :
  Q (Raise e) w [] -> wp (raise e) Q w.
Proof. exact (fun H => H). Qed.

Lemma wp_get Q w : Q (Ok w) w [] -> wp get Q w.
Proof. exact (fun H => H). Qed.

Lemma wp_modify f Q w : Q (Ok tt) (f w) [] -> wp (modify f) Q w.
Proof. exact (fun H => H). Qed.

Lemma wp_bind {A B} (c : M A) (k : A -> M B) Q w :
  wp c (fun r w1 l1 =>
          match r with
          | Ok a => wp (k a) (fun r2 w2 l2 => Q r2 w2 (l1 ++ l2)) w1
          | Raise e => Q (Raise e) w1 l1
          end) w ->
  wp (bind c k) Q w.
Proof. unfold wp, bind. cbn. destruct (result (c w)); exact (fun H => H). Qed.

Lemma wp_try {A} (body handler : M A) (classes : PyExc -> bool)
    (Q : Res A -> World -> list ApiCall -> Prop) w :
  wp body (fun r w1 l1 =>
             match r with
             | Ok a => Q (Ok a) w1 l1
             | Raise e =>
                 if classes e
                 then wp handler (fun r2 w2 l2 => Q r2 w2 (l1 ++ l2)) w1
                 else Q (Raise e) w1 l1
             end) w ->
  wp (try_except body classes handler) Q w.
Proof.
  unfold wp, try_except. cbn. destruct (result (body w)) as [a|e] eqn:Hr.
  - intros H. now rewrite Hr.
  - destruct (classes e); [exact (fun H => H)|]. intros H. now rewrite Hr.
Qed.

Lemma wp_mono {A} (c : M A) (Q Q' : Res A -> World -> list ApiCall -> Prop) w :
  wp c Q w -> (forall r w' l, Q r w' l -> Q' r w' l) -> wp c Q' w.
Proof. unfold wp. auto. Qed.

Lemma wp_api env (c : ApiCall) Q w :
  match api_error env c with
  | None => Q (Ok tt) w [c]
  | Some e => Q (Raise (TelegramAPIError e)) w [c]
  end ->
  wp (api env c) Q w.
Proof. unfold wp, api. cbn. destruct (api_error env c); exact (fun H => H). Qed.

Lemma wp_effect (c : ApiCall) Q w : Q (Ok tt) w [c] -> wp (effect c) Q w.
Proof. exact (fun H => H). Qed.

(** One step of a run: the rule for the computation at the head. *)
Ltac wp_step :=
  lazymatch goal with
  | |- wp (bind _ _) _ _ => apply wp_bind
  | |- wp (try_except _ _ _) _ _ => apply wp_try
  | |- wp (ret _) _ _ => apply wp_ret
  | |- wp (raise _) _ _ => apply wp_raise
  | |- wp get _ _ => apply wp_get
  | |- wp (modify _) _ _ => apply wp_modify
  | |- wp (api _ _) _ _ => apply wp_api
  | |- wp (effect _) _ _ => apply wp_effect
  | |- wp (answer _ _ _) _ _ => unfold answer
  end; cbv beta iota.

(** Run up to the next decision. *)
Ltac wp_run := repeat wp_step; cbn [app].

(** Close a statement about the requests of a run. *)
Ltac calls_tac :=
  cbn [app];
  repeat first
    [ apply Forall_app; split | apply List.Forall_cons | apply List.Forall_nil
    | assumption | reflexivity ].

(** Split on the platform's answer to the request at the head. *)
Ltac wp_call :=
  lazymatch goal with
  | |- match api_error ?env ?c with _ => _ end =>
      let e := fresh "e" in
      destruct (api_error env c) as [e|]; cbv beta iota
  end.

(** ** Computations that leave the state alone *)

(** [quiet c]: [c] changes nothing of the program state. *)
Definition quiet {A} (c : M A) : Prop := forall w, final_world (c w) = w.

(** [emits P c]: every request of [c] satisfies [P]. *)
Definition emits {A} (P : ApiCall -> Prop) (c : M A) : Prop :=
  forall w, Forall P (calls (c w)).

Lemma quiet_ret {A} (a : A) : quiet (ret a).
Proof. intros w. reflexivity. Qed.

Lemma quiet_raise {A} (e : PyExc) : quiet (raise (A := A) e).
Proof. intros w. reflexivity. Qed.

Lemma quiet_get : quiet get.
Proof. intros w. reflexivity. Qed.

Lemma quiet_api env (c : ApiCall) : quiet (api env c).
Proof. intros w. reflexivity. Qed.

Lemma quiet_effect (c : ApiCall) : quiet (effect c).
Proof. intros w. reflexivity. Qed.

Lemma quiet_bind {A B} (c : M A) (k : A -> M B) :
  quiet c -> (forall a, quiet (k a)) -> quiet (bind c k).
Proof.
  intros Hc Hk w. unfold bind. cbn. destruct (result (c w)) as [a|e]; cbn.
  - rewrite Hc. apply Hk.
  - apply Hc.
Qed.

Lemma quiet_try {A} (body handler : M A) (classes : PyExc -> bool) :
  quiet body -> quiet handler -> quiet (try_except body classes handler).
Proof.
  intros Hb Hh w. unfold try_except. cbn.
  destruct (result (body w)) as [a|e]; [apply Hb|].
  destruct (classes e); cbn; [rewrite Hb; apply Hh | apply Hb].
Qed.

Lemma emits_ret {A} P (a : A) : emits P (ret a).
Proof. intros w. constructor. Qed.

Lemma emits_raise {A} P (e : PyExc) : emits P (raise (A := A) e).
Proof. intros w. constructor. Qed.

Lemma emits_get P : emits P get.
Proof. intros w. constructor. Qed.

Lemma emits_modify P f : emits P (modify f).
Proof. intros w. constructor. Qed.

Lemma emits_api (P : ApiCall -> Prop) env (c : ApiCall) : P c -> emits P (api env c).
Proof. intros Hc w. cbn. repeat constructor. exact Hc. Qed.

Lemma emits_effect (P : ApiCall -> Prop) (c : ApiCall) : P c -> emits P (effect c).
Proof. intros Hc w. cbn. repeat constructor. exact Hc. Qed.

Lemma emits_bind {A B} P (c : M A) (k : A -> M B) :
  emits P c -> (forall a, emits P (k a)) -> emits P (bind c k).
Proof.
  intros Hc Hk w. unfold bind. cbn. destruct (result (c w)) as [a|e]; cbn.
  - apply Forall_app. split; [apply Hc | apply Hk].
  - apply Hc.
Qed.

Lemma emits_try {A} P (body handler : M A) (classes : PyExc -> bool) :
  emits P body -> emits P handler -> emits P (try_except body classes handler).
Proof.
  intros Hb Hh w. unfold try_except. cbn.
  destruct (result (body w)) as [a|e]; [apply Hb|].
  destruct (classes e); cbn; [|apply Hb].
  apply Forall_app. split; [apply Hb | apply Hh].
Qed.

(** A quiet computation in the middle of a run: only its result and its
    requests matter to what follows. *)
Lemma wp_quiet {A} (P : ApiCall -> Prop) (c : M A)
    (Q : Res A -> World -> list ApiCall -> Prop) w :
  quiet c -> emits P c ->
  (forall r l, Forall P l -> Q r w l) ->
  wp c Q w.
Proof. intros Hq He HQ. unfold wp. rewrite Hq. apply HQ, He. Qed.

Create HintDb quiet.
#[export] Hint Resolve quiet_ret quiet_raise quiet_get quiet_api quiet_effect
  quiet_bind quiet_try : quiet.

Create HintDb emits.
#[export] Hint Resolve emits_ret emits_raise emits_get emits_modify emits_bind
  emits_try : emits.

(** Decide [quiet] or [emits] for a computation built from the primitives,
    splitting on the tests it makes. *)
Ltac quiet_tac :=
  repeat first
    [ progress intros
    | apply quiet_bind | apply quiet_try | apply quiet_ret | apply quiet_raise
    | apply quiet_get | apply quiet_api | apply quiet_effect
    | match goal with
      | |- quiet (if ?b then _ else _) => destruct b
      | |- quiet (match ?x with _ => _ end) => destruct x
      end ].

Ltac emits_tac tac :=
  repeat first
    [ progress intros
    | apply emits_bind | apply emits_try | apply emits_ret | apply emits_raise
    | apply emits_get | apply emits_modify
    | apply emits_api; tac | apply emits_effect; tac
    | match goal with
      | |- emits _ (if ?b then _ else _) => destruct b
      | |- emits _ (match ?x with _ => _ end) => destruct x
      end ].

Section QuietParts.
Context {U : UnicodeData}.
Variable env : Env.

Lemma quiet_answer (m : Message) (t : Text) : quiet (answer env m t).
Proof. unfold answer. quiet_tac. Qed.

Lemma quiet_unlock (chat_id user_id : Z) : quiet (unlock_user_in_chat env chat_id user_id).
Proof. unfold unlock_user_in_chat. quiet_tac. Qed.

Lemma quiet_start_link (chat_id : Z) : quiet (start_link env chat_id).
Proof. unfold start_link. quiet_tac. Qed.

Lemma quiet_is_admin (chat_id user_id : Z) : quiet (is_admin env chat_id user_id).
Proof. unfold is_admin. quiet_tac. Qed.

Lemma quiet_ephemeral (chat_id : Z) (t : Text) (ttl : Z) :
  quiet (send_ephemeral_group_notice env chat_id t ttl).
Proof. unfold send_ephemeral_group_notice. quiet_tac. Qed.

Lemma quiet_from_user_id (m : Message) : quiet (from_user_id m).
Proof. unfold from_user_id. quiet_tac. Qed.

End QuietParts.

(** ** The database layer and the unlock *)

Lemma muted_after_other (env : Env) (l : list ApiCall) (muted : gset (Z * Z)) :
  Forall (fun x => is_restrict x = false) l -> muted_after env l muted = muted.
Proof.
  unfold muted_after. revert muted.
  induction l as [|c l IH]; intros muted Hl; [reflexivity|].
  inversion Hl as [|? ? Hc Hl']; subst. simpl. rewrite <- (IH muted Hl') at 2.
  f_equal. destruct c; try reflexivity. discriminate Hc.
Qed.

Lemma consumed_lookup (user chat : Z) (pend : gmap (Z * Z) str) :
  latest_pending user pend = Some chat ->
  consumed user pend !! (user, chat) = None /\
  forall k, k <> (user, chat) -> consumed user pend !! k = pend !! k.
Proof.
  intros H. unfold consumed. rewrite H. split.
  - apply lookup_delete_eq.
  - intros k Hk. now apply lookup_delete_ne.
Qed.

Section HandlerFacts.
Context {U : UnicodeData}.
Variable env : Env.

Lemma emits_any {A} (c : M A) : emits (fun _ => True) c.
Proof. intros w. apply Forall_forall. auto. Qed.

(** [unlock_user_in_chat] asks for the member's permissions first and for
    nothing of the kind afterwards. *)
Lemma unlock_spec (chat_id user_id : Z) (w : World) :
  wp (unlock_user_in_chat env chat_id user_id)
     (fun _ w' l =>
        w' = w /\
        exists rest, l = restrict_chat_member chat_id user_id open_perms :: rest /\
          Forall (fun x => is_restrict x = false) rest) w.
Proof.
  unfold unlock_user_in_chat. wp_run. wp_call.
  - destruct (telegram_errors (TelegramAPIError e)); wp_run;
      (split; [reflexivity|]); eexists; split; try reflexivity; constructor.
  - wp_run. wp_call; [destruct (telegram_errors (TelegramAPIError e))|]; wp_run;
      (split; [reflexivity|]); eexists; split; try reflexivity;
      repeat constructor.
Qed.

Lemma save_profile_spec (user_id : Z) (first_name last_name school_cls email : option str)
    (w : World) :
  let email_norm := lower (strip (py_or_empty email)) in
  save_profile env user_id first_name last_name school_cls email w =
  if negb (is_valid_fizmat_email email_norm)
  then {| result := Raise ValueError; final_world := w; calls := [] |}
  else if idx_profiles_email_unique w && email_taken (profiles w) user_id email_norm
  then {| result := Raise IntegrityError; final_world := w; calls := [] |}
  else {| result := Ok tt;
          final_world :=
            set_profiles (insert user_id
              {| first_name := strip (py_or_empty first_name);
                 last_name := strip (py_or_empty last_name);
                 school_cls := strip (py_or_empty school_cls);
                 email := Some email_norm;
                 created_at := utcnow_isoformat env |}) w;
          calls := [] |}.
Proof.
  intros email_norm. unfold save_profile. fold email_norm.
  destruct (negb (is_valid_fizmat_email email_norm)); [reflexivity|].
  unfold bind, get. cbn.
  destruct (idx_profiles_email_unique w && email_taken (profiles w) user_id email_norm);
    reflexivity.
Qed.

(** The profile [confirm] stores for the form [d]. *)
Definition form_profile (d : gmap string str) : Profile :=
  {| first_name := strip (data_get d "first_name");
     last_name := strip (data_get d "last_name");
     school_cls := strip (data_get d "school_cls");
     email := Some (lower (strip (data_get d "email")));
     created_at := utcnow_isoformat env |}.

(** A confirmation that gets past [save_profile]: the state it leaves, and
    the one request it makes about permissions. *)
Lemma confirm_saved (cb : CallbackQuery) (ctx : Z * Z) (w : World) :
  let d := data (session_of w ctx) in
  let uid := user_id (cb_from_user cb) in
  let mail := lower (strip (data_get d "email")) in
  is_valid_fizmat_email mail = true ->
  idx_profiles_email_unique w && email_taken (profiles w) uid mail = false ->
  wp (confirm env cb ctx)
     (fun _ w' l =>
        w' = set_pending (consumed uid)
               (set_storage (insert ctx no_session)
                  (set_profiles (insert uid (form_profile d)) w)) /\
        match truthy (latest_pending uid (pending w)) with
        | Some c =>
            exists rest, l = restrict_chat_member c uid open_perms :: rest /\
              Forall (fun x => is_restrict x = false) rest
        | None => Forall (fun x => is_restrict x = false) l
        end) w.
Proof.
  intros d uid mail Hvalid Hfree.
  unfold confirm, get_data. wp_run. fold d uid.
  unfold wp at 1. rewrite save_profile_spec. cbn [py_or_empty]. fold mail.
  rewrite Hvalid, Hfree. cbn [negb result final_world calls].
  unfold clear, consume_pending. wp_run. cbn [pending set_storage set_profiles].
  assert (Hworld : forall c, latest_pending uid (pending w) = Some c ->
            set_pending (delete (uid, c))
              (set_storage (insert ctx no_session)
                 (set_profiles (insert uid (form_profile d)) w))
            = set_pending (consumed uid)
                (set_storage (insert ctx no_session)
                   (set_profiles (insert uid (form_profile d)) w))).
  { intros c Hc. unfold set_pending, consumed. cbn [pending set_storage set_profiles].
    now rewrite Hc. }
  assert (Hnone : latest_pending uid (pending w) = None ->
            set_storage (insert ctx no_session)
              (set_profiles (insert uid (form_profile d)) w)
            = set_pending (consumed uid)
                (set_storage (insert ctx no_session)
                   (set_profiles (insert uid (form_profile d)) w))).
  { intros Hc. unfold set_pending, consumed. cbn [pending set_storage set_profiles].
    now rewrite Hc. }
  fold (form_profile d).
  destruct (latest_pending uid (pending w)) as [c|] eqn:Hlatest; wp_run.
  - specialize (Hworld c eq_refl). clear Hnone.
    cbn [truthy]. destruct (c =? 0)%Z eqn:Hc; wp_run.
    + wp_call; wp_run; [|wp_call]; (split; [exact Hworld | calls_tac]).
    + eapply wp_mono; [apply unlock_spec|]. cbv beta.
      intros r w' l (-> & rest & -> & Hrest). destruct r as [[]|e]; wp_run.
      * wp_call; wp_run; [|wp_call];
          (split; [exact Hworld|]); eexists; (split; [cbn [app]; reflexivity|]);
          calls_tac.
      * split; [exact Hworld|]. eexists. split; [reflexivity | calls_tac].
  - specialize (Hnone eq_refl). cbn [truthy]. wp_run.
    wp_call; wp_run; [|wp_call]; (split; [exact Hnone | calls_tac]).
Qed.

(** [/start] of a registered user: the newest pending entry goes, and the
    one request about permissions is the unlock of its chat. *)
Lemma start_registered (message : Message) (ctx : Z * Z) (w : World)
    (u : User) (p : Profile) :
  from_user message = Some u ->
  profiles w !! user_id u = Some p ->
  wp (start env message ctx)
     (fun _ w' l =>
        w' = set_pending (consumed (user_id u)) w /\
        match truthy (latest_pending (user_id u) (pending w)) with
        | Some c =>
            exists rest, l = restrict_chat_member c (user_id u) open_perms :: rest /\
              Forall (fun x => is_restrict x = false) rest
        | None => Forall (fun x => is_restrict x = false) l
        end) w.
Proof.
  intros Hu Hp. unfold start, from_user_id, is_registered. rewrite Hu.
  wp_run. rewrite Hp. cbv beta iota. unfold consume_pending. wp_run.
  assert (Hworld : forall c, latest_pending (user_id u) (pending w) = Some c ->
            set_pending (delete (user_id u, c)) w
            = set_pending (consumed (user_id u)) w).
  { intros c Hc. unfold set_pending, consumed. now rewrite Hc. }
  assert (Hnone : latest_pending (user_id u) (pending w) = None ->
            w = set_pending (consumed (user_id u)) w).
  { intros Hc. unfold set_pending, consumed. rewrite Hc. now destruct w. }
  destruct (latest_pending (user_id u) (pending w)) as [c|] eqn:Hlatest; wp_run.
  - specialize (Hworld c eq_refl). clear Hnone.
    cbn [truthy]. destruct (c =? 0)%Z eqn:Hc; wp_run.
    + wp_call; (split; [exact Hworld | calls_tac]).
    + eapply wp_mono; [apply unlock_spec|]. cbv beta.
      intros r w' l (-> & rest & -> & Hrest). destruct r as [[]|e]; wp_run.
      * wp_call; (split; [exact Hworld|]); eexists;
          (split; [cbn [app]; reflexivity|]); calls_tac.
      * split; [exact Hworld|]. eexists. split; [reflexivity | calls_tac].
  - specialize (Hnone eq_refl). cbn [truthy]. wp_run.
    wp_call; (split; [exact Hnone | calls_tac]).
Qed.

(** The group guard and the join handler ignore a registered user. *)
Lemma guard_registered (message : Message) (w : World) (u : User) (p : Profile) :
  from_user message = Some u ->
  profiles w !! user_id u = Some p ->
  guard_group_messages env message w
  = {| result := Ok tt; final_world := w; calls := [] |}.
Proof.
  intros Hu Hp. unfold guard_group_messages. rewrite Hu.
  destruct (is_bot u); [reflexivity|].
  unfold is_registered, bind, get, ret. cbn. now rewrite Hp.
Qed.

Lemma join_registered (event : ChatMemberUpdated) (w : World) (p : Profile) :
  profiles w !! user_id (new_chat_member_user event) = Some p ->
  on_user_join env event w
  = {| result := Ok tt; final_world := w; calls := [] |}.
Proof.
  intros Hp. unfold on_user_join.
  destruct (negb (is_group (chat_type (event_chat event)))); [reflexivity|].
  destruct (is_bot (new_chat_member_user event)); [reflexivity|].
  unfold is_registered, bind, get, ret. cbn. now rewrite Hp.
Qed.

End HandlerFacts.

(** ** Sessions *)

Lemma session_of_with_session (ctx ctx' : Z * Z) (s : Session) (w : World) :
  session_of (with_session ctx s w) ctx' =
  if decide (ctx = ctx') then s else session_of w ctx'.
Proof.
  unfold session_of, with_session. cbn [storage set_storage].
  rewrite lookup_insert. now destruct (decide (ctx = ctx')).
Qed.

Lemma with_session_twice (ctx : Z * Z) (s1 s2 : Session) (w : World) :
  with_session ctx s2 (with_session ctx s1 w) = with_session ctx s2 w.
Proof.
  unfold with_session, set_storage. cbn. now rewrite insert_insert_eq.
Qed.

Section SessionFacts.
Context {U : UnicodeData}.
Variable env : Env.

(** The three field handlers store their field, move one step forward and
    reply; only the reply depends on the platform. *)
Lemma field_handler_world (k : string) (next : Reg.t) (t : Text)
    (message : Message) (ctx : Z * Z) (w : World) :
  final_world
    ((update_data ctx k (strip (py_or_empty (text message))) ;;
      set_state ctx next ;;
      answer env message t)%py w)
  = with_session ctx
      {| state := Some next;
         data := <[k := strip (py_or_empty (text message))]> (data (session_of w ctx)) |}
      w.
Proof.
  change (wp (update_data ctx k (strip (py_or_empty (text message))) ;;
              set_state ctx next ;; answer env message t)%py
             (fun _ w' _ => w' = with_session ctx
                {| state := Some next;
                   data := <[k := strip (py_or_empty (text message))]>
                             (data (session_of w ctx)) |} w) w).
  unfold update_data, set_state. wp_run.
  fold (with_session ctx
          {| state := state (session_of w ctx);
             data := <[k := strip (py_or_empty (text message))]>
                       (data (session_of w ctx)) |} w).
  rewrite session_of_with_session. destruct (decide (ctx = ctx)); [|contradiction].
  cbn [data].
  match goal with
  | |- context [set_storage (insert ctx ?s) (with_session ctx ?s0 w)] =>
      change (set_storage (insert ctx s) (with_session ctx s0 w))
        with (with_session ctx s (with_session ctx s0 w))
  end.
  rewrite with_session_twice. wp_call; reflexivity.
Qed.

Lemma reg_first_name_world (message : Message) (ctx : Z * Z) (w : World) :
  final_world (reg_first_name env message ctx w)
  = with_session ctx
      {| state := Some Reg.last_name;
         data := <["first_name"%string := strip (py_or_empty (text message))]>
                   (data (session_of w ctx)) |} w.
Proof. apply field_handler_world. Qed.

Lemma reg_last_name_world (message : Message) (ctx : Z * Z) (w : World) :
  final_world (reg_last_name env message ctx w)
  = with_session ctx
      {| state := Some Reg.school_cls;
         data := <["last_name"%string := strip (py_or_empty (text message))]>
                   (data (session_of w ctx)) |} w.
Proof. apply field_handler_world. Qed.

Lemma reg_class_world (message : Message) (ctx : Z * Z) (w : World) :
  final_world (reg_class env message ctx w)
  = with_session ctx
      {| state := Some Reg.email;
         data := <["school_cls"%string := strip (py_or_empty (text message))]>
                   (data (session_of w ctx)) |} w.
Proof. apply field_handler_world. Qed.

(** A valid e-mail is stored in lowercase and the session moves on to the
    confirm state. *)
Lemma reg_email_world (message : Message) (ctx : Z * Z) (w : World) :
  let mail := lower (strip (py_or_empty (text message))) in
  is_valid_fizmat_email mail = true ->
  final_world (reg_email env message ctx w)
  = with_session ctx
      {| state := Some Reg.confirm;
         data := <["email"%string := mail]> (data (session_of w ctx)) |} w.
Proof.
  intros mail Hvalid.
  change (wp (reg_email env message ctx)
             (fun _ w' _ => w' = with_session ctx
                {| state := Some Reg.confirm;
                   data := <["email"%string := mail]> (data (session_of w ctx)) |} w) w).
  unfold reg_email. fold mail. rewrite Hvalid. cbn [negb].
  unfold update_data, get_data, set_state. wp_run.
  fold (with_session ctx
          {| state := state (session_of w ctx);
             data := <["email"%string := mail]> (data (session_of w ctx)) |} w).
  rewrite session_of_with_session. destruct (decide (ctx = ctx)); [|contradiction].
  cbn [data].
  match goal with
  | |- context [set_storage (insert ctx ?s) (with_session ctx ?s0 w)] =>
      change (set_storage (insert ctx s) (with_session ctx s0 w))
        with (with_session ctx s (with_session ctx s0 w))
  end.
  rewrite with_session_twice. wp_call; reflexivity.
Qed.

(** An edit button replies and then re-enters the state of its field; the
    values of the form are not touched. *)
Lemma edit_handler_world (t : Text) (st : Reg.t) (cb : CallbackQuery)
    (ctx : Z * Z) (w : World) :
  final_world
    ((answer env (cb_message cb) t ;;
      set_state ctx st ;;
      api env (answer_callback_query (cb_id cb)))%py w)
  = match api_error env (send_message (chat_id (chat (cb_message cb))) t) with
    | None => with_session ctx
                {| state := Some st; data := data (session_of w ctx) |} w
    | Some _ => w
    end.
Proof.
  change (wp (answer env (cb_message cb) t ;;
              set_state ctx st ;;
              api env (answer_callback_query (cb_id cb)))%py
             (fun _ w' _ =>
                w' = match api_error env
                             (send_message (chat_id (chat (cb_message cb))) t) with
                     | None => with_session ctx
                                 {| state := Some st;
                                    data := data (session_of w ctx) |} w
                     | Some _ => w
                     end) w).
  unfold set_state. wp_run.
  destruct (api_error env (send_message _ t)); cbv beta iota; [reflexivity|].
  wp_run. wp_call; reflexivity.
Qed.

End SessionFacts.

(** ** The dispatcher *)

Lemma data_get_insert (d : gmap string str) (k k' : string) (v : str) :
  data_get (<[k := v]> d) k' = if decide (k = k') then v else data_get d k'.
Proof.
  unfold data_get. rewrite lookup_insert. now destruct (decide (k = k')).
Qed.

Section DispatchFacts.
Context {U : UnicodeData}.
Variable ALLOWED_ADMINS : gset Z.
Variable env : Env.

(** A message that is no [/start], outside the groups, from a user in one of
    the four steps of the form goes to the handler of that step. *)
Lemma feed_field_text (m : Message) (w : World) (u : User) (st : Reg.t) :
  is_group (chat_type (chat m)) = false ->
  from_user m = Some u ->
  is_command w m "start" = false ->
  state (session_of w (chat_id (chat m), user_id u)) = Some st ->
  st <> Reg.confirm ->
  feed_update ALLOWED_ADMINS env (message_update m) w
  = field_handler st env m (chat_id (chat m), user_id u) w.
Proof.
  intros Hgroup Hu Hcmd Hst Hne.
  change (feed_update ALLOWED_ADMINS env (message_update m) w)
    with (dispatch_message ALLOWED_ADMINS env m w).
  unfold dispatch_message, bind, get. cbn [result final_world calls app].
  unfold fsm_key. rewrite Hgroup, Hcmd, Hu, Hst.
  destruct st; try reflexivity; try contradiction.
  all: cbn [field_handler];
    match goal with
    | |- Build_Run (result ?x) (final_world ?x) (calls ?x) = _ => reflexivity
    end.
Qed.

(** The confirm button in the confirm state goes to [confirm]. *)
Lemma feed_confirm_button (user : Z) (w : World) :
  state (session_of w (user, user)) = Some Reg.confirm ->
  feed_update ALLOWED_ADMINS env (callback_query_update (button user "confirm")) w
  = confirm env (button user "confirm") (user, user) w.
Proof.
  intros Hst.
  change (feed_update ALLOWED_ADMINS env
            (callback_query_update (button user "confirm")) w)
    with (dispatch_callback env (button user "confirm") w).
  unfold dispatch_callback, bind, get. cbn [result final_world calls app].
  unfold fsm_key. cbn [chat cb_message button private_chat chat_id cb_from_user user_id].
  rewrite Hst.
  replace (is_data (button user "confirm") "edit_first") with false
    by (vm_compute; reflexivity).
  replace (is_data (button user "confirm") "edit_last") with false
    by (vm_compute; reflexivity).
  replace (is_data (button user "confirm") "edit_cls") with false
    by (vm_compute; reflexivity).
  replace (is_data (button user "confirm") "edit_email") with false
    by (vm_compute; reflexivity).
  replace (is_data (button user "confirm") "confirm") with true
    by (vm_compute; reflexivity).
  reflexivity.
Qed.

End DispatchFacts.

(** ** Properties every run of a computation keeps

    [respects R P c]: every run of [c] relates the state before to the state
    after by [R] and issues only requests that satisfy [P]. *)

Section Respects.
Variable R : World -> World -> Prop.
Variable P : ApiCall -> Prop.
Hypothesis R_refl : forall w, R w w.
Hypothesis R_trans : forall w1 w2 w3, R w1 w2 -> R w2 w3 -> R w1 w3.

Definition respects {A} (c : M A) : Prop :=
  forall w, R w (final_world (c w)) /\ Forall P (calls (c w)).

Lemma respects_ret {A} (a : A) : respects (ret a).
Proof. intros w. split; [apply R_refl | constructor]. Qed.

Lemma respects_raise {A} (e : PyExc) : respects (raise (A := A) e).
Proof. intros w. split; [apply R_refl | constructor]. Qed.

Lemma respects_get : respects get.
Proof. intros w. split; [apply R_refl | constructor]. Qed.

Lemma respects_modify (f : World -> World) :
  (forall w, R w (f w)) -> respects (modify f).
Proof. intros Hf w. split; [apply Hf | constructor]. Qed.

Lemma respects_api env (c : ApiCall) : P c -> respects (api env c).
Proof. intros Hc w. split; [apply R_refl | repeat constructor; exact Hc]. Qed.

Lemma respects_effect (c : ApiCall) : P c -> respects (effect c).
Proof. intros Hc w. split; [apply R_refl | repeat constructor; exact Hc]. Qed.

Lemma respects_bind {A B} (c : M A) (k : A -> M B) :
  respects c -> (forall a, respects (k a)) -> respects (bind c k).
Proof.
  intros Hc Hk w. destruct (Hc w) as [Hr Hl]. unfold bind. cbn.
  destruct (result (c w)) as [a|e]; cbn; [|split; assumption].
  destruct (Hk a (final_world (c w))) as [Hr' Hl']. split.
  - eapply R_trans; eassumption.
  - apply Forall_app. split; assumption.
Qed.

Lemma respects_try {A} (body handler : M A) (classes : PyExc -> bool) :
  respects body -> respects handler -> respects (try_except body classes handler).
Proof.
  intros Hb Hh w. destruct (Hb w) as [Hr Hl]. unfold try_except. cbn.
  destruct (result (body w)) as [a|e]; [split; assumption|].
  destruct (classes e); cbn; [|split; assumption].
  destruct (Hh (final_world (body w))) as [Hr' Hl']. split.
  - eapply R_trans; eassumption.
  - apply Forall_app. split; assumption.
Qed.

End Respects.

(** Decide [respects] for a computation built from the primitives; [tac]
    closes the conditions on the requests and on the state changes. *)
Ltac respects_tac R P refl trans tac :=
  repeat first
    [ progress intros
    | apply (respects_bind R P trans)
    | apply (respects_try R P trans)
    | apply (respects_ret R P refl)
    | apply (respects_raise R P refl)
    | apply (respects_get R P refl)
    | apply (respects_modify R P); tac
    | apply (respects_api R P refl); tac
    | apply (respects_effect R P refl); tac
    | progress cbv zeta
    | match goal with
      | |- respects _ _ (if ?b then _ else _) => destruct b
      | |- respects _ _ (match ?x with _ => _ end) => destruct x
      end ].

(** The computations of the bot, for unfolding. *)
Create HintDb bot.
#[export] Hint Unfold answer ensure_schema_upgrade init_db is_registered
  add_pending consume_pending get_profile_row delete_profile bind_integer
  get_state set_state update_data get_data clear
  send_ephemeral_group_notice is_admin start_link on_user_join
  guard_group_messages on_startup from_user_id unlock_user_in_chat start
  reg_first_name reg_last_name reg_class reg_email edit_first edit_last edit_cls
  edit_email confirm not_allowed int_of who_cmd_private remove_cmd info_cmd
  export_csv setup_instructions field_handler : bot.

(** ** The notice throttle *)

(** The throttle's maps are as before. *)
Definition same_throttle (w w' : World) : Prop :=
  NEED_DM_CACHE w' = NEED_DM_CACHE w /\ LAST_NOTICE_AT w' = LAST_NOTICE_AT w.

(** A request that is no group notice. *)
Definition no_notice (c : ApiCall) : Prop := forall group, is_notice group c = false.

Lemma same_throttle_refl (w : World) : same_throttle w w.
Proof. split; reflexivity. Qed.

Lemma same_throttle_trans (w1 w2 w3 : World) :
  same_throttle w1 w2 -> same_throttle w2 w3 -> same_throttle w1 w3.
Proof. intros [H1 H2] [H3 H4]. split; congruence. Qed.

Lemma no_notice_existsb (group : Z) (l : list ApiCall) :
  Forall no_notice l -> existsb (is_notice group) l = false.
Proof.
  induction 1 as [|c l Hc _ IH]; [reflexivity|].
  cbn [existsb]. now rewrite Hc, IH.
Qed.

(** What one run does to the throttle of [group]: if it sent the notice
    there, the notice was due for the sender, the set of [group] is empty
    and its timestamp is the time of the run; if not, the timestamp is the
    one of before. *)
Definition throttle_post (env : Env) (w : World) (group : Z) (sender : option Z)
    (w' : World) (l : list ApiCall) : Prop :=
  if existsb (is_notice group) l
  then exists user, sender = Some user /\ notice_due env w group user /\
         NEED_DM_CACHE w' !! group = Some ∅ /\
         LAST_NOTICE_AT w' !! group = Some (time_time env)
  else LAST_NOTICE_AT w' !! group = LAST_NOTICE_AT w !! group.

Lemma throttle_post_quiet env w group sender w' l :
  same_throttle w w' -> Forall no_notice l -> throttle_post env w group sender w' l.
Proof.
  intros [_ Hlast] Hl. unfold throttle_post.
  rewrite (no_notice_existsb _ _ Hl). now rewrite Hlast.
Qed.

Lemma throttle_post_app env w group sender w' l1 l2 :
  Forall no_notice l1 ->
  throttle_post env w group sender w' l2 ->
  throttle_post env w group sender w' (l1 ++ l2).
Proof.
  intros Hl1. unfold throttle_post.
  now rewrite existsb_app, (no_notice_existsb _ _ Hl1).
Qed.

Section ThrottleFacts.
Context {U : UnicodeData}.
Variable ALLOWED_ADMINS : gset Z.
Variable env : Env.

Lemma batch_notice_throttle (chat_id user_id group : Z) (w w0 : World) :
  same_throttle w0 w ->
  wp (batch_notice env chat_id user_id)
     (fun _ w' l =>
        throttle_post env w0 group
          (if (chat_id =? group)%Z then Some user_id else None) w' l) w.
Proof.
  intros [Hneed Hlast]. unfold batch_notice. wp_run.
  rewrite Hneed, Hlast.
  destruct (Qle_bool NOTICE_COOLDOWN
              (time_time env - default 0%Q (LAST_NOTICE_AT w0 !! chat_id))
            || (BATCH_THRESHOLD <=? size ({[user_id]} ∪ default ∅ (NEED_DM_CACHE w0 !! chat_id)))%nat)
    eqn:Hdue; wp_run.
  - assert (Hpost : forall w',
              NEED_DM_CACHE w' = <[chat_id := ∅]>
                (<[chat_id := {[user_id]} ∪ default ∅ (NEED_DM_CACHE w0 !! chat_id)]>
                   (NEED_DM_CACHE w0)) ->
              LAST_NOTICE_AT w' = <[chat_id := time_time env]> (LAST_NOTICE_AT w0) ->
              throttle_post env w0 group
                (if (chat_id =? group)%Z then Some user_id else None) w'
                [send_message chat_id (need_dm_notice (BOT_USERNAME w))]).
    { intros w' Hn Hl. unfold throttle_post. cbn [existsb is_notice].
      rewrite orb_false_r. destruct (chat_id =? group)%Z eqn:Heq.
      - apply Z.eqb_eq in Heq. subst group. exists user_id.
        split; [reflexivity|]. split.
        + unfold notice_due. apply orb_true_iff in Hdue as [Hq | Hn'].
          * left. now apply Qle_bool_iff.
          * right. now apply Nat.leb_le.
        + rewrite Hn, Hl. split; apply lookup_insert_eq.
      - apply Z.eqb_neq in Heq. rewrite Hl. now apply lookup_insert_ne. }
    wp_call; [destruct (telegram_errors (TelegramAPIError e)); wp_run|];
      apply Hpost; reflexivity.
  - unfold throttle_post. cbn [existsb set_throttle LAST_NOTICE_AT]. reflexivity.
Qed.

End ThrottleFacts.

(** * Further properties: supporting lemmas *)

Lemma has_duplicate_email_spec (ps : gmap Z Profile) :
  has_duplicate_email ps = false <-> unique_emails ps.
Proof.
  unfold has_duplicate_email, unique_emails. split.
  - intros Hno k1 k2 p1 p2 e H1 H2 E1 E2.
    destruct (decide (k1 = k2)) as [|Hne]; [assumption|]. exfalso.
    assert (Hdup : existsb (fun '(k1, p1) =>
              existsb (fun '(k2, p2) =>
                negb (k1 =? k2)%Z &&
                match email p1 with
                | Some e => bool_decide (email p2 = Some e)
                | None => false
                end) (map_to_list ps)) (map_to_list ps) = true).
    { apply existsb_exists. exists (k1, p1). split.
      - now apply list_elem_of_In, elem_of_map_to_list.
      - apply existsb_exists. exists (k2, p2). split.
        + now apply list_elem_of_In, elem_of_map_to_list.
        + rewrite E1. apply andb_true_iff. split.
          * now apply negb_true_iff, Z.eqb_neq.
          * now apply bool_decide_eq_true. }
    rewrite Hdup in Hno. discriminate.
  - intros Huniq. apply not_true_is_false. intros Hdup.
    apply existsb_exists in Hdup as ([k1 p1] & Hin1 & Hdup).
    apply existsb_exists in Hdup as ([k2 p2] & Hin2 & H).
    apply andb_true_iff in H as [Hk He].
    apply negb_true_iff, Z.eqb_neq in Hk.
    apply list_elem_of_In, elem_of_map_to_list in Hin1, Hin2.
    destruct (email p1) as [e|] eqn:E1; [|discriminate].
    apply bool_decide_eq_true in He.
    apply Hk. eapply Huniq; eassumption.
Qed.

(** ** The unique index over the runs of the bot *)

(** An index that is there stays, and stays true of the rows. *)
Definition db_kept (w w' : World) : Prop :=
  (idx_profiles_email_unique w = true -> idx_profiles_email_unique w' = true) /\
  (index_holds w -> index_holds w').

Definition any_call (c : ApiCall) : Prop := True.

Lemma db_kept_refl (w : World) : db_kept w w.
Proof. split; auto. Qed.

Lemma db_kept_trans (w1 w2 w3 : World) :
  db_kept w1 w2 -> db_kept w2 w3 -> db_kept w1 w3.
Proof. intros [H1 H2] [H3 H4]. split; auto. Qed.

Lemma unique_emails_delete (k : Z) (ps : gmap Z Profile) :
  unique_emails ps -> unique_emails (delete k ps).
Proof.
  intros H k1 k2 p1 p2 e H1 H2.
  apply lookup_delete_Some in H1 as [_ H1].
  apply lookup_delete_Some in H2 as [_ H2]. eauto.
Qed.

Lemma unique_emails_insert (k : Z) (p : Profile) (ps : gmap Z Profile) :
  unique_emails ps ->
  (forall e, email p = Some e -> email_taken ps k e = false) ->
  unique_emails (<[k := p]> ps).
Proof.
  intros Huniq Hfree k1 k2 p1 p2 e H1 H2 E1 E2.
  rewrite lookup_insert in H1, H2.
  destruct (decide (k = k1)) as [<-|N1]; destruct (decide (k = k2)) as [<-|N2];
    [reflexivity| | |eauto]; exfalso.
  - injection H1 as <-. specialize (Hfree e E1).
    assert (Ht : email_taken ps k e = true) by (apply email_taken_spec; eauto).
    congruence.
  - injection H2 as <-. specialize (Hfree e E2).
    assert (Ht : email_taken ps k e = true) by (apply email_taken_spec; eauto).
    congruence.
Qed.

Lemma db_kept_delete (k : Z) (w : World) : db_kept w (set_profiles (delete k) w).
Proof.
  split; [auto|]. intros H Hidx. cbn [profiles set_profiles].
  apply unique_emails_delete, H, Hidx.
Qed.

Section IndexFacts.
Context {U : UnicodeData}.
Variable ALLOWED_ADMINS : gset Z.
Variable env : Env.

Lemma save_profile_db_kept (user : Z) (a b c d : option str) :
  respects db_kept any_call (save_profile env user a b c d).
Proof.
  intros w. rewrite save_profile_spec. cbv zeta.
  destruct (negb _); cbn [final_world calls];
    [split; [apply db_kept_refl | constructor]|].
  destruct (idx_profiles_email_unique w && email_taken _ _ _) eqn:Hfree;
    cbn [final_world calls]; (split; [|constructor]);
    [apply db_kept_refl|].
  split; [auto|]. intros H Hidx. cbn [profiles set_profiles] in *.
  change (idx_profiles_email_unique w = true) in Hidx.
  rewrite Hidx in Hfree. cbn [andb] in Hfree.
  apply unique_emails_insert; [now apply H|].
  intros e [= <-]. exact Hfree.
Qed.

Lemma ensure_schema_upgrade_db_kept : respects db_kept any_call ensure_schema_upgrade.
Proof.
  intros w. unfold ensure_schema_upgrade, bind, get. cbn.
  destruct (idx_profiles_email_unique w) eqn:Hidx; cbn;
    [split; [apply db_kept_refl | constructor]|].
  destruct (has_duplicate_email (profiles w)) eqn:Hdup; cbn;
    (split; [|constructor]); [apply db_kept_refl|].
  split; [auto|]. intros _ _. now apply has_duplicate_email_spec.
Qed.

(** Closes the side conditions of [respects db_kept any_call]. *)
Ltac db_side :=
  first
    [ exact I
    | apply db_kept_delete
    | intros; split; intros H; exact H ].

Lemma feed_update_db_kept (upd : Update) :
  respects db_kept any_call (feed_update ALLOWED_ADMINS env upd).
Proof.
  unfold feed_update, dispatch_message, dispatch_callback.
  destruct upd as [m|cb|ev]; autounfold with bot; unfold batch_notice;
    respects_tac db_kept any_call db_kept_refl db_kept_trans db_side;
    try apply save_profile_db_kept.
Qed.

Lemma on_startup_db_kept : respects db_kept any_call (on_startup env).
Proof.
  unfold on_startup, init_db.
  apply (respects_bind _ _ db_kept_trans);
    [apply ensure_schema_upgrade_db_kept|].
  intros _. apply respects_modify. intros w. split; intros H; exact H.
Qed.

End IndexFacts.

(** ** The group guard *)

(** Split on the platform's answer to the request at the head, keeping the
    answer as a hypothesis. *)
Ltac wp_call_eq :=
  lazymatch goal with
  | |- match api_error ?env ?c with _ => _ end =>
      let e := fresh "e" in
      let He := fresh "He" in
      destruct (api_error env c) as [e|] eqn:He; cbv beta iota
  end.

Section GuardFacts.
Context {U : UnicodeData}.
Variable env : Env.

(** The throttled notice leaves the database and the sessions alone and
    asks nothing about permissions. *)
Lemma batch_notice_frame (chat_id user_id : Z) (w : World) :
  wp (batch_notice env chat_id user_id)
     (fun _ w' l =>
        pending w' = pending w /\ profiles w' = profiles w /\
        storage w' = storage w /\
        Forall (fun c => is_restrict c = false) l) w.
Proof.
  unfold batch_notice. wp_run.
  destruct (Qle_bool _ _ || _); wp_run.
  - wp_call; [destruct (telegram_errors (TelegramAPIError e)); wp_run|];
      repeat split; repeat constructor.
  - repeat split. constructor.
Qed.

End GuardFacts.

(** ** Buttons *)

Section ButtonFacts.
Context {U : UnicodeData}.
Variable ALLOWED_ADMINS : gset Z.
Variable env : Env.

(** A button pressed outside the confirm state reaches no handler. *)
Lemma feed_button_elsewhere (cb : CallbackQuery) (w : World) :
  state (session_of w (chat_id (chat (cb_message cb)), user_id (cb_from_user cb)))
    <> Some Reg.confirm ->
  feed_update ALLOWED_ADMINS env (callback_query_update cb) w
  = {| result := Ok tt; final_world := w; calls := [] |}.
Proof.
  intros Hst.
  change (feed_update ALLOWED_ADMINS env (callback_query_update cb) w)
    with (dispatch_callback env cb w).
  unfold dispatch_callback, bind, get. cbn [result final_world calls app].
  unfold fsm_key.
  destruct (state (session_of w _)) as [[]|]; try reflexivity. contradiction.
Qed.

(** The confirm button in the confirm state reaches [confirm]. *)
Lemma feed_confirm (cb : CallbackQuery) (w : World) :
  let ctx := (chat_id (chat (cb_message cb)), user_id (cb_from_user cb)) in
  state (session_of w ctx) = Some Reg.confirm ->
  cb_data cb = Some (str_of "confirm") ->
  feed_update ALLOWED_ADMINS env (callback_query_update cb) w
  = confirm env cb ctx w.
Proof.
  intros ctx Hst Hdata.
  change (feed_update ALLOWED_ADMINS env (callback_query_update cb) w)
    with (dispatch_callback env cb w).
  unfold dispatch_callback, bind, get. cbn [result final_world calls app].
  unfold fsm_key. fold ctx. rewrite Hst. unfold is_data. rewrite Hdata.
  replace (bool_decide (Some (str_of "confirm") = Some (str_of "edit_first")))
    with false by (vm_compute; reflexivity).
  replace (bool_decide (Some (str_of "confirm") = Some (str_of "edit_last")))
    with false by (vm_compute; reflexivity).
  replace (bool_decide (Some (str_of "confirm") = Some (str_of "edit_cls")))
    with false by (vm_compute; reflexivity).
  replace (bool_decide (Some (str_of "confirm") = Some (str_of "edit_email")))
    with false by (vm_compute; reflexivity).
  replace (bool_decide (Some (str_of "confirm") = Some (str_of "confirm")))
    with true by (vm_compute; reflexivity).
  reflexivity.
Qed.

End ButtonFacts.

(** ** [strip] and [lower] at the ends of a text *)

Section StripFacts.
Context {U : UnicodeData}.

Local Open Scope N_scope.

(** A text that begins and ends with a code point that is no whitespace. *)
Definition trimmed (s : str) : Prop :=
  (exists x m, s = x :: m /\ Py_UNICODE_ISSPACE x = false) /\
  (exists n y, s = n ++ [y] /\ Py_UNICODE_ISSPACE y = false).

Lemma lstrip_snoc (l : str) (x : N) :
  Py_UNICODE_ISSPACE x = false -> lstrip (l ++ [x]) = lstrip l ++ [x].
Proof.
  intros Hx. induction l as [|c l IH]; simpl; [now rewrite Hx|].
  destruct (Py_UNICODE_ISSPACE c); [exact IH | reflexivity].
Qed.

Lemma rstrip_cons (x : N) (r : str) :
  Py_UNICODE_ISSPACE x = false -> rstrip (x :: r) = x :: rstrip r.
Proof.
  intros Hx. unfold rstrip. simpl. rewrite lstrip_snoc by exact Hx.
  now rewrite rev_app_distr.
Qed.

Lemma rstrip_snoc (n : str) (y : N) :
  Py_UNICODE_ISSPACE y = false -> rstrip (n ++ [y]) = n ++ [y].
Proof.
  intros Hy. unfold rstrip. rewrite rev_app_distr. simpl. rewrite Hy.
  simpl. now rewrite rev_involutive.
Qed.

Lemma strip_trimmed (s : str) : trimmed s -> strip s = s.
Proof.
  intros [(x & m & Hs & Hx) (n & y & Hs' & Hy)]. unfold strip.
  assert (Hl : lstrip s = s) by (rewrite Hs; simpl; now rewrite Hx).
  rewrite Hl, Hs'. now apply rstrip_snoc.
Qed.

Lemma lstrip_head (s : str) :
  lstrip s = [] \/ exists x m, lstrip s = x :: m /\ Py_UNICODE_ISSPACE x = false.
Proof.
  induction s as [|c r IH]; simpl; [now left|].
  destruct (Py_UNICODE_ISSPACE c) eqn:Hc; [exact IH|]. right. eauto.
Qed.

(** What [strip] returns is empty or trimmed. *)
Lemma strip_result (s : str) : strip s = [] \/ trimmed (strip s).
Proof.
  unfold strip. destruct (lstrip_head s) as [-> | (x & m & -> & Hx)];
    [now left|]. right. split.
  - rewrite rstrip_cons by exact Hx. eauto.
  - unfold rstrip.
    destruct (lstrip_head (rev (x :: m))) as [Hnil | (y & n & Hr & Hy)].
    + exfalso. assert (Hlen : lstrip (rev (x :: m)) <> []).
      { simpl. rewrite lstrip_snoc by exact Hx. now destruct (lstrip (rev m)). }
      contradiction.
    + rewrite Hr. simpl. eauto.
Qed.


Lemma ascii_tolower_space (c : N) :
  is_ascii c = true -> Py_UNICODE_ISSPACE c = false ->
  Py_UNICODE_ISSPACE (ascii_tolower c) = false.
Proof.
  unfold is_ascii. intros Ha Hc. apply N.ltb_lt in Ha.
  assert (H : implb (negb (Py_UNICODE_ISSPACE c))
                    (negb (Py_UNICODE_ISSPACE (ascii_tolower c))) = true).
  { apply (below_by_range
             (fun c => implb (negb (Py_UNICODE_ISSPACE c))
                             (negb (Py_UNICODE_ISSPACE (ascii_tolower c)))) 127);
      [vm_compute; reflexivity | lia]. }
  rewrite Hc in H. simpl in H. now apply negb_true_iff in H.
Qed.

Lemma plain_no_space (d : N) : ucd_plain d = true -> Py_UNICODE_ISSPACE d = false.
Proof.
  unfold ucd_plain. intros H. apply andb_true_iff in H as [_ H].
  now apply negb_true_iff in H.
Qed.

(** The lowercase of a code point that is no whitespace is not empty and
    holds no whitespace. *)
Lemma lower_cp_no_space (pre : list N) (c : N) (post : list N) :
  Py_UNICODE_ISSPACE c = false ->
  lower_cp pre c post <> [] /\
  forallb (fun d => negb (Py_UNICODE_ISSPACE d)) (lower_cp pre c post) = true.
Proof.
  intros Hc. unfold lower_cp. destruct (is_ascii c) eqn:Ha.
  { split; [discriminate|]. simpl. now rewrite ascii_tolower_space. }
  destruct (c =? 0x130) eqn:H1; [split; [discriminate | reflexivity]|].
  destruct (c =? 0x212A) eqn:H2; [split; [discriminate | reflexivity]|].
  destruct ((c =? 0x131) || (c =? 0x17F) || Py_UNICODE_ISSPACE c) eqn:H3.
  { split; [discriminate|]. simpl. now rewrite Hc. }
  assert (Hp : ucd_plain c = true).
  { unfold ucd_plain, meets_ascii. rewrite Ha, H1, H2, Hc.
    apply orb_false_iff in H3 as [H3 _]. apply orb_false_iff in H3 as [-> ->].
    reflexivity. }
  destruct (ucd_lower_plain pre c post Hp) as [Hne Hall]. split; [exact Hne|].
  rewrite forallb_forall in *. intros d Hd.
  now rewrite (plain_no_space d (Hall d Hd)).
Qed.

End StripFacts.

Section LowerEdges.
Context {U : UnicodeData}.

Lemma last_no_space (l : list N) :
  l <> [] ->
  forallb (fun d => negb (Py_UNICODE_ISSPACE d)) l = true ->
  exists n y, l = n ++ [y] /\ Py_UNICODE_ISSPACE y = false.
Proof.
  intros Hne Hall. destruct (exists_last Hne) as (n & y & ->).
  exists n, y. split; [reflexivity|].
  rewrite forallb_app in Hall. apply andb_true_iff in Hall as [_ Hy].
  simpl in Hy. rewrite andb_true_r in Hy. now apply negb_true_iff in Hy.
Qed.

Lemma lower_from_last (pre n : str) (y : N) :
  Py_UNICODE_ISSPACE y = false ->
  exists n' y', lower_from pre (n ++ [y]) = n' ++ [y'] /\
    Py_UNICODE_ISSPACE y' = false.
Proof.
  intros Hy. revert pre. induction n as [|c n IH]; intros pre; simpl.
  - destruct (lower_cp_no_space pre y [] Hy) as [Hne Hall].
    rewrite app_nil_r. now apply last_no_space.
  - destruct (IH (c :: pre)) as (n' & y' & -> & Hy').
    exists (lower_cp pre c (n ++ [y]) ++ n'), y'. now rewrite app_assoc.
Qed.

Lemma lower_from_trimmed (pre s : str) : trimmed s -> trimmed (lower_from pre s).
Proof.
  intros [(x & m & Hs & Hx) (n & y & Hs' & Hy)]. split.
  - rewrite Hs. simpl.
    destruct (lower_cp_no_space pre x m Hx) as [Hne Hall].
    destruct (lower_cp pre x m) as [|x' r]; [contradiction|].
    exists x', (r ++ lower_from (x :: pre) m). split; [reflexivity|].
    simpl in Hall. apply andb_true_iff in Hall as [Hx' _].
    now apply negb_true_iff in Hx'.
  - rewrite Hs'. now apply lower_from_last.
Qed.

(** What the handlers store as an e-mail needs no further stripping. *)
Lemma strip_lower_strip (t : str) : strip (lower (strip t)) = lower (strip t).
Proof.
  destruct (strip_result t) as [-> | H]; [reflexivity|].
  apply strip_trimmed. now apply lower_from_trimmed.
Qed.


End LowerEdges.

(** ** The dispatcher, by cases *)

Section DispatchCases.
Context {U : UnicodeData}.
Variable ALLOWED_ADMINS : gset Z.
Variable env : Env.

(** The run of the dispatcher on a message is the run of the handler it
    selects: a statement about the runs of the handlers that can be
    selected is a statement about the dispatcher. *)
Lemma dispatch_message_cases (m : Message) (w : World) (Q : Run unit -> Prop) :
  let ctx := fsm_key (chat m) (from_user m) in
  let private := match chat_type (chat m) with PRIVATE => true | _ => false end in
  (is_group (chat_type (chat m)) = true -> Q (guard_group_messages env m w)) ->
  (is_group (chat_type (chat m)) = false ->
   is_command w m "start" = true -> Q (start env m ctx w)) ->
  (forall u st,
     is_group (chat_type (chat m)) = false ->
     is_command w m "start" = false ->
     from_user m = Some u ->
     state (session_of w ctx) = Some st -> st <> Reg.confirm ->
     Q (field_handler st env m ctx w)) ->
  (is_group (chat_type (chat m)) = false ->
   is_command w m "who" = true -> private = true ->
   Q (who_cmd_private ALLOWED_ADMINS env m w)) ->
  (is_group (chat_type (chat m)) = false ->
   is_command w m "remove" = true -> private = true ->
   Q (remove_cmd ALLOWED_ADMINS env m w)) ->
  (is_group (chat_type (chat m)) = false -> Q (info_cmd env m w)) ->
  (is_group (chat_type (chat m)) = false -> Q (export_csv env m w)) ->
  (is_group (chat_type (chat m)) = false -> Q (setup_instructions env m w)) ->
  Q (ret tt w) ->
  Q (dispatch_message ALLOWED_ADMINS env m w).
Proof.
  intros ctx private Hguard Hstart Hfield Hwho Hremove Hinfo Hexport Hsetup Hnone.
  assert (Heta : forall r : Run unit,
            Build_Run (result r) (final_world r) (calls r) = r) by reflexivity.
  unfold dispatch_message, bind, get. cbn [result final_world calls app].
  fold ctx. rewrite Heta.
  destruct (is_group (chat_type (chat m))) eqn:Hg; [now apply Hguard|].
  destruct (is_command w m "start") eqn:Hs; [now apply Hstart|].
  assert (Hrest : Q ((if is_command w m "who" && private
                      then who_cmd_private ALLOWED_ADMINS env m
                      else if is_command w m "remove" && private
                      then remove_cmd ALLOWED_ADMINS env m
                      else if is_command w m "info" then info_cmd env m
                      else if is_command w m "export" then export_csv env m
                      else if is_command w m "setup_instructions"
                      then setup_instructions env m
                      else ret tt) w)).
  { destruct (is_command w m "who" && private) eqn:H1.
    { apply andb_true_iff in H1 as [H1 H1']. now apply Hwho. }
    destruct (is_command w m "remove" && private) eqn:H2.
    { apply andb_true_iff in H2 as [H2 H2']. now apply Hremove. }
    destruct (is_command w m "info"); [now apply Hinfo|].
    destruct (is_command w m "export"); [now apply Hexport|].
    destruct (is_command w m "setup_instructions"); [now apply Hsetup|].
    exact Hnone. }
  subst private.
  destruct (from_user m) as [u|] eqn:Hu.
  - destruct (state (session_of w ctx)) as [st|] eqn:Hst.
    + destruct st;
        try (apply (Hfield u _ eq_refl eq_refl eq_refl eq_refl); discriminate).
      exact Hrest.
    + exact Hrest.
  - exact Hrest.
Qed.

End DispatchCases.

(** ** What an update can touch *)

Lemma respects_bind_ret (R : World -> World -> Prop) (P : ApiCall -> Prop)
    {A B} (a : A) (k : A -> M B) :
  respects R P (k a) -> respects R P (bind (ret a) k).
Proof. intros H w. exact (H w). Qed.

Lemma respects_bind_raise (R : World -> World -> Prop) (P : ApiCall -> Prop)
    (R_refl : forall w, R w w) {A B} (e : PyExc) (k : A -> M B) :
  respects R P (bind (raise e) k).
Proof. intros w. split; [apply R_refl | constructor]. Qed.

(** The rows and sessions of everybody but the sender [s] in the context
    [ctx] are as before; [keep] says whether this holds of the profiles
    too. *)
Definition others_kept (s : option Z) (ctx : option (Z * Z)) (keep : bool)
    (w w' : World) : Prop :=
  (forall u c, Some u <> s -> pending w' !! (u, c) = pending w !! (u, c)) /\
  (forall key, Some key <> ctx -> storage w' !! key = storage w !! key) /\
  (keep = true -> forall k, Some k <> s -> profiles w' !! k = profiles w !! k).

Lemma others_kept_refl s ctx keep (w : World) : others_kept s ctx keep w w.
Proof. repeat split. Qed.

Lemma others_kept_trans s ctx keep (w1 w2 w3 : World) :
  others_kept s ctx keep w1 w2 -> others_kept s ctx keep w2 w3 ->
  others_kept s ctx keep w1 w3.
Proof.
  intros (H1 & H2 & H3) (H4 & H5 & H6). split; [|split].
  - intros u c Hu. now rewrite H4, H1.
  - intros key Hk. now rewrite H5, H2.
  - intros Hkeep k Hk. now rewrite H6, H3.
Qed.

(** Closes the conditions on the state changes for [others_kept]. *)
Ltac others_side :=
  first
    [ exact I
    | intros; split; [|split]; intros;
      cbn [pending storage profiles set_pending set_storage set_profiles
           set_throttle set_idx];
      first [ reflexivity
            | apply lookup_insert_ne; congruence
            | apply lookup_delete_ne; congruence
            | discriminate ] ].

(** [respects_tac] for [others_kept], with the results of [ret] and [raise]
    passed on to what follows them. *)
Ltac others_step :=
  lazymatch goal with
  | |- respects (others_kept ?s ?ctx ?keep) _ ?c =>
      lazymatch c with
      | bind (ret _) _ =>
          apply (respects_bind_ret (others_kept s ctx keep) any_call)
      | bind (raise _) _ =>
          apply (respects_bind_raise (others_kept s ctx keep) any_call
                   (others_kept_refl s ctx keep))
      | bind _ _ =>
          apply (respects_bind (others_kept s ctx keep) any_call
                   (others_kept_trans s ctx keep))
      | try_except _ _ _ =>
          apply (respects_try (others_kept s ctx keep) any_call
                   (others_kept_trans s ctx keep))
      | ret _ =>
          apply (respects_ret (others_kept s ctx keep) any_call
                   (others_kept_refl s ctx keep))
      | raise _ =>
          apply (respects_raise (others_kept s ctx keep) any_call
                   (others_kept_refl s ctx keep))
      | get =>
          apply (respects_get (others_kept s ctx keep) any_call
                   (others_kept_refl s ctx keep))
      | modify _ =>
          apply (respects_modify (others_kept s ctx keep) any_call); others_side
      | api _ _ =>
          apply (respects_api (others_kept s ctx keep) any_call
                   (others_kept_refl s ctx keep)); exact I
      | effect _ =>
          apply (respects_effect (others_kept s ctx keep) any_call
                   (others_kept_refl s ctx keep)); exact I
      | (if ?b then _ else _) => destruct b
      | match ?x with _ => _ end => destruct x
      | _ => progress cbv zeta
      end
  | |- forall _, _ => intro
  end.

Ltac others_tac := repeat others_step.

Section Isolation.
Context {U : UnicodeData}.
Variable ALLOWED_ADMINS : gset Z.
Variable env : Env.

(** A handler of the message [m], run in the context the dispatcher gives
    it, keeps what belongs to others. *)
Ltac message_handler m :=
  autounfold with bot; unfold batch_notice, save_profile;
  cbn [update_sender update_context];
  destruct (from_user m); others_tac.

(** Reduce a statement about one run of a handler to [respects]. *)
Ltac by_respects h :=
  lazymatch goal with
  | |- others_kept ?s ?ctx ?keep ?w (final_world (?c ?w)) =>
      let H := fresh "H" in
      enough (H : respects (others_kept s ctx keep) any_call c) by apply H
  end.

Lemma message_others_kept (m : Message) (keep : bool) (w : World) :
  (keep = true -> is_command w m "remove" = false) ->
  others_kept (update_sender (message_update m))
    (update_context (message_update m)) keep w
    (final_world (dispatch_message ALLOWED_ADMINS env m w)).
Proof.
  intros Hkeep.
  apply (dispatch_message_cases ALLOWED_ADMINS env m w
           (fun run => others_kept (update_sender (message_update m))
                         (update_context (message_update m)) keep w
                         (final_world run))).
  - intros _. by_respects guard_group_messages. message_handler m.
  - intros _ _. by_respects start. message_handler m.
  - intros u st _ _ _ _ _. by_respects field_handler.
    destruct st; message_handler m.
  - intros _ _ _. by_respects who_cmd_private. message_handler m.
  - intros _ Hrem _. destruct keep.
    + rewrite Hkeep in Hrem by reflexivity. discriminate.
    + by_respects remove_cmd. message_handler m.
  - intros _. by_respects info_cmd. message_handler m.
  - intros _. by_respects export_csv. message_handler m.
  - intros _. by_respects setup_instructions. message_handler m.
  - apply others_kept_refl.
Qed.

Lemma callback_others_kept (cb : CallbackQuery) (keep : bool) :
  respects (others_kept (update_sender (callback_query_update cb))
              (update_context (callback_query_update cb)) keep) any_call
    (dispatch_callback env cb).
Proof.
  unfold dispatch_callback. autounfold with bot. unfold save_profile.
  cbn [update_sender update_context]. others_tac.
Qed.

Lemma join_others_kept (ev : ChatMemberUpdated) (keep : bool) :
  respects (others_kept (update_sender (chat_member_update ev))
              (update_context (chat_member_update ev)) keep) any_call
    (on_user_join env ev).
Proof.
  autounfold with bot. cbn [update_sender update_context]. others_tac.
Qed.

Lemma feed_update_others_kept (upd : Update) (keep : bool) (w : World) :
  (keep = true -> is_remove w upd = false) ->
  others_kept (update_sender upd) (update_context upd) keep w
    (final_world (feed_update ALLOWED_ADMINS env upd w)).
Proof.
  intros Hkeep. destruct upd as [m|cb|ev].
  - now apply message_others_kept.
  - apply callback_others_kept.
  - cbn [feed_update]. destruct (new_chat_member_status ev);
      try apply others_kept_refl. apply join_others_kept.
Qed.

End Isolation.


(** ** [/start] of somebody who is not registered *)

Section StartFacts.
Context {U : UnicodeData}.
Variable env : Env.

(** The chat a deep link names, if [start] accepts it: the payload begins
    with [verify_] and what follows the first underscore is an integer
    that SQLite can store. *)
Definition deep_link_chat (message : Message) : option Z :=
  let args := split_maxsplit1 (py_or_empty (text message)) in
  let payload := match args with _ :: p :: _ => p | _ => [] end in
  if startswith payload (str_of "verify_") then
    match snd (partition1 95 payload) with
    | Some digits =>
        match py_int digits with
        | Some c => if sqlite_integer c then Some c else None
        | None => None
        end
    | None => None
    end
  else None.

Lemma start_unregistered_run (message : Message) (u : User) (ctx : Z * Z)
    (w : World) :
  from_user message = Some u ->
  profiles w !! user_id u = None ->
  let w1 := match deep_link_chat message with
            | Some c => set_pending (insert (user_id u, c) (utcnow_isoformat env)) w
            | None => w
            end in
  final_world (start env message ctx w)
  = with_session ctx
      {| state := Some Reg.first_name; data := data (session_of w ctx) |} w1 /\
  calls (start env message ctx w)
  = [send_message (chat_id (chat message)) ask_first_name].
Proof.
  intros Hu Hnew w1.
  change (wp (start env message ctx)
            (fun _ w' l =>
               w' = with_session ctx
                      {| state := Some Reg.first_name;
                         data := data (session_of w ctx) |} w1 /\
               l = [send_message (chat_id (chat message)) ask_first_name]) w).
  subst w1. unfold deep_link_chat, start, from_user_id, is_registered.
  cbv zeta. rewrite Hu. wp_run. rewrite Hnew. cbv beta iota.
  unfold set_state, add_pending, bind_integer.
  destruct (startswith _ _); wp_run;
    [destruct (snd (partition1 95 _)) as [digits|]; wp_run;
     [destruct (py_int digits) as [c|]; wp_run;
      [destruct (sqlite_integer c); wp_run|]|]|];
    cbn [any_exception]; wp_run; wp_call; split; reflexivity.
Qed.

Local Open Scope N_scope.

Lemma start_verify_words (digits : str) :
  split_maxsplit1 (str_of "/start verify_" ++ digits)
  = [str_of "/start"; str_of "verify_" ++ digits].
Proof.
  replace (str_of "/start verify_")
    with [47; 115; 116; 97; 114; 116; 32; 118; 101; 114; 105; 102; 121; 95]
    by (vm_compute; reflexivity).
  replace (str_of "/start") with [47; 115; 116; 97; 114; 116]
    by (vm_compute; reflexivity).
  replace (str_of "verify_") with [118; 101; 114; 105; 102; 121; 95]
    by (vm_compute; reflexivity).
  reflexivity.
Qed.

Lemma verify_payload (digits : str) :
  startswith (str_of "verify_" ++ digits) (str_of "verify_") = true /\
  snd (partition1 95 (str_of "verify_" ++ digits)) = Some digits.
Proof.
  replace (str_of "verify_") with [118; 101; 114; 105; 102; 121; 95]
    by (vm_compute; reflexivity).
  split; [destruct digits; reflexivity | reflexivity].
Qed.

(** The deep link [/start verify_<digits>] names the chat [int(digits)]. *)
Lemma deep_link_chat_verify (message : Message) (digits : str) :
  text message = Some (str_of "/start verify_" ++ digits) ->
  deep_link_chat message
  = match py_int digits with
    | Some c => if sqlite_integer c then Some c else None
    | None => None
    end.
Proof.
  intros Ht. unfold deep_link_chat. rewrite Ht. cbn [py_or_empty].
  rewrite start_verify_words. cbv zeta.
  destruct (verify_payload digits) as [-> ->]. reflexivity.
Qed.

End StartFacts.

(** ** [int] and [isdigit] *)

Section IntFacts.
Context {U : UnicodeData}.

Local Open Scope N_scope.

Lemma int_tok_ascii_digit (c : N) :
  ascii_digit c = true -> int_tok_of c = TDigit (Z.of_N (c - 48)).
Proof.
  intros Hc. unfold ascii_digit in Hc. apply andb_true_iff in Hc as [H1 H2].
  apply N.leb_le in H1, H2. unfold int_tok_of, is_ascii, ascii_digit.
  rewrite (proj2 (N.ltb_lt c 128)) by lia.
  rewrite (proj2 (N.leb_gt c 13)) by lia.
  rewrite (proj2 (N.eqb_neq c 32)) by lia.
  rewrite andb_false_r. cbn [orb].
  rewrite (proj2 (N.leb_le 48 c)), (proj2 (N.leb_le c 57)) by lia.
  reflexivity.
Qed.

Lemma int_digits_ascii (a : str) (acc : Z) :
  forallb ascii_digit a = true ->
  int_digits acc false (map int_tok_of a)
  = Some (fold_left (fun acc c => (acc * 10 + Z.of_N (c - 48))%Z) a acc).
Proof.
  revert acc. induction a as [|c a IH]; intros acc Ha; [reflexivity|].
  cbn [forallb] in Ha. apply andb_true_iff in Ha as [Hc Ha].
  cbn [map int_digits fold_left]. rewrite (int_tok_ascii_digit c Hc).
  now apply IH.
Qed.

(** [int] of a string of ASCII digits is the number it denotes. *)
Lemma py_int_ascii_digits (a : str) :
  a <> [] -> forallb ascii_digit a = true -> py_int a = Some (digits_value a).
Proof.
  intros Hne Ha. destruct a as [|c a]; [contradiction|].
  cbn [forallb] in Ha. apply andb_true_iff in Ha as [Hc Ha].
  unfold py_int, digits_value. cbn [map fold_left].
  rewrite (int_tok_ascii_digit c Hc). cbn [skip_space].
  rewrite (int_digits_ascii a _ Ha). reflexivity.
Qed.

Lemma isdigit_ascii_digits (a : str) :
  a <> [] -> forallb ascii_digit a = true -> isdigit a = true.
Proof.
  intros Hne Ha. unfold isdigit. destruct a as [|c a]; [contradiction|].
  rewrite forallb_forall in *. intros x Hx. specialize (Ha x Hx).
  unfold unicode_isdigit, is_ascii. unfold ascii_digit in Ha.
  apply andb_true_iff in Ha as [H1 H2]. apply N.leb_le in H1, H2.
  rewrite (proj2 (N.ltb_lt x 128)) by lia. unfold ascii_digit.
  now rewrite (proj2 (N.leb_le 48 x)), (proj2 (N.leb_le x 57)) by lia.
Qed.

Lemma digit_tokens_ascii (a : str) :
  forallb ascii_digit a = true ->
  length (List.filter is_digit_tok (map int_tok_of a)) = length a.
Proof.
  induction a as [|c a IH]; [reflexivity|]. cbn [forallb]. intros Ha.
  apply andb_true_iff in Ha as [Hc Ha]. cbn [map List.filter].
  rewrite (int_tok_ascii_digit c Hc). cbn [is_digit_tok length]. now rewrite IH.
Qed.

Lemma ascii_digit_no_space (c : N) :
  ascii_digit c = true -> Py_UNICODE_ISSPACE c = false.
Proof.
  intros Hc. unfold ascii_digit in Hc. apply andb_true_iff in Hc as [H1 H2].
  apply N.leb_le in H1, H2.
  assert (H : implb (ascii_digit c) (negb (Py_UNICODE_ISSPACE c)) = true).
  { apply (below_by_range
             (fun c => implb (ascii_digit c) (negb (Py_UNICODE_ISSPACE c))) 127);
      [vm_compute; reflexivity | lia]. }
  unfold ascii_digit in H.
  rewrite (proj2 (N.leb_le 48 c)), (proj2 (N.leb_le c 57)) in H by lia.
  cbn in H. now apply negb_true_iff in H.
Qed.

End IntFacts.

(** ** The list of administrators *)

Section ConfigFacts.
Context {U : UnicodeData}.

Local Open Scope N_scope.

Lemma split_sep_single (sep : N) (a : str) :
  forallb (fun c => negb (c =? sep)) a = true -> split_sep sep a = [a].
Proof.
  induction a as [|c a IH]; [reflexivity|]. cbn [forallb]. intros H.
  apply andb_true_iff in H as [Hc Ha]. apply negb_true_iff in Hc.
  cbn [split_sep]. now rewrite Hc, (IH Ha).
Qed.

Lemma split_sep_app (sep : N) (a s : str) :
  forallb (fun c => negb (c =? sep)) a = true ->
  split_sep sep (a ++ sep :: s) = a :: split_sep sep s.
Proof.
  induction a as [|c a IH]; cbn [app split_sep forallb].
  - intros _. now rewrite N.eqb_refl.
  - intros H. apply andb_true_iff in H as [Hc Ha]. apply negb_true_iff in Hc.
    now rewrite Hc, (IH Ha).
Qed.

Lemma numeral_no_comma (a : str) :
  numeral a -> forallb (fun c => negb (c =? 44)) a = true.
Proof.
  intros (_ & Ha & _). rewrite forallb_forall in *. intros c Hc.
  specialize (Ha c Hc). unfold ascii_digit in Ha.
  apply andb_true_iff in Ha as [H1 _]. apply N.leb_le in H1.
  apply negb_true_iff, N.eqb_neq. lia.
Qed.

(** [split] undoes [join] on numerals. *)
Lemma split_join_comma (items : list str) :
  items <> [] -> Forall numeral items ->
  split_sep 44 (join_comma items) = items.
Proof.
  induction items as [|a [|b rest] IH]; [contradiction| |]; intros _ Hall.
  - cbn [join_comma]. apply split_sep_single, numeral_no_comma.
    now inversion Hall.
  - inversion Hall as [|? ? Ha Hrest]; subst.
    change (join_comma (a :: b :: rest)) with (a ++ 44 :: join_comma (b :: rest)).
    rewrite split_sep_app by now apply numeral_no_comma.
    f_equal. apply IH; [discriminate | exact Hrest].
Qed.

Lemma numeral_trimmed (a : str) : numeral a -> trimmed a.
Proof.
  intros (Hne & Ha & _). rewrite forallb_forall in Ha. split.
  - destruct a as [|x m]; [contradiction|]. exists x, m. split; [reflexivity|].
    apply ascii_digit_no_space, Ha. now left.
  - destruct (exists_last Hne) as (n & y & ->). exists n, y.
    split; [reflexivity|]. apply ascii_digit_no_space, Ha.
    apply in_or_app. right. now left.
Qed.

Lemma join_comma_trimmed (items : list str) :
  items <> [] -> Forall numeral items -> trimmed (join_comma items).
Proof.
  induction items as [|a [|b rest] IH]; [contradiction| |]; intros _ Hall.
  - cbn [join_comma]. apply numeral_trimmed. now inversion Hall.
  - inversion Hall as [|? ? Ha Hrest]; subst.
    change (join_comma (a :: b :: rest)) with (a ++ 44 :: join_comma (b :: rest)).
    destruct (numeral_trimmed a Ha) as [(x & m & -> & Hx) _].
    destruct (IH ltac:(discriminate) Hrest) as [_ (n & y & -> & Hy)].
    split.
    + exists x, (m ++ 44 :: n ++ [y]). split; [reflexivity | exact Hx].
    + exists ((x :: m) ++ 44 :: n), y. split; [|exact Hy].
      now rewrite <- app_assoc.
Qed.

Lemma int_set_numerals (items : list str) :
  Forall numeral items ->
  int_set items = Some (list_to_set (map digits_value items)).
Proof.
  induction 1 as [|a items Ha _ IH]; [reflexivity|].
  cbn [int_set map]. rewrite (strip_trimmed a (numeral_trimmed a Ha)).
  destruct Ha as (Hne & Hd & Hlen).
  rewrite (isdigit_ascii_digits a Hne Hd). unfold py_int_limited.
  rewrite (digit_tokens_ascii a Hd).
  rewrite (proj2 (Nat.ltb_ge _ _) Hlen).
  rewrite (py_int_ascii_digits a Hne Hd), IH. reflexivity.
Qed.

End ConfigFacts.

Section SignFacts.
Context {U : UnicodeData}.

Local Open Scope N_scope.

Lemma int_tok_space (c : N) :
  int_tok_of c = TSpace -> Py_UNICODE_ISSPACE c = true.
Proof.
  destruct (is_ascii c) eqn:Ha.
  - intros Hc.
    assert (H : match int_tok_of c with
                | TSpace => Py_UNICODE_ISSPACE c
                | _ => true
                end = true).
    { unfold is_ascii in Ha. apply N.ltb_lt in Ha.
      apply (below_by_range
               (fun c => match int_tok_of c with
                         | TSpace => Py_UNICODE_ISSPACE c
                         | _ => true
                         end) 127); [vm_compute; reflexivity | lia]. }
    now rewrite Hc in H.
  - unfold int_tok_of. rewrite Ha.
    destruct (Py_UNICODE_ISSPACE c); [reflexivity|].
    destruct (meets_ascii c); [discriminate|].
    destruct (ucd_decimal c); discriminate.
Qed.

Lemma int_tok_minus (c : N) : int_tok_of c = TMinus -> c = 45.
Proof.
  destruct (is_ascii c) eqn:Ha.
  - intros Hc.
    assert (H : match int_tok_of c with
                | TMinus => c =? 45
                | _ => true
                end = true).
    { unfold is_ascii in Ha. apply N.ltb_lt in Ha.
      apply (below_by_range
               (fun c => match int_tok_of c with
                         | TMinus => c =? 45
                         | _ => true
                         end) 127); [vm_compute; reflexivity | lia]. }
    rewrite Hc in H. now apply N.eqb_eq.
  - unfold int_tok_of. rewrite Ha.
    destruct (Py_UNICODE_ISSPACE c); [discriminate|].
    destruct (meets_ascii c); [discriminate|].
    destruct (ucd_decimal c); discriminate.
Qed.

Lemma int_tok_digit_nonneg (c : N) (d : Z) :
  int_tok_of c = TDigit d -> (0 <= d)%Z.
Proof.
  unfold int_tok_of.
  repeat match goal with
         | |- context [if ?b then _ else _] => destruct b
         | |- context [match ucd_decimal ?c with _ => _ end] =>
             destruct (ucd_decimal c)
         end; try discriminate; intros [= <-]; lia.
Qed.

Lemma int_digits_nonneg (r : str) (acc : Z) (under : bool) (n : Z) :
  (0 <= acc)%Z ->
  int_digits acc under (map int_tok_of r) = Some n -> (0 <= n)%Z.
Proof.
  revert acc under. induction r as [|c r IH]; intros acc under Hacc.
  - cbn. destruct under; [discriminate|]. intros [= <-]. exact Hacc.
  - cbn [map int_digits]. destruct (int_tok_of c) eqn:Hc;
      try (destruct under; [discriminate|];
           destruct (only_space _); [|discriminate];
           intros [= <-]; exact Hacc).
    + apply IH. pose proof (int_tok_digit_nonneg c d Hc). lia.
    + destruct under; [discriminate|]. now apply IH.
Qed.

(** The whitespace [int] skips is whitespace [strip] removes. *)
Lemma skip_space_prefix (x : str) :
  exists ws rest, x = ws ++ rest /\
    skip_space (map int_tok_of x) = map int_tok_of rest /\
    forallb Py_UNICODE_ISSPACE ws = true /\
    skip_space (map int_tok_of rest) = map int_tok_of rest.
Proof.
  induction x as [|c x (ws & rest & Hx & Hskip & Hws & Hrest)].
  - exists [], []. repeat split.
  - destruct (int_tok_of c) eqn:Hc.
    1: { exists (c :: ws), rest. split; [cbn [app]; now f_equal|].
         split; [cbn [map skip_space]; rewrite Hc; exact Hskip|].
         split; [|exact Hrest].
         cbn [forallb]. now rewrite (int_tok_space c Hc), Hws. }
    all: exists [], (c :: x); cbn [map skip_space app forallb]; rewrite Hc;
      repeat split.
Qed.

Lemma lstrip_spaces (ws rest : str) :
  forallb Py_UNICODE_ISSPACE ws = true -> lstrip (ws ++ rest) = lstrip rest.
Proof.
  induction ws as [|c ws IH]; [reflexivity|]. cbn [forallb app lstrip].
  intros H. apply andb_true_iff in H as [-> H]. now apply IH.
Qed.

End SignFacts.

Section AdminSetFacts.
Context {U : UnicodeData}.

Local Open Scope N_scope.

(** What passes [x.strip().isdigit()] has no sign, so its [int] is not
    negative. *)
Lemma isdigit_int_nonneg (x : str) (n : Z) :
  isdigit (strip x) = true -> py_int x = Some n -> (0 <= n)%Z.
Proof.
  intros Hd Hn.
  destruct (skip_space_prefix x) as (ws & rest & Hx & Hskip & Hws & _).
  unfold py_int in Hn. rewrite Hskip in Hn.
  destruct rest as [|c r]; [discriminate|]. cbn [map] in Hn.
  destruct (int_tok_of c) eqn:Hc; try discriminate.
  - destruct (int_digits d false (map int_tok_of r)) as [v|] eqn:Hv;
      [|discriminate].
    injection Hn as <-. eapply int_digits_nonneg; [|exact Hv].
    now apply (int_tok_digit_nonneg c).
  - destruct r as [|c' r']; [discriminate|]. cbn [map] in Hn.
    destruct (int_tok_of c') eqn:Hc'; try discriminate.
    destruct (int_digits d false (map int_tok_of r')) as [v|] eqn:Hv;
      [|discriminate].
    injection Hn as <-. eapply int_digits_nonneg; [|exact Hv].
    now apply (int_tok_digit_nonneg c').
  - exfalso. apply int_tok_minus in Hc. subst c.
    assert (Hs : strip x = 45 :: rstrip r).
    { unfold strip. rewrite Hx, (lstrip_spaces ws _ Hws).
      cbn [lstrip]. replace (Py_UNICODE_ISSPACE 45) with false by reflexivity.
      now apply rstrip_cons. }
    rewrite Hs in Hd. unfold isdigit in Hd. cbn [forallb] in Hd.
    replace (unicode_isdigit 45) with false in Hd by reflexivity.
    discriminate.
Qed.

Lemma py_int_limited_Some (x : str) (n : Z) :
  py_int_limited x = Some n -> py_int x = Some n.
Proof. unfold py_int_limited. now destruct (_ <? _)%nat. Qed.

Lemma int_set_nonneg (xs : list str) (s : gset Z) :
  int_set xs = Some s -> forall n, n ∈ s -> (0 <= n)%Z.
Proof.
  revert s. induction xs as [|x xs IH]; intros s; cbn [int_set].
  - intros [= <-] n Hn. now apply not_elem_of_empty in Hn.
  - destruct (isdigit (strip x)) eqn:Hd; [|apply IH].
    destruct (py_int_limited x) as [v|] eqn:Hv; [|discriminate].
    destruct (int_set xs) as [s'|]; [|discriminate].
    intros [= <-] n Hn. apply elem_of_union in Hn as [Hn | Hn].
    + apply elem_of_singleton in Hn. subst n.
      eapply isdigit_int_nonneg; [exact Hd|]. now apply py_int_limited_Some.
    + now apply (IH s').
Qed.

Lemma int_set_no_digits (xs : list str) :
  (forall x, In x xs -> isdigit (strip x) = false) -> int_set xs = Some ∅.
Proof.
  induction xs as [|x xs IH]; [reflexivity|]. intros H. cbn [int_set].
  rewrite (H x) by now left. apply IH. intros y Hy. apply H. now right.
Qed.

End AdminSetFacts.

(** ** The rows of an export *)

Lemma insert_by_created_at_perm (r : Z * Profile) (l : list (Z * Profile)) :
  Permutation (insert_by_created_at r l) (r :: l).
Proof.
  induction l as [|x l IH]; cbn [insert_by_created_at]; [reflexivity|].
  destruct (str_leb _ _); [|reflexivity].
  rewrite IH. apply perm_swap.
Qed.

Lemma insert_by_created_at_sorted (r : Z * Profile) (l : list (Z * Profile)) :
  StronglySorted created_before l ->
  StronglySorted created_before (insert_by_created_at r l).
Proof.
  induction 1 as [|x l Hl IH Hx]; cbn [insert_by_created_at].
  - repeat constructor.
  - destruct (str_leb (created_at (snd x)) (created_at (snd r))) eqn:Hxr.
    + constructor; [exact IH|].
      apply List.Forall_forall. intros y Hy.
      apply (Permutation_in _ (insert_by_created_at_perm r l)) in Hy.
      destruct Hy as [<- | Hy]; [exact Hxr|].
      rewrite List.Forall_forall in Hx. now apply Hx.
    + apply str_leb_total in Hxr. constructor; [now constructor|].
      constructor; [exact Hxr|].
      apply List.Forall_forall. intros y Hy. rewrite List.Forall_forall in Hx.
      unfold created_before in *. eapply str_leb_trans; [exact Hxr|].
      now apply Hx.
Qed.

(** [ORDER BY created_at] returns every row once, in that order. *)
Lemma order_by_created_at_spec (ps : gmap Z Profile) :
  Permutation (order_by_created_at ps) (map_to_list ps) /\
  StronglySorted created_before (order_by_created_at ps).
Proof.
  unfold order_by_created_at.
  induction (map_to_list ps) as [|r l [IHp IHs]]; cbn [fold_right].
  - split; [reflexivity | constructor].
  - split.
    + rewrite insert_by_created_at_perm. now constructor.
    + now apply insert_by_created_at_sorted.
Qed.

(** ** The throttle over the runs of the bot *)

Section ThrottleRuns.
Context {U : UnicodeData}.
Variable ALLOWED_ADMINS : gset Z.
Variable env : Env.

(** Closes the side conditions of [respects same_throttle no_notice]. *)
Ltac throttle_side :=
  first [ intros ?; reflexivity | intros; split; reflexivity ].

Ltac throttle_respects :=
  autounfold with bot; unfold save_profile;
  respects_tac same_throttle no_notice same_throttle_refl same_throttle_trans
    throttle_side.

(** One request of the guard before the private message. *)
Ltac throttle_step :=
  lazymatch goal with
  | |- match api_error _ _ with _ => _ end =>
      wp_call;
      [ try match goal with
            | |- context [telegram_errors (TelegramAPIError ?e)] =>
                destruct (telegram_errors (TelegramAPIError e))
            end
      | ];
      cbn [any_exception]; wp_run
  end.

Lemma guard_throttle (m : Message) (w : World) (group : Z) :
  is_group (chat_type (chat m)) = true ->
  wp (guard_group_messages env m)
     (fun _ w' l =>
        throttle_post env w group (group_sender (message_update m) group) w' l) w.
Proof.
  intros Hgroup. unfold guard_group_messages. cbn [group_sender]. rewrite Hgroup.
  cbn [andb].
  destruct (from_user m) as [u|];
    [|apply wp_ret, throttle_post_quiet; [apply same_throttle_refl | constructor]].
  destruct (is_bot u);
    [apply wp_ret, throttle_post_quiet; [apply same_throttle_refl | constructor]|].
  cbv zeta. unfold is_registered, add_pending, start_link. wp_run.
  destruct (profiles w !! user_id u); cbv beta iota; wp_run;
    [apply throttle_post_quiet; [apply same_throttle_refl | constructor]|].
  repeat throttle_step;
    lazymatch goal with
    | |- wp (batch_notice _ _ _) _ _ =>
        eapply wp_mono;
        [ apply (batch_notice_throttle env (chat_id (chat m)) (user_id u) group
                   _ w); split; reflexivity
        | cbv beta; intros ? ? ? Hpost;
          repeat (apply (throttle_post_app env w group _ _ [_]);
                  [repeat constructor; intros ?; reflexivity|]);
          exact Hpost ]
    | |- _ =>
        apply throttle_post_quiet;
        [ split; reflexivity
        | repeat constructor; intros ?; reflexivity ]
    end.
Qed.

(** What a run of the dispatcher does to the throttle of [group]. *)
Lemma feed_update_throttle (upd : Update) (w : World) (group : Z) :
  let run := feed_update ALLOWED_ADMINS env upd w in
  throttle_post env w group (group_sender upd group) (final_world run) (calls run).
Proof.
  assert (Hquiet : forall (c : M unit) sender,
            respects same_throttle no_notice c ->
            throttle_post env w group sender (final_world (c w)) (calls (c w))).
  { intros c sender Hc. destruct (Hc w). now apply throttle_post_quiet. }
  destruct upd as [m|cb|ev]; cbv zeta.
  - apply (dispatch_message_cases ALLOWED_ADMINS env m w
             (fun run => throttle_post env w group
                           (group_sender (message_update m) group)
                           (final_world run) (calls run))).
    + intros Hgroup. now apply guard_throttle.
    + intros _ _. apply Hquiet. throttle_respects.
    + intros u st _ _ _ _ _. apply Hquiet. destruct st; throttle_respects.
    + intros _ _ _. apply Hquiet. throttle_respects.
    + intros _ _ _. apply Hquiet. throttle_respects.
    + intros _. apply Hquiet. throttle_respects.
    + intros _. apply Hquiet. throttle_respects.
    + intros _. apply Hquiet. throttle_respects.
    + apply throttle_post_quiet; [apply same_throttle_refl | constructor].
  - apply Hquiet. cbn [feed_update]. unfold dispatch_callback. throttle_respects.
  - cbn [feed_update]. apply Hquiet.
    destruct (new_chat_member_status ev); throttle_respects.
Qed.

End ThrottleRuns.

(** ** Validation and normalization *)

Section Normalized.
Context {U : UnicodeData}.

(** The lowercase of a text the pattern accepts is that text. *)
Lemma accepted_lower (e : str) :
  e = lower (strip e) \/ (exists x, e = lower x) ->
  fullmatch FIZMAT_EMAIL_RE e = true -> lower e = e.
Proof.
  intros Hout Hm. apply lower_from_fixed. apply forallb_forall. intros c Hc.
  assert (Hlow : lower_output c = true).
  { destruct Hout as [He | [x He]]; rewrite He in Hc;
      eapply lower_from_output; exact Hc. }
  apply fullmatch_chars in Hm. rewrite forallb_forall in Hm.
  destruct (re_char_classify c (Hm c Hc)) as [Hp Hws].
  unfold lower_fixed. unfold lower_output in Hlow.
  unfold ucd_plain, meets_ascii in Hp.
  destruct (is_ascii c), (ascii_upper c), (c =? 0x130)%N, (c =? 0x131)%N,
    (c =? 0x17F)%N, (c =? 0x212A)%N, (Py_UNICODE_ISSPACE c);
    simpl in *; congruence.
Qed.

(** An accepted e-mail, once stripped and lowercased, is its own normal
    form and is accepted again. *)
Lemma valid_normalized (s : str) :
  is_valid_fizmat_email s = true ->
  let e := lower (strip s) in
  strip e = e /\ lower e = e /\ is_valid_fizmat_email e = true.
Proof.
  intros Hv e. unfold is_valid_fizmat_email in Hv.
  destruct s as [|c s']; [discriminate|]. fold e in Hv.
  assert (Hs : strip e = e) by apply strip_lower_strip.
  assert (Hl : lower e = e) by (apply accepted_lower; [right; now exists (strip (c :: s'))|exact Hv]).
  split; [exact Hs|]. split; [exact Hl|].
  unfold is_valid_fizmat_email. destruct e as [|d e'] eqn:He.
  - apply fullmatch_fizmat in Hv as (l1 & l2 & Heq & Hne & _).
    symmetry in Heq. apply app_eq_nil in Heq as [-> _]. contradiction.
  - rewrite Hs, Hl. exact Hv.
Qed.

End Normalized.

(** ** Sessions in the confirm state *)

(** A session that is in the confirm state afterwards was there before,
    unchanged. *)
Definition confirm_kept (w w' : World) : Prop :=
  forall key, state (session_of w' key) = Some Reg.confirm ->
    session_of w' key = session_of w key.

Lemma confirm_kept_refl (w : World) : confirm_kept w w.
Proof. intros key _. reflexivity. Qed.

Lemma confirm_kept_trans (w1 w2 w3 : World) :
  confirm_kept w1 w2 -> confirm_kept w2 w3 -> confirm_kept w1 w3.
Proof.
  intros H1 H2 key Hst. rewrite (H2 key Hst). apply H1.
  now rewrite <- (H2 key Hst).
Qed.

Lemma confirm_kept_session (key : Z * Z) (s : Session) (w : World) :
  state s <> Some Reg.confirm -> confirm_kept w (with_session key s w).
Proof.
  intros Hs key' Hst. rewrite session_of_with_session in *.
  destruct (decide (key = key')); [contradiction | reflexivity].
Qed.

Lemma wp_emits {A} (P : ApiCall -> Prop) (c : M A)
    (Q : Res A -> World -> list ApiCall -> Prop) (w : World) :
  emits P c -> (forall r w' l, Forall P l -> Q r w' l) -> wp c Q w.
Proof. intros He HQ. apply HQ, He. Qed.

(** Closes the conditions on the state changes for [confirm_kept]. *)
Ltac confirm_side :=
  first
    [ exact I
    | intros ? ? ?; reflexivity
    | intros ?; apply confirm_kept_session; discriminate ].

Section ConfirmReady.
Context {U : UnicodeData}.
Variable ALLOWED_ADMINS : gset Z.
Variable env : Env.

Ltac confirm_respects :=
  autounfold with bot; unfold batch_notice, save_profile;
  respects_tac confirm_kept any_call confirm_kept_refl confirm_kept_trans
    confirm_side.

Lemma confirm_ready_kept (w w' : World) :
  confirm_ready w -> confirm_kept w w' -> confirm_ready w'.
Proof.
  intros Hw Hk key Hst. rewrite (Hk key Hst). apply Hw.
  now rewrite <- (Hk key Hst).
Qed.

Lemma confirm_ready_session (key : Z * Z) (s : Session) (w : World) :
  confirm_ready w ->
  (state s = Some Reg.confirm ->
   is_valid_fizmat_email (lower (strip (data_get (data s) "email"))) = true) ->
  confirm_ready (with_session key s w).
Proof.
  intros Hw Hs key' Hst. rewrite session_of_with_session in *.
  destruct (decide (key = key')); [now apply Hs | now apply Hw].
Qed.

Lemma field_handler_confirm_ready (st : Reg.t) (m : Message) (ctx : Z * Z)
    (w : World) :
  confirm_ready w ->
  confirm_ready (final_world (field_handler st env m ctx w)).
Proof.
  intros Hw. destruct st; cbn [field_handler].
  - rewrite reg_first_name_world. apply confirm_ready_session; [exact Hw|].
    discriminate.
  - rewrite reg_last_name_world. apply confirm_ready_session; [exact Hw|].
    discriminate.
  - rewrite reg_class_world. apply confirm_ready_session; [exact Hw|].
    discriminate.
  - destruct (is_valid_fizmat_email (lower (strip (py_or_empty (text m)))))
      eqn:Hvalid.
    + rewrite reg_email_world by exact Hvalid.
      apply confirm_ready_session; [exact Hw|]. intros _. cbn [data].
      rewrite data_get_insert. destruct (decide _); [|contradiction].
      now apply valid_normalized.
    + unfold reg_email. rewrite Hvalid. cbn [negb].
      now rewrite quiet_answer.
  - exact Hw.
Qed.

Lemma feed_update_confirm_ready (upd : Update) (w : World) :
  confirm_ready w ->
  confirm_ready (final_world (feed_update ALLOWED_ADMINS env upd w)).
Proof.
  intros Hw.
  assert (Hkept : forall c : M unit,
            respects confirm_kept any_call c -> confirm_ready (final_world (c w))).
  { intros c Hc. apply (confirm_ready_kept w); [exact Hw | apply Hc]. }
  destruct upd as [m|cb|ev].
  - apply (dispatch_message_cases ALLOWED_ADMINS env m w
             (fun run => confirm_ready (final_world run))).
    + intros _. apply Hkept. confirm_respects.
    + intros _ _. apply Hkept. confirm_respects.
    + intros u st _ _ _ _ _. now apply field_handler_confirm_ready.
    + intros _ _ _. apply Hkept. confirm_respects.
    + intros _ _ _. apply Hkept. confirm_respects.
    + intros _. apply Hkept. confirm_respects.
    + intros _. apply Hkept. confirm_respects.
    + intros _. apply Hkept. confirm_respects.
    + exact Hw.
  - apply Hkept. cbn [feed_update]. unfold dispatch_callback. confirm_respects.
  - apply Hkept. cbn [feed_update].
    destruct (new_chat_member_status ev); confirm_respects.
Qed.

End ConfirmReady.

Section DomainError.
Context {U : UnicodeData}.
Variable ALLOWED_ADMINS : gset Z.
Variable env : Env.

(** A request that is not the reply of the [except ValueError] branch. *)
Definition no_domain_error (c : ApiCall) : Prop := is_domain_error c = false.

Definition any_change (w w' : World) : Prop := True.

Ltac quiet_respects :=
  autounfold with bot; unfold batch_notice, save_profile;
  respects_tac any_change no_domain_error
    (fun w : World => I) (fun (w1 w2 w3 : World) (_ _ : True) => I)
    ltac:(first [reflexivity | exact I | intros; exact I]).

Lemma confirm_no_domain_error (cb : CallbackQuery) (ctx : Z * Z) (w : World) :
  is_valid_fizmat_email
    (lower (strip (data_get (data (session_of w ctx)) "email"))) = true ->
  Forall no_domain_error (calls (confirm env cb ctx w)).
Proof.
  intros Hvalid.
  change (wp (confirm env cb ctx) (fun _ _ l => Forall no_domain_error l) w).
  unfold confirm, get_data, save_profile. wp_run. cbn [py_or_empty].
  rewrite Hvalid. cbn [negb]. wp_run.
  destruct (idx_profiles_email_unique w && email_taken _ _ _); wp_run;
    cbn [value_error]; [constructor|].
  apply (wp_emits no_domain_error).
  { autounfold with bot. emits_tac ltac:(first [reflexivity | exact I]). }
  intros r w' l Hl. destruct r as [a|e]; [|exact Hl].
  apply (wp_emits no_domain_error).
  { autounfold with bot. emits_tac ltac:(first [reflexivity | exact I]). }
  intros r2 w2 l2 Hl2. apply Forall_app. split; assumption.
Qed.

Lemma feed_update_no_domain_error (upd : Update) (w : World) :
  confirm_ready w ->
  Forall no_domain_error (calls (feed_update ALLOWED_ADMINS env upd w)).
Proof.
  intros Hw.
  assert (Hq : forall c : M unit,
            respects any_change no_domain_error c ->
            Forall no_domain_error (calls (c w))).
  { intros c Hc. apply Hc. }
  destruct upd as [m|cb|ev].
  - apply (dispatch_message_cases ALLOWED_ADMINS env m w
             (fun run => Forall no_domain_error (calls run))).
    + intros _. apply Hq. quiet_respects.
    + intros _ _. apply Hq. quiet_respects.
    + intros u st _ _ _ _ _. apply Hq. destruct st; quiet_respects.
    + intros _ _ _. apply Hq. quiet_respects.
    + intros _ _ _. apply Hq. quiet_respects.
    + intros _. apply Hq. quiet_respects.
    + intros _. apply Hq. quiet_respects.
    + intros _. apply Hq. quiet_respects.
    + constructor.
  - change (feed_update ALLOWED_ADMINS env (callback_query_update cb) w)
      with (dispatch_callback env cb w).
    unfold dispatch_callback, bind, get. cbn [result final_world calls app].
    destruct (state (session_of w _)) as [[]|] eqn:Hst; try constructor.
    destruct (is_data cb "edit_first"); [apply Hq; quiet_respects|].
    destruct (is_data cb "edit_last"); [apply Hq; quiet_respects|].
    destruct (is_data cb "edit_cls"); [apply Hq; quiet_respects|].
    destruct (is_data cb "edit_email"); [apply Hq; quiet_respects|].
    destruct (is_data cb "confirm"); [|constructor].
    apply confirm_no_domain_error. now apply Hw.
  - cbn [feed_update]. apply Hq.
    destruct (new_chat_member_status ev); quiet_respects.
Qed.

End DomainError.

(** * The claims *)

Section Claims.
Context {U : UnicodeData}.
Variable ALLOWED_ADMINS : gset Z.
Variable env : Env.

(** C7. In the e-mail step, an input that fails validation is answered with
    the format reminder and nothing else happens: the state of the program
    is untouched, so the session stays in the e-mail state with the values
    collected so far, and the handler ends normally unless the platform
    refuses the reply. *)
Theorem reg_email_invalid_reprompts (message : Message) (ctx : Z * Z) (w : World) :
  state (session_of w ctx) = Some Reg.email ->
  is_valid_fizmat_email (lower (strip (py_or_empty (text message)))) = false ->
  let run := reg_email env message ctx w in
  let reply := send_message (chat_id (chat message)) bad_email_format in
  calls run = [reply] /\
  final_world run = w /\
  state (session_of (final_world run) ctx) = Some Reg.email /\
  data (session_of (final_world run) ctx) = data (session_of w ctx) /\
  result run = match api_error env reply with
               | None => Ok tt
               | Some e => Raise (TelegramAPIError e)
               end.
Proof.
  intros Hst Hbad. unfold reg_email. rewrite Hbad. cbn.
  repeat split; assumption.
Qed.

(** C1 (what the code does). With the unique index in place, confirming a
    form whose e-mail another profile holds raises [IntegrityError] out of
    [confirm]: the store and the session are untouched, and no reply is
    sent. *)
Theorem confirm_duplicate_email_escapes (cb : CallbackQuery) (ctx : Z * Z) (w : World) :
  let mail := lower (strip (data_get (data (session_of w ctx)) "email")) in
  is_valid_fizmat_email mail = true ->
  idx_profiles_email_unique w = true ->
  (exists other p, other <> user_id (cb_from_user cb) /\
     profiles w !! other = Some p /\ email p = Some mail) ->
  confirm env cb ctx w
  = {| result := Raise IntegrityError; final_world := w; calls := [] |}.
Proof.
  intros mail Hvalid Hidx Htaken. apply email_taken_spec in Htaken.
  change (wp (confirm env cb ctx)
            (fun r w' l => Build_Run r w' l = Build_Run (Raise IntegrityError) w []) w).
  unfold confirm, get_data, save_profile. wp_run.
  cbn [py_or_empty]. fold mail. rewrite Hvalid. cbn [negb].
  wp_run. rewrite Hidx, Htaken. cbn [andb]. wp_run. reflexivity.
Qed.

(** C2 (amended). A confirmation that stores the profile consumes exactly
    one pending entry of the user, one whose [created_at] no other entry of
    the user exceeds; every other entry stays as it was. The only request
    about permissions is the unlock of the consumed entry's chat, made when
    its identifier is not 0. From then on the user is registered: the group
    guard and the join handler do nothing when they see the user, and each
    [/start] of the user consumes the then newest entry. *)
Theorem confirm_releases_newest_only (cb : CallbackQuery) (ctx : Z * Z) (w : World) :
  let uid := user_id (cb_from_user cb) in
  let mail := lower (strip (data_get (data (session_of w ctx)) "email")) in
  is_valid_fizmat_email mail = true ->
  idx_profiles_email_unique w && email_taken (profiles w) uid mail = false ->
  let run := confirm env cb ctx w in
  let w' := final_world run in
  match latest_pending uid (pending w) with
  | None =>
      (forall c, pending w !! (uid, c) = None) /\
      pending w' = pending w /\
      Forall (fun x => is_restrict x = false) (calls run)
  | Some c =>
      (exists t, pending w !! (uid, c) = Some t /\
         forall c' t', pending w !! (uid, c') = Some t' -> str_leb t' t = true) /\
      pending w' !! (uid, c) = None /\
      (forall k, k <> (uid, c) -> pending w' !! k = pending w !! k) /\
      (forall chat user p, In (restrict_chat_member chat user p) (calls run) ->
         chat = c /\ user = uid /\ p = open_perms) /\
      (c <> 0%Z -> exists rest,
         calls run = restrict_chat_member c uid open_perms :: rest)
  end /\
  (forall env' m, from_user m = Some (cb_from_user cb) ->
     guard_group_messages env' m w'
     = {| result := Ok tt; final_world := w'; calls := [] |}) /\
  (forall env' ev, new_chat_member_user ev = cb_from_user cb ->
     on_user_join env' ev w'
     = {| result := Ok tt; final_world := w'; calls := [] |}) /\
  (forall env' m ctx', from_user m = Some (cb_from_user cb) ->
     pending (final_world (start env' m ctx' w')) = consumed uid (pending w')).
Proof.
  intros uid mail Hvalid Hfree run w'.
  pose proof (confirm_saved env cb ctx w Hvalid Hfree) as H.
  unfold wp in H. cbv beta in H. fold run in H. fold uid in H.
  destruct H as [Hw Hcalls]. fold w' in Hw.
  assert (Hpend : pending w' = consumed uid (pending w)) by (rewrite Hw; reflexivity).
  assert (Hreg : profiles w' !! uid
                 = Some (form_profile env (data (session_of w ctx)))).
  { rewrite Hw. cbn [profiles set_pending set_storage set_profiles].
    apply lookup_insert_eq. }
  split; [|split; [|split]].
  - destruct (latest_pending uid (pending w)) as [c|] eqn:Hlatest.
    + destruct (consumed_lookup _ _ _ Hlatest) as [Hgone Hkept].
      split; [now apply latest_pending_Some|].
      rewrite Hpend. split; [exact Hgone|]. split; [exact Hkept|].
      cbn [truthy] in Hcalls. destruct (c =? 0)%Z eqn:Hc.
      * split.
        -- intros chat user p Hin. rewrite List.Forall_forall in Hcalls.
           apply Hcalls in Hin. discriminate Hin.
        -- intros Hne. apply Z.eqb_eq in Hc. contradiction.
      * destruct Hcalls as (rest & Hl & Hrest). split; [|eauto].
        intros chat user p Hin. rewrite Hl in Hin. destruct Hin as [Heq | Hin].
        -- injection Heq as <- <- <-. auto.
        -- rewrite List.Forall_forall in Hrest. apply Hrest in Hin. discriminate Hin.
    + split; [now apply latest_pending_None|]. split.
      * rewrite Hpend. unfold consumed. now rewrite Hlatest.
      * exact Hcalls.
  - intros env' m Hm. eapply guard_registered; [exact Hm | exact Hreg].
  - intros env' ev Hev. eapply join_registered. rewrite Hev. exact Hreg.
  - intros env' m ctx' Hm.
    pose proof (start_registered env' m ctx' w' _ _ Hm Hreg) as H.
    unfold wp in H. cbv beta in H. destruct H as [-> _]. reflexivity.
Qed.

(** C10. A successful [save_profile] stores the three names stripped and
    the e-mail stripped and lowercased, under the user's key and nowhere
    else. The stored e-mail is its own lowercase, so a store whose e-mails
    all are stays such a store, and in it two e-mails with the same
    lowercase are the same e-mail. *)
Theorem save_profile_stores_normalized (user : Z)
    (first last cls mail : option str) (w : World) :
  let run := save_profile env user first last cls mail w in
  let w' := final_world run in
  let stored := lower (strip (py_or_empty mail)) in
  result run = Ok tt ->
  profiles w' !! user =
    Some {| first_name := strip (py_or_empty first);
            last_name := strip (py_or_empty last);
            school_cls := strip (py_or_empty cls);
            email := Some stored;
            created_at := utcnow_isoformat env |} /\
  (forall k, k <> user -> profiles w' !! k = profiles w !! k) /\
  lower stored = stored /\
  (emails_lowercase w -> emails_lowercase w') /\
  (emails_lowercase w ->
   forall k1 k2 p1 p2 m1 m2,
     profiles w' !! k1 = Some p1 -> profiles w' !! k2 = Some p2 ->
     email p1 = Some m1 -> email p2 = Some m2 ->
     lower m1 = lower m2 -> m1 = m2).
Proof.
  intros run w' stored. subst run w'. rewrite save_profile_spec. fold stored.
  destruct (is_valid_fizmat_email stored) eqn:Hvalid; cbn [negb]; [|discriminate].
  destruct (idx_profiles_email_unique w && email_taken (profiles w) user stored);
    [discriminate|].
  intros _. cbn [final_world profiles set_profiles].
  assert (Hlow : lower stored = stored) by now apply stored_email_lower.
  assert (Hinv : emails_lowercase w ->
            forall k p m,
              <[user := {| first_name := strip (py_or_empty first);
                              last_name := strip (py_or_empty last);
                              school_cls := strip (py_or_empty cls);
                              email := Some stored;
                              created_at := utcnow_isoformat env |}]> (profiles w) !! k
              = Some p ->
              email p = Some m -> lower m = m).
  { intros Hw k p m Hk Hm. rewrite lookup_insert in Hk.
    destruct (decide (user = k)).
    - injection Hk as <-. cbn in Hm. injection Hm as <-. exact Hlow.
    - eapply Hw; eassumption. }
  split; [apply lookup_insert_eq|]. split.
  { intros k Hk. now apply lookup_insert_ne. }
  split; [exact Hlow|]. split; [exact Hinv|].
  intros Hw k1 k2 p1 p2 m1 m2 H1 H2 E1 E2 Heq.
  rewrite <- (Hinv Hw _ _ _ H1 E1), <- (Hinv Hw _ _ _ H2 E2). exact Heq.
Qed.

(** C8 (amended). In the confirm state each of the four edit buttons leaves
    the collected values as they are and, once the platform has accepted
    its reply, re-enters the state of its field. From there the form goes
    on as at first: a first name leads to the last-name step, a last name to
    the class step, a class to the e-mail step, each storing its own field
    and no other; only a valid e-mail leads back to the confirm state. So
    after the e-mail button one valid input restores the confirm state with
    the other three values unchanged. *)
Theorem edit_reenters_field_then_form_goes_on (cb : CallbackQuery)
    (message : Message) (ctx : Z * Z) (w : World) :
  let chat_of_cb := chat_id (chat (cb_message cb)) in
  let input := strip (py_or_empty (text message)) in
  let after handler := session_of (final_world (handler w)) ctx in
  (* the buttons *)
  (data (after (edit_first env cb ctx)) = data (session_of w ctx) /\
   data (after (edit_last env cb ctx)) = data (session_of w ctx) /\
   data (after (edit_cls env cb ctx)) = data (session_of w ctx) /\
   data (after (edit_email env cb ctx)) = data (session_of w ctx)) /\
  (api_error env (send_message chat_of_cb reenter_first_name) = None ->
   state (after (edit_first env cb ctx)) = Some Reg.first_name) /\
  (api_error env (send_message chat_of_cb reenter_last_name) = None ->
   state (after (edit_last env cb ctx)) = Some Reg.last_name) /\
  (api_error env (send_message chat_of_cb reenter_school_cls) = None ->
   state (after (edit_cls env cb ctx)) = Some Reg.school_cls) /\
  (api_error env (send_message chat_of_cb reenter_email) = None ->
   state (after (edit_email env cb ctx)) = Some Reg.email) /\
  (* the steps of the form *)
  after (reg_first_name env message ctx)
    = {| state := Some Reg.last_name;
         data := <["first_name"%string := input]> (data (session_of w ctx)) |} /\
  after (reg_last_name env message ctx)
    = {| state := Some Reg.school_cls;
         data := <["last_name"%string := input]> (data (session_of w ctx)) |} /\
  after (reg_class env message ctx)
    = {| state := Some Reg.email;
         data := <["school_cls"%string := input]> (data (session_of w ctx)) |} /\
  (is_valid_fizmat_email (lower input) = true ->
   after (reg_email env message ctx)
     = {| state := Some Reg.confirm;
          data := <["email"%string := lower input]> (data (session_of w ctx)) |}) /\
  (* the e-mail button, then a valid e-mail *)
  (is_valid_fizmat_email (lower input) = true ->
   let s := session_of
              (final_world (reg_email env message ctx
                              (final_world (edit_email env cb ctx w)))) ctx in
   state s = Some Reg.confirm /\
   data s !! "email"%string = Some (lower input) /\
   forall k, k <> "email"%string -> data s !! k = data (session_of w ctx) !! k).
Proof.
  intros chat_of_cb input after. subst after. cbv beta.
  assert (Hedit : forall t st,
            session_of
              (final_world
                 ((answer env (cb_message cb) t ;; set_state ctx st ;;
                   api env (answer_callback_query (cb_id cb)))%py w)) ctx
            = match api_error env (send_message chat_of_cb t) with
              | None => {| state := Some st; data := data (session_of w ctx) |}
              | Some _ => session_of w ctx
              end).
  { intros t st. rewrite edit_handler_world. fold chat_of_cb.
    destruct (api_error env (send_message chat_of_cb t)); [reflexivity|].
    rewrite session_of_with_session. now destruct (decide (ctx = ctx)). }
  assert (Hself : forall s, session_of (with_session ctx s w) ctx = s).
  { intros s. rewrite session_of_with_session.
    now destruct (decide (ctx = ctx)). }
  unfold edit_first, edit_last, edit_cls, edit_email. rewrite !Hedit.
  split.
  { repeat split;
      destruct (api_error env (send_message chat_of_cb _)); reflexivity. }
  split; [intros ->; reflexivity|].
  split; [intros ->; reflexivity|].
  split; [intros ->; reflexivity|].
  split; [intros ->; reflexivity|].
  split; [rewrite reg_first_name_world; apply Hself|].
  split; [rewrite reg_last_name_world; apply Hself|].
  split; [rewrite reg_class_world; apply Hself|].
  split.
  { intros Hvalid. rewrite reg_email_world by exact Hvalid. apply Hself. }
  intros Hvalid. cbv zeta. rewrite reg_email_world by exact Hvalid.
  rewrite session_of_with_session.
  destruct (decide (ctx = ctx)); [|contradiction]. cbn [state data].
  split; [reflexivity|]. split; [apply lookup_insert_eq|].
  intros k Hk. rewrite lookup_insert_ne by congruence.
  rewrite edit_handler_world.
  destruct (api_error env (send_message _ reenter_email)); [reflexivity|].
  rewrite session_of_with_session. now destruct (decide (ctx = ctx)).
Qed.

(** C5 (amended). With a non-empty allow-list, [/who] and [/remove] from a
    caller outside it only reply that the command is for administrators,
    and the program state stays as it was. With an empty allow-list both
    serve every caller: [/remove] deletes the profile it is given. [/who]
    never changes the state. [/export] does not consult the allow-list: in
    a private chat it writes and sends the export for any caller; it never
    changes the state either. *)
Theorem admin_commands_gate (message : Message) (w : World) (u : User) :
  from_user message = Some u ->
  let here := chat_id (chat message) in
  (ALLOWED_ADMINS <> ∅ -> user_id u ∉ ALLOWED_ADMINS ->
   final_world (who_cmd_private ALLOWED_ADMINS env message w) = w /\
   calls (who_cmd_private ALLOWED_ADMINS env message w)
     = [send_message here who_admins_only] /\
   final_world (remove_cmd ALLOWED_ADMINS env message w) = w /\
   calls (remove_cmd ALLOWED_ADMINS env message w)
     = [send_message here remove_admins_only]) /\
  (ALLOWED_ADMINS = ∅ ->
   forall a target,
     digits_argument message = Some a -> py_int a = Some target ->
     sqlite_integer target = true ->
     profiles (final_world (remove_cmd ALLOWED_ADMINS env message w))
       = delete target (profiles w) /\
     calls (who_cmd_private ALLOWED_ADMINS env message w)
       = [send_message here
            match profiles w !! target with
            | Some p => who_profile target p
            | None => who_not_found
            end]) /\
  final_world (who_cmd_private ALLOWED_ADMINS env message w) = w /\
  final_world (export_csv env message w) = w /\
  (chat_type (chat message) = PRIVATE ->
   exists rest,
     calls (export_csv env message w)
       = write_file {| csv_timestamp := utcnow_timestamp env;
                       csv_rows := order_by_created_at (profiles w) |} :: rest).
Proof.
  intros Hu here. split; [|split; [|split; [|split]]].
  - intros Hne Hout.
    assert (Hwho : wp (who_cmd_private ALLOWED_ADMINS env message)
              (fun _ w' l => w' = w /\ l = [send_message here who_admins_only]) w).
    { unfold who_cmd_private, not_allowed, from_user_id. rewrite Hu.
      rewrite bool_decide_eq_false_2 by exact Hne. wp_run.
      rewrite bool_decide_eq_false_2 by exact Hout. cbn [negb]. wp_run.
      wp_call; split; reflexivity. }
    assert (Hrem : wp (remove_cmd ALLOWED_ADMINS env message)
              (fun _ w' l => w' = w /\ l = [send_message here remove_admins_only]) w).
    { unfold remove_cmd, not_allowed, from_user_id. rewrite Hu.
      rewrite bool_decide_eq_false_2 by exact Hne. wp_run.
      rewrite bool_decide_eq_false_2 by exact Hout. cbn [negb]. wp_run.
      wp_call; split; reflexivity. }
    unfold wp in Hwho, Hrem. tauto.
  - intros Hempty a target Harg Hint Hrange. split.
    + change (wp (remove_cmd ALLOWED_ADMINS env message)
                (fun _ w' _ => profiles w' = delete target (profiles w)) w).
      unfold remove_cmd, not_allowed.
      rewrite bool_decide_eq_true_2 by exact Hempty. wp_run.
      rewrite Harg. unfold int_of, bind_integer, delete_profile.
      rewrite Hint. wp_run. rewrite Hrange. wp_run. wp_call; reflexivity.
    + change (wp (who_cmd_private ALLOWED_ADMINS env message)
                (fun _ _ l =>
                   l = [send_message here
                          match profiles w !! target with
                          | Some p => who_profile target p
                          | None => who_not_found
                          end]) w).
      unfold who_cmd_private, not_allowed.
      rewrite bool_decide_eq_true_2 by exact Hempty. wp_run.
      rewrite Harg. unfold int_of, bind_integer, get_profile_row.
      rewrite Hint. wp_run. rewrite Hrange. wp_run.
      destruct (profiles w !! target); wp_run; wp_call; reflexivity.
  - assert (Hq : quiet (who_cmd_private ALLOWED_ADMINS env message)).
    { unfold who_cmd_private, not_allowed, from_user_id, int_of, bind_integer,
        get_profile_row, answer. quiet_tac. }
    apply Hq.
  - assert (Hq : quiet (export_csv env message)).
    { unfold export_csv, from_user_id. quiet_tac; apply quiet_is_admin || apply quiet_ephemeral. }
    apply Hq.
  - intros Hprivate.
    change (wp (export_csv env message)
              (fun _ _ l => exists rest,
                 l = write_file {| csv_timestamp := utcnow_timestamp env;
                                   csv_rows := order_by_created_at (profiles w) |}
                     :: rest) w).
    unfold export_csv. rewrite Hprivate. wp_run.
    wp_call; [destruct (forbidden_or_bad (TelegramAPIError e)); wp_run|];
      eexists; reflexivity.
Qed.

(** Side conditions of the steps of the form in the proof below. *)
Ltac form_side Hst Hcmd Hself :=
  first
    [ reflexivity | discriminate | exact Hst
    | apply Hcmd; cbn; tauto
    | cbn [chat private_message private_chat chat_id user_id];
      rewrite Hself; reflexivity ].

(** C6 (amended). A user in the first step of the form types "Ivan",
    "Petrov", "10B" and "ivan.petrov@fizmat.kz" and presses the confirm
    button. If no other profile holds that e-mail (or the index is missing),
    the profile is stored with those four values and the time of the
    confirmation, and the session is cleared. Of the user's pending chats
    only one is released, a newest one: its entry is consumed and, the
    platform accepting the request, it goes from muted to unmuted (if its
    identifier is not 0); every other entry and every other mute stays. *)
Theorem registration_example (env' : Env) (user : Z) (w : World) :
  let mail := str_of "ivan.petrov@fizmat.kz" in
  state (session_of w (user, user)) = Some Reg.first_name ->
  idx_profiles_email_unique w && email_taken (profiles w) user mail = false ->
  (forall c, api_error env' c = None) ->
  let w4 := type_texts ALLOWED_ADMINS env user
              ["Ivan"; "Petrov"; "10B"; "ivan.petrov@fizmat.kz"]%string w in
  let run := feed_update ALLOWED_ADMINS env'
               (callback_query_update (button user "confirm")) w4 in
  let w5 := final_world run in
  state (session_of w4 (user, user)) = Some Reg.confirm /\
  profiles w5 !! user =
    Some {| first_name := str_of "Ivan"; last_name := str_of "Petrov";
            school_cls := str_of "10B"; email := Some mail;
            created_at := utcnow_isoformat env' |} /\
  state (session_of w5 (user, user)) = None /\
  match latest_pending user (pending w) with
  | None =>
      pending w5 = pending w /\
      forall muted, muted_after env' (calls run) muted = muted
  | Some c =>
      pending w5 !! (user, c) = None /\
      (forall k, k <> (user, c) -> pending w5 !! k = pending w !! k) /\
      forall muted,
        muted_after env' (calls run) muted =
        if decide (c = 0%Z) then muted else muted ∖ {[(c, user)]}
  end.
Proof.
  intros mail Hst Hfree Hok w4 run w5.
  set (d0 := data (session_of w (user, user))).
  set (d4 := <["email"%string := mail]>
               (<["school_cls"%string := str_of "10B"]>
                  (<["last_name"%string := str_of "Petrov"]>
                     (<["first_name"%string := str_of "Ivan"]> d0)))).
  assert (Hself : forall s w0, session_of (with_session (user, user) s w0) (user, user) = s).
  { intros s w0. rewrite session_of_with_session.
    now destruct (decide ((user, user) = (user, user))). }
  assert (Hcmd : forall t w0,
            In t ["Ivan"; "Petrov"; "10B"; "ivan.petrov@fizmat.kz"]%string ->
            is_command w0 (private_message user t) "start" = false).
  { intros t w0 Ht. cbn [In] in Ht.
    repeat (destruct Ht as [<- | Ht]; [vm_compute; reflexivity|]).
    contradiction. }
  assert (Hvalid : is_valid_fizmat_email mail = true) by (vm_compute; reflexivity).
  assert (Hw4 : w4 = with_session (user, user) {| state := Some Reg.confirm; data := d4 |} w).
  { subst w4. unfold type_texts. cbn [fold_left].

    rewrite (feed_field_text ALLOWED_ADMINS env (private_message user "Ivan") w
               {| user_id := user; is_bot := false |} Reg.first_name)
      by form_side Hst Hcmd Hself.
    cbn [field_handler]. rewrite reg_first_name_world.
    cbn [chat private_message private_chat chat_id user_id]. fold d0.
    replace (strip (py_or_empty (text (private_message user "Ivan"))))
      with (str_of "Ivan") by (vm_compute; reflexivity).
    rewrite (feed_field_text ALLOWED_ADMINS env (private_message user "Petrov") _
               {| user_id := user; is_bot := false |} Reg.last_name)
      by form_side Hst Hcmd Hself.
    cbn [field_handler]. rewrite reg_last_name_world.
    cbn [chat private_message private_chat chat_id user_id]. idtac.
    rewrite Hself, with_session_twice. cbn [data].
    replace (strip (py_or_empty (text (private_message user "Petrov"))))
      with (str_of "Petrov") by (vm_compute; reflexivity).
    rewrite (feed_field_text ALLOWED_ADMINS env (private_message user "10B") _
               {| user_id := user; is_bot := false |} Reg.school_cls)
      by form_side Hst Hcmd Hself.
    cbn [field_handler]. rewrite reg_class_world.
    cbn [chat private_message private_chat chat_id user_id]. idtac.
    rewrite Hself, with_session_twice. cbn [data].
    replace (strip (py_or_empty (text (private_message user "10B"))))
      with (str_of "10B") by (vm_compute; reflexivity).
    rewrite (feed_field_text ALLOWED_ADMINS env
               (private_message user "ivan.petrov@fizmat.kz") _
               {| user_id := user; is_bot := false |} Reg.email)
      by form_side Hst Hcmd Hself.
    cbn [field_handler].
    assert (Hin : lower (strip (py_or_empty
                     (text (private_message user "ivan.petrov@fizmat.kz")))) = mail)
      by (vm_compute; reflexivity).
    rewrite reg_email_world by (rewrite Hin; exact Hvalid).
    cbn [chat private_message private_chat chat_id user_id]. idtac.
    rewrite Hin, Hself, with_session_twice. reflexivity. }
  clearbody w4.
  assert (Hs4 : session_of w4 (user, user) = {| state := Some Reg.confirm; data := d4 |}).
  { rewrite Hw4. apply Hself. }
  assert (Hget : data_get d4 "first_name" = str_of "Ivan" /\
                 data_get d4 "last_name" = str_of "Petrov" /\
                 data_get d4 "school_cls" = str_of "10B" /\
                 data_get d4 "email" = mail).
  { subst d4. rewrite !data_get_insert. repeat split; reflexivity. }
  destruct Hget as (Hfirst & Hlast & Hcls & Hmail).
  assert (Hnorm : lower (strip mail) = mail) by (vm_compute; reflexivity).
  assert (Hvalid4 : is_valid_fizmat_email
                      (lower (strip (data_get (data (session_of w4 (user, user))) "email")))
                    = true).
  { rewrite Hs4. cbn [data]. rewrite Hmail, Hnorm. exact Hvalid. }
  assert (Hfree4 : idx_profiles_email_unique w4
                   && email_taken (profiles w4)
                        (user_id (cb_from_user (button user "confirm")))
                        (lower (strip (data_get (data (session_of w4 (user, user))) "email")))
                   = false).
  { rewrite Hs4. cbn [data]. rewrite Hmail, Hnorm, Hw4. exact Hfree. }
  pose proof (confirm_saved env' (button user "confirm") (user, user) w4 Hvalid4 Hfree4) as H.
  unfold wp in H. cbv beta in H.
  rewrite <- (feed_confirm_button ALLOWED_ADMINS env' user w4) in H
    by (rewrite Hs4; reflexivity).
  fold run in H. fold w5 in H. cbn [user_id cb_from_user button] in H.
  clearbody w5. clearbody run.
  destruct H as [Hw5 Hcalls].
  assert (Hpend4 : pending w4 = pending w) by (rewrite Hw4; reflexivity).
  rewrite Hpend4 in Hcalls.
  split; [rewrite Hs4; reflexivity|]. split; [|split].
  - rewrite Hw5. cbn [profiles set_pending set_storage set_profiles].
    rewrite lookup_insert_eq. f_equal. unfold form_profile.
    rewrite Hs4. cbn [data]. rewrite Hfirst, Hlast, Hcls, Hmail, Hnorm.
    f_equal; vm_compute; reflexivity.
  - rewrite Hw5. unfold session_of. cbn [storage set_pending set_storage].
    rewrite lookup_insert_eq. reflexivity.
  - assert (Hp5 : pending w5 = consumed user (pending w)).
    { rewrite Hw5. cbn [pending set_pending set_storage set_profiles].
      rewrite Hpend4. reflexivity. }
    destruct (latest_pending user (pending w)) as [c|] eqn:Hlatest.
    + destruct (consumed_lookup _ _ _ Hlatest) as [Hgone Hkept].
      rewrite Hp5. split; [exact Hgone|]. split; [exact Hkept|].
      intros muted. cbn [truthy] in Hcalls.
      destruct (decide (c = 0%Z)) as [-> | Hc].
      * cbn [Z.eqb] in Hcalls. apply muted_after_other. exact Hcalls.
      * rewrite (proj2 (Z.eqb_neq c 0) Hc) in Hcalls.
        destruct Hcalls as (rest & -> & Hrest).
        unfold muted_after. cbn [fold_left].
        fold (muted_after env' rest
                (platform_step env' muted (restrict_chat_member c user open_perms))).
        rewrite muted_after_other by exact Hrest.
        unfold platform_step. rewrite Hok. reflexivity.
    + rewrite Hp5. unfold consumed. rewrite Hlatest. split; [reflexivity|].
      intros muted. cbn [truthy] in Hcalls. apply muted_after_other. exact Hcalls.
Qed.

(** C3 (what the code does). Whatever the Unicode database, the validation
    accepts [a@fızmat.kz], whose domain has U+0131 (dotless i) where
    [fizmat.kz] has [i], and [ſ@fizmat.kz], whose local part is U+017F
    (long s); the rule of the specification rejects both. On ASCII strings
    the two agree ([is_valid_fizmat_email_ascii]). *)
Theorem is_valid_fizmat_email_accepts_dotless_i :
  let other_domain := (str_of "a@f" ++ [0x131] ++ str_of "zmat.kz")%N in
  let long_s := (0x17F :: str_of "@fizmat.kz")%N in
  is_valid_fizmat_email other_domain = true /\
  spec_accepts other_domain = false /\
  is_valid_fizmat_email long_s = true /\
  spec_accepts long_s = false.
Proof.
  cbv zeta. split; [|split; [|split]]; vm_compute; reflexivity.
Qed.

End Claims.
(** * Further properties *)

Section Extras.
Context {U : UnicodeData}.
Variable ALLOWED_ADMINS : gset Z.
Variable env : Env.

(** ** Configuration *)

(** X1. [ALLOWED_ADMINS] read from a comma-separated list of numerals is
    the set of the numbers they denote: splitting at the commas undoes the
    joining, every item passes [isdigit] and [int] reads its value. *)
Theorem allowed_admins_of_numerals (items : list str) :
  items <> [] ->
  Forall numeral items ->
  ALLOWED_ADMINS_from (Some (join_comma items))
  = Some (list_to_set (map digits_value items)).
Proof.
  intros Hne Hall. unfold ALLOWED_ADMINS_from, ALLOWED_ADMINS_RAW.
  cbn [py_or_empty].
  pose proof (join_comma_trimmed items Hne Hall) as Ht.
  rewrite (strip_trimmed _ Ht).
  destruct Ht as [(x & m & Hj & _) _]. rewrite Hj at 1. rewrite <- Hj.
  rewrite (split_join_comma items Hne Hall). now apply int_set_numerals.
Qed.

(** X2. Whatever the environment holds, [ALLOWED_ADMINS] has no negative
    member: an item with a sign does not pass [x.strip().isdigit()] and is
    dropped, and what passes is read by [int] as a number that is not
    negative. *)
Theorem allowed_admins_not_negative (getenv : option str) (admins : gset Z) :
  ALLOWED_ADMINS_from getenv = Some admins ->
  forall n, n ∈ admins -> (0 <= n)%Z.
Proof.
  unfold ALLOWED_ADMINS_from. intros H n Hn.
  destruct (ALLOWED_ADMINS_RAW getenv) as [|c raw].
  - injection H as <-. now apply not_elem_of_empty in Hn.
  - eapply int_set_nonneg; eassumption.
Qed.

(** X3. Items that are not made of digits are dropped without an error.
    When no item of the list is made of digits, [ALLOWED_ADMINS] is empty,
    and with the empty set [/who] and [/remove] refuse nobody. *)
Theorem allowed_admins_without_numbers (getenv : option str) :
  (forall x, In x (split_sep 44 (ALLOWED_ADMINS_RAW getenv)) ->
     isdigit (strip x) = false) ->
  ALLOWED_ADMINS_from getenv = Some ∅ /\
  forall admins, ALLOWED_ADMINS_from getenv = Some admins ->
    forall message w,
      not_allowed admins message w
      = {| result := Ok false; final_world := w; calls := [] |}.
Proof.
  intros Hnone.
  assert (H : ALLOWED_ADMINS_from getenv = Some ∅).
  { unfold ALLOWED_ADMINS_from. destruct (ALLOWED_ADMINS_RAW getenv) eqn:Hraw;
      [reflexivity|]. now apply int_set_no_digits. }
  split; [exact H|]. intros admins Ha message w. rewrite H in Ha.
  injection Ha as <-. unfold not_allowed.
  now rewrite bool_decide_eq_true_2.
Qed.

(** ** Validation *)

(** X4. The validation and the normalization of the handlers fit together.
    Whatever the validation accepts, its stripped and lowercased form is
    unchanged by stripping and by lowercasing again and is accepted again:
    what [reg_email] stores passes the check [save_profile] repeats, and is
    stored as it is. On ASCII strings the validation accepts exactly the
    strings that, once trimmed, are one or more letters, digits or
    [._%+-], then [@], then [fizmat.kz] in any letter case. *)
Theorem validation_and_normalization (s : str) :
  let e := lower (strip s) in
  (is_valid_fizmat_email s = true ->
   strip e = e /\ lower e = e /\ is_valid_fizmat_email e = true) /\
  (forallb is_ascii s = true -> is_valid_fizmat_email s = spec_accepts s) /\
  (forallb is_ascii s = true -> e = map ascii_tolower (strip s)).
Proof.
  intros e. split; [|split].
  - intros Hv. now apply valid_normalized.
  - apply is_valid_fizmat_email_ascii.
  - intros Ha. subst e. apply lower_ascii. now apply strip_ascii.
Qed.

(** ** The database layer *)

(** X5. [ensure_schema_upgrade] never fails, makes no request and touches
    nothing but the index. Afterwards the index exists exactly when it
    existed before or no two profiles share an e-mail: with duplicates the
    failed creation is swallowed and the database stays without the index.
    A second run changes nothing. *)
Theorem ensure_schema_upgrade_index (w : World) :
  let run := ensure_schema_upgrade w in
  let w' := final_world run in
  result run = Ok tt /\ calls run = [] /\
  w' = set_idx (idx_profiles_email_unique w') w /\
  (idx_profiles_email_unique w' = true <->
   idx_profiles_email_unique w = true \/ unique_emails (profiles w)) /\
  ensure_schema_upgrade w' = {| result := Ok tt; final_world := w'; calls := [] |}.
Proof.
  assert (Heq : forall w0, ensure_schema_upgrade w0
            = {| result := Ok tt;
                 final_world :=
                   set_idx (idx_profiles_email_unique w0
                            || negb (has_duplicate_email (profiles w0))) w0;
                 calls := [] |}).
  { intros w0. unfold ensure_schema_upgrade, bind, get, ret, modify. cbn.
    destruct w0 as [ps idx pe st nd la bu]. cbn.
    destruct idx; [reflexivity|]. destruct (has_duplicate_email ps); reflexivity. }
  cbv zeta. rewrite !Heq. cbn [result final_world calls].
  set (b := idx_profiles_email_unique w || negb (has_duplicate_email (profiles w))).
  cbn [idx_profiles_email_unique profiles set_idx].
  split; [reflexivity|]. split; [reflexivity|]. split; [reflexivity|]. split.
  - subst b. rewrite orb_true_iff, negb_true_iff, has_duplicate_email_spec.
    reflexivity.
  - f_equal. unfold set_idx. cbn. f_equal. subst b.
    destruct (idx_profiles_email_unique w); [reflexivity|].
    now destruct (has_duplicate_email (profiles w)).
Qed.

(** X6. Once the unique index holds of the stored profiles, it holds for
    good: start-up keeps it, every update keeps it whatever the handlers
    and the platform do, and the index itself is never dropped. So no run
    of the bot stores two profiles with the same e-mail. *)
Theorem unique_index_invariant (steps : list (Env * Update)) (w : World) :
  index_holds w ->
  index_holds (final_world (on_startup env w)) /\
  index_holds (feed_updates ALLOWED_ADMINS steps w) /\
  (idx_profiles_email_unique w = true ->
   idx_profiles_email_unique (feed_updates ALLOWED_ADMINS steps w) = true /\
   unique_emails (profiles (feed_updates ALLOWED_ADMINS steps w))).
Proof.
  intros Hw.
  assert (Hsteps : db_kept w (feed_updates ALLOWED_ADMINS steps w)).
  { clear Hw. revert w. unfold feed_updates.
    induction steps as [|[e upd] steps IH]; intros w; [apply db_kept_refl|].
    cbn [fold_left fst snd]. eapply db_kept_trans; [|apply IH].
    apply (feed_update_db_kept ALLOWED_ADMINS e upd w). }
  split; [|split].
  - now apply (on_startup_db_kept env w).
  - now apply Hsteps.
  - intros Hidx. destruct Hsteps as [H1 H2]. split; [auto|].
    apply H2; auto.
Qed.

(** X7. [add_pending] followed by [consume_pending]: when every entry the
    user has for another chat is older than the one just written, the entry
    just written is the one consumed, and the table is left without an
    entry for that chat and otherwise as it was. *)
Theorem add_then_consume_pending (user chat : Z) (w : World) :
  (forall c t, c <> chat -> pending w !! (user, c) = Some t ->
     str_leb (utcnow_isoformat env) t = false) ->
  let run := (add_pending env user chat ;; consume_pending user)%py w in
  result run = Ok (Some chat) /\
  pending (final_world run) = delete (user, chat) (pending w) /\
  profiles (final_world run) = profiles w /\
  calls run = [].
Proof.
  intros Holder.
  set (pend := <[(user, chat) := utcnow_isoformat env]> (pending w)).
  assert (Hlatest : latest_pending user pend = Some chat).
  { destruct (latest_pending user pend) as [c|] eqn:Hl.
    - destruct (latest_pending_Some _ _ _ Hl) as (t & Ht & Hmax).
      destruct (decide (c = chat)) as [->|Hne]; [reflexivity|]. exfalso.
      subst pend. rewrite lookup_insert_ne in Ht by congruence.
      specialize (Hmax chat (utcnow_isoformat env) (lookup_insert_eq _ _ _)).
      rewrite (Holder c t Hne Ht) in Hmax. discriminate.
    - rewrite latest_pending_None in Hl. specialize (Hl chat).
      subst pend. now rewrite lookup_insert_eq in Hl. }
  unfold add_pending, consume_pending, bind, modify, get, ret.
  cbn [result final_world calls app pending set_pending]. fold pend.
  rewrite Hlatest. cbn [result final_world calls app pending set_pending profiles].
  repeat split. subst pend. apply delete_insert_eq.
Qed.

(** ** Group handlers *)

(** X8. A person who is not registered joins a group: the bot first asks
    the platform to mute the member and makes no other request about
    permissions; whatever else it sends goes to the member in private,
    never to the group. Unless the mute failed with an error the handler
    does not catch, the pending entry of the member for the group is
    written with the time of the run, and nothing else of the state
    changes; if it did, the error leaves the handler before anything is
    recorded. *)
Theorem on_user_join_unregistered (event : ChatMemberUpdated) (w : World) :
  let group := chat_id (event_chat event) in
  let user := user_id (new_chat_member_user event) in
  let mute := restrict_chat_member group user locked_perms in
  is_group (chat_type (event_chat event)) = true ->
  is_bot (new_chat_member_user event) = false ->
  profiles w !! user = None ->
  let run := on_user_join env event w in
  (exists rest, calls run = mute :: rest /\
     Forall (fun c => is_restrict c = false /\
                      forall g t, c = send_message g t -> g = user) rest) /\
  match api_error env mute with
  | Some TelegramNetworkError =>
      run = {| result := Raise (TelegramAPIError TelegramNetworkError);
               final_world := w; calls := [mute] |}
  | _ =>
      final_world run
      = set_pending (insert (user, group) (utcnow_isoformat env)) w
  end.
Proof.
  intros group user mute Hgroup Hbot Hnew run.
  enough (H : wp (on_user_join env event)
            (fun r w' l =>
               (exists rest, l = mute :: rest /\
                  Forall (fun c => is_restrict c = false /\
                                   forall g t, c = send_message g t -> g = user) rest) /\
               match api_error env mute with
               | Some TelegramNetworkError =>
                   Build_Run r w' l
                   = Build_Run (Raise (TelegramAPIError TelegramNetworkError)) w [mute]
               | _ => w' = set_pending (insert (user, group) (utcnow_isoformat env)) w
               end) w) by exact H.
  unfold on_user_join. cbv zeta. rewrite Hgroup, Hbot. cbn [negb].
  unfold is_registered, add_pending, start_link. wp_run.
  fold user group. rewrite Hnew. cbv beta iota. wp_run. fold mute.
  assert (Hdm : forall link,
            is_restrict (send_message user (dm_text link)) = false /\
            forall g t, send_message user (dm_text link) = send_message g t -> g = user).
  { intros link. split; [reflexivity|]. now intros g t [= <- _]. }
  assert (Hlink : is_restrict (create_start_link group) = false /\
            forall g t, create_start_link group = send_message g t -> g = user).
  { split; [reflexivity|]. intros g t H. discriminate H. }
  destruct (api_error env mute) as [[]|]; cbv beta iota; cbn [telegram_errors];
    wp_run;
    try (split; [exists []; split; [reflexivity | constructor] | reflexivity]);
    (wp_call; cbv beta iota; cbn [any_exception]; wp_run;
     wp_call; try destruct (telegram_errors (TelegramAPIError _)); wp_run;
     (split; [eexists; split; [reflexivity|];
               repeat first [apply List.Forall_cons | apply List.Forall_nil
                            | apply Hdm | exact Hlink]
             | reflexivity])).
Qed.

(** A platform answer that contradicts the assumption that a request
    succeeds. *)
Ltac refuted_answer H :=
  match goal with
  | He : api_error _ _ = Some _ |- _ => rewrite H in He; discriminate He
  end.

(** The end of a run of the guard: the statement about the state, the
    requests and the two cases of success. *)
Ltac guard_leaf :=
  split; [reflexivity|]; split; [reflexivity|]; split; [reflexivity|];
  split; [eexists; split; [reflexivity|]; repeat constructor|];
  split;
  [ let Hd := fresh "Hd" in
    intros Hd;
    first [ refuted_answer Hd
          | split; [split; reflexivity|];
            repeat first [ apply List.Forall_cons | apply List.Forall_nil
                         | intros ?; reflexivity ] ]
  | let Hall := fresh "Hall" in
    intros Hall;
    first [ refuted_answer Hall | split; reflexivity ] ].

(** One request of the guard, or its end. *)
Ltac guard_step :=
  lazymatch goal with
  | |- match api_error _ _ with _ => _ end =>
      wp_call_eq;
      [ try match goal with
            | |- context [telegram_errors (TelegramAPIError ?e)] =>
                destruct (telegram_errors (TelegramAPIError e))
            end
      | ];
      cbn [any_exception]; wp_run
  | |- wp (batch_notice _ _ _) _ _ =>
      eapply wp_mono; [apply batch_notice_frame|];
      cbv beta;
      let Hp := fresh "Hp" in
      let Hpr := fresh "Hpr" in
      let Hs := fresh "Hs" in
      let Hl := fresh "Hl" in
      intros ? ? ? (Hp & Hpr & Hs & Hl);
      split; [rewrite Hp; reflexivity|];
      split; [rewrite Hpr; reflexivity|];
      split; [rewrite Hs; reflexivity|];
      split;
      [ eexists; split; [reflexivity|];
        cbn [app]; repeat (apply List.Forall_cons; [reflexivity|]); exact Hl|];
      split;
      [ let Hd := fresh "Hd" in intros Hd; refuted_answer Hd
      | let Hall := fresh "Hall" in intros Hall; refuted_answer Hall ]
  | |- _ => guard_leaf
  end.

(** X9. A person who is not registered writes in a group: the pending entry
    of the sender for the group is written with the time of the run before
    any request is made, so it is there whatever the platform answers; the
    profiles and the sessions are untouched. The first request mutes the
    sender and no other request is about permissions. If the private
    message is delivered, the throttle is untouched and no notice goes to
    any group; if moreover every request succeeds, the requests are the
    mute, the deletion of the message, the deep link and the private
    message with that link, in this order. *)
Theorem guard_unregistered_sender (message : Message) (u : User) (w : World) :
  let group := chat_id (chat message) in
  let user := user_id u in
  let mute := restrict_chat_member group user locked_perms in
  from_user message = Some u ->
  is_bot u = false ->
  profiles w !! user = None ->
  let run := guard_group_messages env message w in
  let w' := final_world run in
  pending w' = <[(user, group) := utcnow_isoformat env]> (pending w) /\
  profiles w' = profiles w /\
  storage w' = storage w /\
  (exists rest, calls run = mute :: rest /\
     Forall (fun c => is_restrict c = false) rest) /\
  ((forall link, api_error env (send_message user (dm_text link)) = None) ->
   same_throttle w w' /\ Forall no_notice (calls run)) /\
  ((forall c, api_error env c = None) ->
   result run = Ok tt /\
   calls run = [mute; delete_message group (message_id message);
                create_start_link group;
                send_message user (dm_text (Some group))]).
Proof.
  intros group user mute Hu Hbot Hnew run w'.
  enough (H : wp (guard_group_messages env message)
            (fun r w' l =>
               pending w' = <[(user, group) := utcnow_isoformat env]> (pending w) /\
               profiles w' = profiles w /\
               storage w' = storage w /\
               (exists rest, l = mute :: rest /\
                  Forall (fun c => is_restrict c = false) rest) /\
               ((forall link, api_error env (send_message user (dm_text link)) = None) ->
                same_throttle w w' /\ Forall no_notice l) /\
               ((forall c, api_error env c = None) ->
                r = Ok tt /\
                l = [mute; delete_message group (message_id message);
                     create_start_link group;
                     send_message user (dm_text (Some group))])) w) by exact H.
  unfold guard_group_messages. rewrite Hu, Hbot. cbv zeta.
  unfold is_registered, add_pending, start_link. wp_run.
  fold user group. rewrite Hnew. cbv beta iota. wp_run. fold mute.
  repeat guard_step.
Qed.

(** One request of a group handler under [only_caught_errors]. *)
Ltac tolerant_step Hc :=
  lazymatch goal with
  | |- match api_error _ _ with _ => _ end =>
      wp_call_eq;
      [ try match goal with
            | He : api_error _ _ = Some ?e |- context [telegram_errors (TelegramAPIError ?e)] =>
                rewrite (Hc _ _ He)
            end
      | ];
      cbn [any_exception]; wp_run
  | |- wp (batch_notice _ _ _) _ _ =>
      unfold batch_notice; wp_run;
      match goal with
      | |- context [if ?b then _ else _] => destruct b
      end; wp_run
  | |- _ = _ => reflexivity
  end.

(** X10. As long as the platform fails only with the three errors the group
    handlers catch, a message in a group and a change of membership never
    raise: every failed request is skipped and the handler goes on. *)
Theorem group_handlers_never_raise (upd : Update) (w : World) :
  only_caught_errors env ->
  group_update upd = true ->
  result (feed_update ALLOWED_ADMINS env upd w) = Ok tt.
Proof.
  intros Hc Hupd. destruct upd as [m|cb|ev]; [| discriminate |].
  - cbn [group_update] in Hupd.
    change (feed_update ALLOWED_ADMINS env (message_update m) w)
      with (dispatch_message ALLOWED_ADMINS env m w).
    unfold dispatch_message, bind, get. cbn [result final_world calls app].
    rewrite Hupd.
    change (wp (guard_group_messages env m) (fun r _ _ => r = Ok tt) w).
    unfold guard_group_messages.
    destruct (from_user m) as [u|]; [|reflexivity].
    destruct (is_bot u); [reflexivity|]. cbv zeta.
    unfold is_registered, add_pending, start_link. wp_run.
    destruct (profiles w !! user_id u); cbv beta iota; wp_run; [reflexivity|].
    repeat tolerant_step Hc.
  - cbn [feed_update].
    destruct (new_chat_member_status ev); try reflexivity.
    change (wp (on_user_join env ev) (fun r _ _ => r = Ok tt) w).
    unfold on_user_join. cbv zeta.
    destruct (negb _); [reflexivity|].
    destruct (is_bot _); [reflexivity|].
    unfold is_registered, add_pending, start_link. wp_run.
    destruct (profiles w !! _); cbv beta iota; wp_run; [reflexivity|].
    repeat tolerant_step Hc.
Qed.

(** X11. A message in a group or supergroup is handled by the group guard
    and by nothing else. So when its sender is registered, is a bot or is
    missing, the message has no effect whatever its text: a command sent in
    a group by a registered member is not executed. *)
Theorem group_message_of_member_ignored (m : Message) (w : World) :
  is_group (chat_type (chat m)) = true ->
  match from_user m with
  | None => True
  | Some u => is_bot u = true \/ is_Some (profiles w !! user_id u)
  end ->
  feed_update ALLOWED_ADMINS env (message_update m) w
  = {| result := Ok tt; final_world := w; calls := [] |}.
Proof.
  intros Hgroup Hu.
  change (feed_update ALLOWED_ADMINS env (message_update m) w)
    with (dispatch_message ALLOWED_ADMINS env m w).
  unfold dispatch_message, bind, get. cbn [result final_world calls app].
  rewrite Hgroup. unfold guard_group_messages.
  destruct (from_user m) as [u|]; [|reflexivity].
  destruct (is_bot u); [reflexivity|].
  destruct Hu as [Hu | [p Hp]]; [discriminate|].
  unfold is_registered, bind, get, ret. cbn. rewrite Hp. reflexivity.
Qed.

(** X12. The throttled group notice. A run posts the notice in a group
    only while handling a message of that group, and only if the throttle
    was due for its sender: the cooldown had passed since the last notice
    there, or the set of the group, the sender included, had reached the
    threshold. Posting it empties the set and stamps the group with the
    time of the run. So if two runs post the notice in the same group and
    no run between them does, the clock readings of the two are at least
    the cooldown apart, or the set had reached the threshold at the
    second. *)
Theorem notice_throttle (w : World) (group : Z) :
  (forall upd,
     let run := feed_update ALLOWED_ADMINS env upd w in
     noticed group run = true ->
     exists user,
       group_sender upd group = Some user /\
       notice_due env w group user /\
       NEED_DM_CACHE (final_world run) !! group = Some ∅ /\
       LAST_NOTICE_AT (final_world run) !! group = Some (time_time env)) /\
  (forall upd1 steps env2 upd2,
     let run1 := feed_update ALLOWED_ADMINS env upd1 w in
     let w2 := feed_updates ALLOWED_ADMINS steps (final_world run1) in
     let run2 := feed_update ALLOWED_ADMINS env2 upd2 w2 in
     noticed group run1 = true ->
     none_noticed ALLOWED_ADMINS group steps (final_world run1) = true ->
     noticed group run2 = true ->
     (NOTICE_COOLDOWN <= time_time env2 - time_time env)%Q \/
     exists user,
       group_sender upd2 group = Some user /\
       BATCH_THRESHOLD
       <= size ({[user]} ∪ default (∅ : gset Z) (NEED_DM_CACHE w2 !! group))).
Proof.
  assert (Hone : forall e upd w0,
            noticed group (feed_update ALLOWED_ADMINS e upd w0) = true ->
            exists user,
              group_sender upd group = Some user /\
              notice_due e w0 group user /\
              NEED_DM_CACHE (final_world (feed_update ALLOWED_ADMINS e upd w0))
                !! group = Some ∅ /\
              LAST_NOTICE_AT (final_world (feed_update ALLOWED_ADMINS e upd w0))
                !! group = Some (time_time e)).
  { intros e upd w0 Hn.
    pose proof (feed_update_throttle ALLOWED_ADMINS e upd w0 group) as H.
    cbv zeta in H. unfold throttle_post in H. unfold noticed in Hn.
    now rewrite Hn in H. }
  assert (Hkeep : forall steps w0,
            none_noticed ALLOWED_ADMINS group steps w0 = true ->
            LAST_NOTICE_AT (feed_updates ALLOWED_ADMINS steps w0) !! group
            = LAST_NOTICE_AT w0 !! group).
  { induction steps as [|[e upd] steps IH]; intros w0 Hnone; [reflexivity|].
    cbn [none_noticed fst snd] in Hnone.
    apply andb_true_iff in Hnone as [Hn Hrest].
    apply negb_true_iff in Hn. unfold feed_updates. cbn [fold_left fst snd].
    fold (feed_updates ALLOWED_ADMINS steps
            (final_world (feed_update ALLOWED_ADMINS e upd w0))).
    rewrite (IH _ Hrest).
    pose proof (feed_update_throttle ALLOWED_ADMINS e upd w0 group) as H.
    cbv zeta in H. unfold throttle_post in H. unfold noticed in Hn.
    now rewrite Hn in H. }
  split; [intros upd; apply Hone|].
  intros upd1 steps env2 upd2 run1 w2 run2 H1 Hnone H2.
  destruct (Hone env upd1 w H1) as (_ & _ & _ & _ & Hlast).
  destruct (Hone env2 upd2 w2 H2) as (user & Hsender & Hdue & _).
  unfold notice_due in Hdue. subst w2.
  rewrite (Hkeep steps _ Hnone) in Hdue. fold run1 in Hlast.
  rewrite Hlast in Hdue. cbn [default] in Hdue.
  destruct Hdue as [Hq | Hsize]; [now left|]. right. eauto.
Qed.

(** ** The form *)

(** X13. A button pressed while the session is not in the confirm state
    reaches no handler: nothing is sent and nothing changes. A confirmation
    that gets past [save_profile] clears the session whatever the platform
    answers to its replies, so from then on every button of that summary is
    dead: pressing confirm again stores nothing, consumes no further
    pending entry and unlocks no further chat. *)
Theorem buttons_after_confirmation_are_dead (cb : CallbackQuery) (w : World) :
  let ctx := (chat_id (chat (cb_message cb)), user_id (cb_from_user cb)) in
  let mail := lower (strip (data_get (data (session_of w ctx)) "email")) in
  (state (session_of w ctx) <> Some Reg.confirm ->
   feed_update ALLOWED_ADMINS env (callback_query_update cb) w
   = {| result := Ok tt; final_world := w; calls := [] |}) /\
  (state (session_of w ctx) = Some Reg.confirm ->
   cb_data cb = Some (str_of "confirm") ->
   is_valid_fizmat_email mail = true ->
   idx_profiles_email_unique w
   && email_taken (profiles w) (user_id (cb_from_user cb)) mail = false ->
   let w1 := final_world
               (feed_update ALLOWED_ADMINS env (callback_query_update cb) w) in
   session_of w1 ctx = no_session /\
   forall env' cb',
     chat_id (chat (cb_message cb')) = chat_id (chat (cb_message cb)) ->
     user_id (cb_from_user cb') = user_id (cb_from_user cb) ->
     feed_update ALLOWED_ADMINS env' (callback_query_update cb') w1
     = {| result := Ok tt; final_world := w1; calls := [] |}).
Proof.
  intros ctx mail. split; [apply feed_button_elsewhere|].
  intros Hst Hdata Hvalid Hfree w1.
  assert (Hs : session_of w1 ctx = no_session).
  { subst w1. rewrite (feed_confirm ALLOWED_ADMINS env cb w Hst Hdata).
    pose proof (confirm_saved env cb ctx w Hvalid Hfree) as H.
    unfold wp in H. cbv beta in H. destruct H as [Hw _].
    unfold ctx in *. rewrite Hw.
    unfold session_of. cbn [storage set_pending set_storage].
    now rewrite lookup_insert_eq. }
  split; [exact Hs|]. intros env' cb' Hchat Huser.
  apply feed_button_elsewhere. rewrite Hchat, Huser. fold ctx. rewrite Hs.
  discriminate.
Qed.


(** X15. [/start] of somebody who is not registered always opens the form:
    the session is put in the first step, the values collected so far stay
    in it, the only request is the question for the first name, and no
    profile changes. The pending table changes in one case only: a deep
    link [/start verify_<digits>] whose digits [int] accepts, with a value
    SQLite can store, writes the pending entry of the sender for that chat,
    whether or not the sender was ever seen there; any other payload is
    dropped without a word. *)
Theorem start_of_unregistered (message : Message) (u : User) (ctx : Z * Z)
    (w : World) :
  from_user message = Some u ->
  profiles w !! user_id u = None ->
  let run := start env message ctx w in
  let w' := final_world run in
  let entry chat := <[(user_id u, chat) := utcnow_isoformat env]> (pending w) in
  calls run = [send_message (chat_id (chat message)) ask_first_name] /\
  session_of w' ctx
  = {| state := Some Reg.first_name; data := data (session_of w ctx) |} /\
  profiles w' = profiles w /\
  (pending w' = pending w \/
   exists chat, sqlite_integer chat = true /\ pending w' = entry chat) /\
  (forall digits,
     text message = Some (str_of "/start verify_" ++ digits) ->
     pending w' = match py_int digits with
                  | Some chat => if sqlite_integer chat then entry chat else pending w
                  | None => pending w
                  end).
Proof.
  intros Hu Hnew run w' entry.
  destruct (start_unregistered_run env message u ctx w Hu Hnew) as [Hw Hcalls].
  fold run in Hw, Hcalls. fold w' in Hw. clearbody run w'.
  split; [exact Hcalls|]. rewrite Hw. split.
  { rewrite session_of_with_session. now destruct (decide (ctx = ctx)). }
  assert (Hpend : forall w1, pending (with_session ctx
                    {| state := Some Reg.first_name;
                       data := data (session_of w ctx) |} w1) = pending w1)
    by reflexivity.
  assert (Hprof : forall w1, profiles (with_session ctx
                    {| state := Some Reg.first_name;
                       data := data (session_of w ctx) |} w1) = profiles w1)
    by reflexivity.
  rewrite Hpend, Hprof. split; [|split].
  - now destruct (deep_link_chat message).
  - unfold deep_link_chat. cbv zeta.
    destruct (startswith _ _); [|now left].
    destruct (snd (partition1 95 _)) as [digits|]; [|now left].
    destruct (py_int digits) as [c|]; [|now left].
    destruct (sqlite_integer c) eqn:Hc; [|now left].
    right. exists c. split; [exact Hc | reflexivity].
  - intros digits Ht. rewrite (deep_link_chat_verify message digits Ht).
    destruct (py_int digits) as [c|]; [|reflexivity].
    now destruct (sqlite_integer c).
Qed.

(** X16. The check of the e-mail that [confirm] repeats never fails. In
    a state where every session in the confirm state holds an e-mail that
    passes the check (a state without sessions is one), every update leads
    to such a state again: the confirm state is entered only by
    [reg_email], with an e-mail it has validated, and no handler changes
    the values of a session that stays in it. So after any sequence of
    updates no update makes the bot send the reply of the
    [except ValueError] branch of [confirm]: the only failure of
    [save_profile] that [confirm] can meet is the one it does not catch. *)
Theorem confirm_recheck_never_fails (steps : list (Env * Update))
    (upd : Update) (w : World) :
  confirm_ready w ->
  let w1 := feed_updates ALLOWED_ADMINS steps w in
  confirm_ready w1 /\
  Forall (fun c => is_domain_error c = false)
    (calls (feed_update ALLOWED_ADMINS env upd w1)).
Proof.
  intros Hw w1.
  assert (H1 : confirm_ready w1).
  { subst w1. revert w Hw. unfold feed_updates.
    induction steps as [|[e u] steps IH]; intros w Hw; [exact Hw|].
    cbn [fold_left fst snd]. apply IH.
    now apply feed_update_confirm_ready. }
  split; [exact H1|].
  now apply (feed_update_no_domain_error ALLOWED_ADMINS env upd w1).
Qed.


(** X18. Inside the form a command is an answer. The handlers of the four
    steps are registered before [/who], [/remove], [/info], [/export] and
    [/setup_instructions], so while a user, an administrator included, is
    in one of the four steps, every message outside the groups that is not
    a [/start] goes to the handler of the step: no profile is read out or
    deleted, no pending entry changes, the only request is one message to
    the same chat, and in the first three steps the text of the command is
    stored as the value of the field. *)
Theorem form_step_takes_commands (m : Message) (u : User) (st : Reg.t)
    (w : World) :
  let ctx := (chat_id (chat m), user_id u) in
  is_group (chat_type (chat m)) = false ->
  from_user m = Some u ->
  is_command w m "start" = false ->
  state (session_of w ctx) = Some st ->
  st <> Reg.confirm ->
  let run := feed_update ALLOWED_ADMINS env (message_update m) w in
  profiles (final_world run) = profiles w /\
  pending (final_world run) = pending w /\
  (exists t, calls run = [send_message (chat_id (chat m)) t]) /\
  (forall k, step_field st = Some k ->
     data (session_of (final_world run) ctx) !! k
     = Some (strip (py_or_empty (text m)))).
Proof.
  intros ctx Hgroup Hu Hcmd Hst Hne run. subst run.
  rewrite (feed_field_text ALLOWED_ADMINS env m w u st Hgroup Hu Hcmd Hst Hne).
  fold ctx.
  change (wp (field_handler st env m ctx)
            (fun _ w' l =>
               profiles w' = profiles w /\ pending w' = pending w /\
               (exists t, l = [send_message (chat_id (chat m)) t]) /\
               (forall k, step_field st = Some k ->
                  data (session_of w' ctx) !! k
                  = Some (strip (py_or_empty (text m))))) w).
  destruct st; [| | | |contradiction]; cbn [field_handler step_field].
  1-3: unfold reg_first_name, reg_last_name, reg_class, update_data, set_state;
    wp_run; wp_call;
    (split; [reflexivity|]); (split; [reflexivity|]);
    (split; [eexists; reflexivity|]);
    intros k [= <-]; unfold session_of;
    cbn [storage set_storage set_profiles set_pending];
    rewrite !lookup_insert_eq; cbn [data state];
    now rewrite lookup_insert_eq.
  unfold reg_email.
  destruct (negb (is_valid_fizmat_email
                    (lower (strip (py_or_empty (text m)))))).
  - wp_run. wp_call;
      (split; [reflexivity|]); (split; [reflexivity|]);
      (split; [eexists; reflexivity|]); intros k Hk; discriminate Hk.
  - unfold update_data, get_data, set_state. wp_run. wp_call;
      (split; [reflexivity|]); (split; [reflexivity|]);
      (split; [eexists; reflexivity|]); intros k Hk; discriminate Hk.
Qed.

(** ** Administration *)

(** X19. [/export] in a private chat, from anybody: the file is written
    and then sent, and the handler ends normally unless the sending fails
    with an error other than forbidden or bad request. The file has the
    time of the run in its name and one row for every stored profile,
    each profile once, in the order of [created_at]; the state is not
    changed. *)
Theorem export_csv_rows (message : Message) (w : World) :
  chat_type (chat message) = PRIVATE ->
  let rows := order_by_created_at (profiles w) in
  let file := {| csv_timestamp := utcnow_timestamp env; csv_rows := rows |} in
  let send := answer_document (chat_id (chat message)) file in
  export_csv env message w
  = {| result := match api_error env send with
                 | Some e =>
                     if forbidden_or_bad (TelegramAPIError e) then Ok tt
                     else Raise (TelegramAPIError e)
                 | None => Ok tt
                 end;
       final_world := w;
       calls := [write_file file; send] |} /\
  (forall k p, In (k, p) rows <-> profiles w !! k = Some p) /\
  NoDup rows /\
  StronglySorted created_before rows.
Proof.
  intros Hprivate rows file send.
  destruct (order_by_created_at_spec (profiles w)) as [Hperm Hsorted].
  fold rows in Hperm, Hsorted. split; [|split; [|split]].
  - change (wp (export_csv env message)
              (fun r w' l =>
                 Build_Run r w' l
                 = Build_Run
                     match api_error env send with
                     | Some e =>
                         if forbidden_or_bad (TelegramAPIError e) then Ok tt
                         else Raise (TelegramAPIError e)
                     | None => Ok tt
                     end w [write_file file; send]) w).
    unfold export_csv. rewrite Hprivate. wp_run. fold rows file send.
    destruct (api_error env send) as [e|]; cbv beta iota; [|reflexivity].
    destruct (forbidden_or_bad (TelegramAPIError e)); wp_run; reflexivity.
  - intros k p. rewrite <- elem_of_map_to_list, <- list_elem_of_In.
    split; intros H; [now rewrite <- Hperm | now rewrite Hperm].
  - rewrite Hperm. apply NoDup_map_to_list.
  - exact Hsorted.
Qed.

(** One request of [setup_instructions]: split on the platform's answer
    and on the class of the error. *)
Ltac setup_step :=
  lazymatch goal with
  | |- match api_error _ _ with _ => _ end =>
      wp_call_eq;
      [ try match goal with
            | |- context [telegram_errors (TelegramAPIError ?e)] =>
                destruct (telegram_errors (TelegramAPIError e))
            | |- context [forbidden_or_bad (TelegramAPIError ?e)] =>
                destruct (forbidden_or_bad (TelegramAPIError e))
            end
      | ];
      cbn [any_exception]; wp_run
  end.

(** The end of a run of [setup_instructions]. *)
Ltac setup_leaf :=
  split; [reflexivity|];
  split; [let Hx := fresh "Hx" in intros Hx; discriminate Hx|];
  split;
  [ let c := fresh "c" in
    let msg := fresh "msg" in
    let Hin := fresh "Hin" in
    intros c msg Hin; cbn [In app] in Hin;
    repeat match type of Hin with
           | _ \/ _ => destruct Hin as [Hin | Hin]
           | False => contradiction
           | _ = _ => first [ discriminate Hin | injection Hin as <- <- ]
           end;
    try (repeat split; auto; eexists;
         (split; [cbn [In app]; eauto 10 | assumption]))
  | let Hg := fresh "Hg" in
    let Ha := fresh "Ha" in
    let Hall := fresh "Hall" in
    intros Hg Ha Hall;
    first [ refuted_answer Hall | discriminate Ha | reflexivity ] ].

(** X20. [setup_instructions] never changes the state. Outside a group it
    only answers that the command belongs in a group. In a group the
    instructions are pinned only for a caller the platform reports as
    creator or administrator, only after the platform accepted the message
    with the instructions, and the message pinned is that one. When every
    request succeeds for such a caller, the requests are: the membership
    query, the deep link for this chat, the instructions with that link,
    the pin. *)
Theorem setup_instructions_pins_for_admins (message : Message) (u : User)
    (w : World) :
  from_user message = Some u ->
  let here := chat_id (chat message) in
  let run := setup_instructions env message w in
  let admin := match member_status env here (user_id u) with
               | CREATOR | ADMINISTRATOR => true
               | _ => false
               end in
  final_world run = w /\
  (is_group (chat_type (chat message)) = false ->
   calls run = [send_message here setup_in_group_only]) /\
  (forall c msg, In (pin_chat_message c msg) (calls run) ->
     is_group (chat_type (chat message)) = true /\
     api_error env (get_chat_member here (user_id u)) = None /\
     admin = true /\ c = here /\ msg = sent_message_id env /\
     exists link, In (send_message here (setup_text link)) (calls run) /\
       api_error env (send_message here (setup_text link)) = None) /\
  (is_group (chat_type (chat message)) = true -> admin = true ->
   (forall c, api_error env c = None) ->
   run = {| result := Ok tt; final_world := w;
            calls := [get_chat_member here (user_id u); create_start_link here;
                      send_message here (setup_text (Some here));
                      pin_chat_message here (sent_message_id env)] |}).
Proof.
  intros Hu here run admin.
  enough (H : wp (setup_instructions env message)
            (fun r w' l =>
               w' = w /\
               (is_group (chat_type (chat message)) = false ->
                l = [send_message here setup_in_group_only]) /\
               (forall c msg, In (pin_chat_message c msg) l ->
                  is_group (chat_type (chat message)) = true /\
                  api_error env (get_chat_member here (user_id u)) = None /\
                  admin = true /\ c = here /\ msg = sent_message_id env /\
                  exists link, In (send_message here (setup_text link)) l /\
                    api_error env (send_message here (setup_text link)) = None) /\
               (is_group (chat_type (chat message)) = true -> admin = true ->
                (forall c, api_error env c = None) ->
                Build_Run r w' l
                = Build_Run (Ok tt) w
                    [get_chat_member here (user_id u); create_start_link here;
                     send_message here (setup_text (Some here));
                     pin_chat_message here (sent_message_id env)])) w) by exact H.
  unfold setup_instructions, from_user_id, is_admin, start_link,
    send_ephemeral_group_notice.
  rewrite Hu. fold here.
  destruct (is_group (chat_type (chat message))) eqn:Hgroup; cbn [negb]; wp_run.
  2: { wp_call; (split; [reflexivity|]); (split; [reflexivity|]);
         (split; [|discriminate]);
         intros c msg [H | []]; discriminate H. }
  subst admin.
  destruct (member_status env here (user_id u)); cbv beta iota;
    repeat first [ setup_step | setup_leaf ].
Qed.

(** X21. [/who] and [/remove] from a caller the allow-list admits, with an
    argument of ASCII digits. The argument is read as the decimal number
    it denotes. If SQLite can store that number, [/remove] deletes exactly
    that profile, touches nothing else and reports the removal whether or
    not the profile existed, and [/who] answers with the profile or with
    the notice that there is none. If it cannot, binding the number raises
    [OverflowError] out of both handlers before any reply. *)
Theorem admin_commands_numeric_argument (message : Message) (u : User)
    (a : str) (w : World) :
  from_user message = Some u ->
  ALLOWED_ADMINS = ∅ \/ user_id u ∈ ALLOWED_ADMINS ->
  digits_argument message = Some a ->
  forallb is_ascii a = true ->
  let target := digits_value a in
  let here := chat_id (chat message) in
  let who := who_cmd_private ALLOWED_ADMINS env message w in
  let remove := remove_cmd ALLOWED_ADMINS env message w in
  if sqlite_integer target then
    final_world remove = set_profiles (delete target) w /\
    calls remove = [send_message here (removed target)] /\
    final_world who = w /\
    calls who = [send_message here
                   match profiles w !! target with
                   | Some p => who_profile target p
                   | None => who_not_found
                   end]
  else
    who = {| result := Raise OverflowError; final_world := w; calls := [] |} /\
    remove = {| result := Raise OverflowError; final_world := w; calls := [] |}.
Proof.
  intros Hu Hadmin Harg Hascii target here who remove.
  assert (Hint : py_int a = Some target).
  { unfold digits_argument in Harg.
    destruct (split _) as [|x [|y rest]]; try discriminate.
    destruct (isdigit y) eqn:Hd; [|discriminate]. injection Harg as ->.
    unfold isdigit in Hd. destruct a as [|c a']; [discriminate|].
    apply py_int_ascii_digits; [discriminate|].
    rewrite forallb_forall in *. intros d Hin.
    specialize (Hd d Hin). specialize (Hascii d Hin).
    unfold unicode_isdigit in Hd. now rewrite Hascii in Hd. }
  assert (Hgate : not_allowed ALLOWED_ADMINS message w
                  = {| result := Ok false; final_world := w; calls := [] |}).
  { unfold not_allowed, from_user_id. rewrite Hu.
    destruct (decide (ALLOWED_ADMINS = ∅)) as [He | Hne].
    - now rewrite bool_decide_eq_true_2.
    - rewrite bool_decide_eq_false_2 by exact Hne.
      destruct Hadmin as [He | Hin]; [contradiction|].
      unfold bind, ret. cbn. now rewrite bool_decide_eq_true_2. }
  assert (Hwho : wp (who_cmd_private ALLOWED_ADMINS env message)
            (fun r w' l =>
               if sqlite_integer target
               then w' = w /\
                    l = [send_message here
                           match profiles w !! target with
                           | Some p => who_profile target p
                           | None => who_not_found
                           end]
               else Build_Run r w' l = Build_Run (Raise OverflowError) w []) w).
  { unfold who_cmd_private. apply wp_bind. unfold wp at 1. rewrite Hgate.
    cbn [result final_world calls app]. rewrite Harg.
    unfold int_of, bind_integer, get_profile_row. rewrite Hint. wp_run.
    destruct (sqlite_integer target); wp_run; [|reflexivity].
    destruct (profiles w !! target); wp_run; wp_call; split; reflexivity. }
  assert (Hrem : wp (remove_cmd ALLOWED_ADMINS env message)
            (fun r w' l =>
               if sqlite_integer target
               then w' = set_profiles (delete target) w /\
                    l = [send_message here (removed target)]
               else Build_Run r w' l = Build_Run (Raise OverflowError) w []) w).
  { unfold remove_cmd. apply wp_bind. unfold wp at 1. rewrite Hgate.
    cbn [result final_world calls app]. rewrite Harg.
    unfold int_of, bind_integer, delete_profile. rewrite Hint. wp_run.
    destruct (sqlite_integer target); wp_run; [|reflexivity].
    wp_call; split; reflexivity. }
  unfold wp in Hwho, Hrem. fold who in Hwho. fold remove in Hrem.
  destruct (sqlite_integer target); [tauto|]. split; assumption.
Qed.

(** The end of a run of [export_csv] outside a private chat. *)
Ltac in_calls Hin :=
  cbn [In app] in Hin;
  repeat match type of Hin with
         | _ \/ _ => destruct Hin as [Hin | Hin]
         | False => contradiction
         | _ = _ => discriminate Hin
         end.

Ltac export_leaf :=
  split; [reflexivity|]; split;
  [ let f := fresh "f" in
    let Hin := fresh "Hin" in
    intros f Hin; in_calls Hin;
    try (split; first [reflexivity | assumption])
  | split;
    [ let Ha := fresh "Ha" in
      let Hall := fresh "Hall" in
      intros Hall Ha;
      first [ refuted_answer Hall | discriminate Ha | reflexivity ]
    | let c := fresh "c" in
      let Hin := fresh "Hin" in
      intros c Hin; in_calls Hin; try first [reflexivity | assumption] ] ].

(** X22. [/export] outside a private chat never changes the state, and it
    writes or sends a file only when the membership query succeeded and
    reported the caller as creator or administrator: a failed query counts
    as "not an administrator". For any other caller, when every request
    succeeds, the requests are the query, the refusal posted in the chat,
    a sleep of 8 seconds and the deletion of that refusal; a refusal that
    could not be posted is not deleted. *)
Theorem export_csv_outside_private (message : Message) (u : User) (w : World) :
  from_user message = Some u ->
  chat_type (chat message) <> PRIVATE ->
  let here := chat_id (chat message) in
  let query := get_chat_member here (user_id u) in
  let refusal := send_message here export_admins_only in
  let admin := match member_status env here (user_id u) with
               | CREATOR | ADMINISTRATOR => true
               | _ => false
               end in
  let run := export_csv env message w in
  final_world run = w /\
  (forall f, In (write_file f) (calls run)
             \/ In (answer_document here f) (calls run) ->
     api_error env query = None /\ admin = true) /\
  ((forall c, api_error env c = None) -> admin = false ->
   run = {| result := Ok tt; final_world := w;
            calls := [query; refusal; asyncio_sleep 8;
                      delete_message here (sent_message_id env)] |}) /\
  (forall c, In (delete_message here c) (calls run) ->
     api_error env refusal = None).
Proof.
  intros Hu Hchat here query refusal admin run.
  enough (H : wp (export_csv env message)
            (fun r w' l =>
               w' = w /\
               (forall f, In (write_file f) l \/ In (answer_document here f) l ->
                  api_error env query = None /\ admin = true) /\
               ((forall c, api_error env c = None) -> admin = false ->
                Build_Run r w' l
                = Build_Run (Ok tt) w
                    [query; refusal; asyncio_sleep 8;
                     delete_message here (sent_message_id env)]) /\
               (forall c, In (delete_message here c) l ->
                  api_error env refusal = None)) w) by exact H.
  assert (Hbody : forall k : M bool,
            k = (uid <- from_user_id message ;;
                 is_admin env (chat_id (chat message)) uid)%py ->
            match chat_type (chat message) with
            | PRIVATE => ret true
            | _ => k
            end = k).
  { intros k _. destruct (chat_type (chat message)); [contradiction|..];
      reflexivity. }
  unfold export_csv. erewrite Hbody by reflexivity. clear Hbody.
  unfold from_user_id, is_admin, send_ephemeral_group_notice.
  rewrite Hu. fold here. wp_run. subst admin query refusal.
  destruct (member_status env here (user_id u)); cbv beta iota;
    repeat first [ setup_step | export_leaf ].
Qed.

(** ** Isolation *)

(** X23. An update touches only what belongs to its sender. Whatever the
    handler and the platform do, the pending entries of every other user
    and the session of every other (chat, user) pair are as before, and so
    is the profile of every other user unless the update is a [/remove]
    command. A membership change touches no session at all. *)
Theorem update_touches_its_sender_only (upd : Update) (w : World) :
  let w' := final_world (feed_update ALLOWED_ADMINS env upd w) in
  (forall u c, Some u <> update_sender upd ->
     pending w' !! (u, c) = pending w !! (u, c)) /\
  (forall key, Some key <> update_context upd ->
     session_of w' key = session_of w key) /\
  (is_remove w upd = false ->
   forall k, Some k <> update_sender upd -> profiles w' !! k = profiles w !! k).
Proof.
  intros w'. subst w'.
  destruct (feed_update_others_kept ALLOWED_ADMINS env upd false w)
    as (Hpending & Hstorage & _); [discriminate|].
  split; [exact Hpending|]. split.
  - intros key Hkey. unfold session_of. now rewrite Hstorage.
  - intros Hrem.
    destruct (feed_update_others_kept ALLOWED_ADMINS env upd true w)
      as (_ & _ & Hprofiles); [intros _; exact Hrem|].
    now apply Hprofiles.
Qed.

End Extras.

(** * Concrete runs *)

(** The runs below use the database without non-ASCII case pairs; their
    inputs are ASCII, so every database gives the same results. *)
#[local] Existing Instance caseless_ucd.

(** A moment at which every request to the platform succeeds. *)
Definition calm (now : string) : Env :=
  {| utcnow_isoformat := str_of now;
     utcnow_timestamp := 1714564800;
     time_time := 1714564800;
     api_error := fun _ => None;
     member_status := fun _ _ => MEMBER;
     sent_message_id := 1000;
     me_username := Some (str_of "fizmat_gate_bot") |}.

Definition empty_world : World :=
  {| profiles := ∅; idx_profiles_email_unique := true; pending := ∅;
     storage := ∅; NEED_DM_CACHE := ∅; LAST_NOTICE_AT := ∅;
     BOT_USERNAME := Some (str_of "fizmat_gate_bot") |}.

(** The session of a user who has filled in the form. *)
Definition filled_form (first last cls mail : string) : Session :=
  {| state := Some Reg.confirm;
     data := {[ "first_name"%string := str_of first;
                "last_name"%string := str_of last;
                "school_cls"%string := str_of cls;
                "email"%string := str_of mail ]} |}.

(** User 1 is registered with [a@fizmat.kz]; user 2 has filled in the form
    with the same address. *)
Definition world_same_email : World :=
  set_storage (insert (2, 2)%Z (filled_form "Aigerim" "S" "9A" "a@fizmat.kz"))
    (set_profiles (insert 1%Z
       {| first_name := str_of "Arman"; last_name := str_of "K";
          school_cls := str_of "11"; email := Some (str_of "a@fizmat.kz");
          created_at := str_of "2024-04-01T08:00:00" |}) empty_world).

(** User 1 has filled in the form and is pending in two groups: in
    [-100] since 09:00 and in [-200] since 09:30; the platform has muted the
    user in both. *)
Definition world_two_chats : World :=
  set_pending (fun _ => {[ (1, -100)%Z := str_of "2024-05-01T09:00:00";
                           (1, -200)%Z := str_of "2024-05-01T09:30:00" ]})
    (set_storage (insert (1, 1)%Z
       (filled_form "Ivan" "Petrov" "10B" "ivan.petrov@fizmat.kz")) empty_world).

Definition both_muted : gset (Z * Z) := {[ (-100, 1)%Z; (-200, 1)%Z ]}.


(** An instance of C7: [ivan@gmail.com] in the e-mail step. *)
Lemma reg_email_invalid_reprompts_gmail :
  let w := set_storage (insert (5, 5)%Z
             {| state := Some Reg.email; data := ∅ |}) empty_world in
  let run := reg_email (U := caseless_ucd) (calm "2024-05-01T12:00:00")
               (private_message 5 "ivan@gmail.com") (5, 5)%Z w in
  calls run = [send_message 5 bad_email_format] /\
  final_world run = w /\
  state (session_of (final_world run) (5, 5)%Z) = Some Reg.email /\
  data (session_of (final_world run) (5, 5)%Z) = data (session_of w (5, 5)%Z) /\
  result run = Ok tt.
Proof.
  apply (reg_email_invalid_reprompts (U := caseless_ucd)
           (calm "2024-05-01T12:00:00") (private_message 5 "ivan@gmail.com")).
  - reflexivity.
  - vm_compute. reflexivity.
Defined.

(** An instance of the escape: user 2 confirms the address of user 1. *)
Lemma confirm_duplicate_email_escapes_run :
  confirm (U := caseless_ucd) (calm "2024-05-01T12:00:00") (button 2 "confirm")
    (2, 2)%Z world_same_email
  = {| result := Raise IntegrityError; final_world := world_same_email;
       calls := [] |}.
Proof.
  apply (confirm_duplicate_email_escapes (U := caseless_ucd)).
  - vm_compute. reflexivity.
  - reflexivity.
  - exists 1%Z. eexists. split; [discriminate|]. split; vm_compute; reflexivity.
Defined.

(** An instance of C2: user 1, pending in two groups, confirms. *)
Lemma confirm_releases_newest_only_run :
  let run := confirm (U := caseless_ucd) (calm "2024-05-01T12:00:00")
               (button 1 "confirm") (1, 1)%Z world_two_chats in
  pending (final_world run) !! (1, -200)%Z = None /\
  pending (final_world run) !! (1, -100)%Z = Some (str_of "2024-05-01T09:00:00").
Proof.
  assert (Hvalid : is_valid_fizmat_email (U := caseless_ucd)
            (lower (strip (data_get (data (session_of world_two_chats (1, 1)%Z))
                             "email"))) = true)
    by (vm_compute; reflexivity).
  assert (Hfree : idx_profiles_email_unique world_two_chats
            && email_taken (profiles world_two_chats) 1
                 (lower (U := caseless_ucd)
                    (strip (data_get (data (session_of world_two_chats (1, 1)%Z))
                              "email"))) = false)
    by (vm_compute; reflexivity).
  pose proof (confirm_releases_newest_only (U := caseless_ucd)
                (calm "2024-05-01T12:00:00") (button 1 "confirm") (1, 1)%Z
                world_two_chats Hvalid Hfree) as H.
  cbv zeta in H. cbn [user_id cb_from_user button] in H.
  replace (latest_pending 1 (pending world_two_chats)) with (Some (-200)%Z) in H
    by (vm_compute; reflexivity).
  destruct H as [(_ & Hgone & Hkept & _) _].
  split; [exact Hgone|]. rewrite Hkept by discriminate. vm_compute. reflexivity.
Defined.

(** C2 as stated fails: after the confirmation of user 1 the entry for the
    group [-100] is still there, and the user's next [/start], which does
    not show the user in that group, consumes it and unlocks the group. *)
Lemma remaining_entry_released_unobserved :
  let w1 := final_world (confirm (U := caseless_ucd) (calm "2024-05-01T12:00:00")
                           (button 1 "confirm") (1, 1)%Z world_two_chats) in
  pending w1 !! (1, -100)%Z = Some (str_of "2024-05-01T09:00:00") /\
  ~ stays_until_observed (U := caseless_ucd) ∅ w1 1 (-100).
Proof.
  split; [vm_compute; reflexivity|].
  intros H.
  specialize (H (calm "2024-05-01T12:05:00")
                (message_update (private_message 1 "/start")) eq_refl eq_refl).
  vm_compute in H. discriminate H.
Defined.

(** User 7 is registered; nobody is an administrator. *)
Definition world_with_profile : World :=
  set_profiles (insert 7%Z
    {| first_name := str_of "Dana"; last_name := str_of "M";
       school_cls := str_of "10A"; email := Some (str_of "dana@fizmat.kz");
       created_at := str_of "2024-04-02T08:00:00" |}) empty_world.

(** C5 as stated fails: the allow-list is empty, so user 5 is not in it, and
    the user's [/remove 7] deletes the profile of user 7. *)
Lemma remove_by_anyone_when_no_admins :
  let run := remove_cmd (U := caseless_ucd) ∅ (calm "2024-05-01T12:00:00")
               (private_message 5 "/remove 7") world_with_profile in
  (5%Z ∉ (∅ : gset Z)) /\
  is_Some (profiles world_with_profile !! 7%Z) /\
  profiles (final_world run) !! 7%Z = None /\
  calls run = [send_message 5 (removed 7)].
Proof.
  split; [apply not_elem_of_empty|].
  split; [vm_compute; eauto|]. split; vm_compute; reflexivity.
Defined.

(** An instance of the gate: the allow-list is {9}, and user 5 asks. *)
Lemma admin_commands_gate_refuses :
  let m := private_message 5 "/remove 7" in
  final_world (remove_cmd (U := caseless_ucd) {[9%Z]} (calm "2024-05-01T12:00:00")
                 m world_with_profile) = world_with_profile /\
  calls (remove_cmd (U := caseless_ucd) {[9%Z]} (calm "2024-05-01T12:00:00")
           m world_with_profile) = [send_message 5 remove_admins_only].
Proof.
  pose proof (admin_commands_gate (U := caseless_ucd) {[9%Z]}
                (calm "2024-05-01T12:00:00") (private_message 5 "/remove 7")
                world_with_profile {| user_id := 5; is_bot := false |} eq_refl)
    as [H _].
  destruct H as (_ & _ & Hw & Hc).
  - intros Hempty. assert (H9 : 9%Z ∈ ({[9%Z]} : gset Z)) by now apply elem_of_singleton.
    rewrite Hempty in H9. now apply not_elem_of_empty in H9.
  - cbn [user_id]. intros H5. apply elem_of_singleton in H5. discriminate H5.
  - split; [exact Hw | exact Hc].
Defined.

(** User 1 is in the first step of the form and pending in two groups. *)
Definition world_form_started : World :=
  set_pending (fun _ => {[ (1, -100)%Z := str_of "2024-05-01T09:00:00";
                           (1, -200)%Z := str_of "2024-05-01T09:30:00" ]})
    (set_storage (insert (1, 1)%Z {| state := Some Reg.first_name; data := ∅ |})
       empty_world).

Definition example_texts : list string :=
  ["Ivan"; "Petrov"; "10B"; "ivan.petrov@fizmat.kz"]%string.

(** An instance of C6. *)
Lemma registration_example_run :
  let w4 := type_texts ∅ (calm "2024-05-01T11:00:00") 1 example_texts
              world_form_started in
  let run := feed_update ∅ (calm "2024-05-01T12:00:00")
               (callback_query_update (button 1 "confirm")) w4 in
  profiles (final_world run) !! 1%Z =
    Some {| first_name := str_of "Ivan"; last_name := str_of "Petrov";
            school_cls := str_of "10B";
            email := Some (str_of "ivan.petrov@fizmat.kz");
            created_at := str_of "2024-05-01T12:00:00" |} /\
  muted_after (calm "2024-05-01T12:00:00") (calls run) both_muted
  = both_muted ∖ {[(-200, 1)%Z]}.
Proof.
  pose proof (registration_example ∅ (calm "2024-05-01T11:00:00")
                (calm "2024-05-01T12:00:00") 1 world_form_started) as H.
  cbv zeta in H.
  replace (latest_pending 1 (pending world_form_started)) with (Some (-200)%Z) in H
    by (vm_compute; reflexivity).
  destruct H as (_ & Hprofile & _ & _ & _ & Hmuted).
  - reflexivity.
  - vm_compute. reflexivity.
  - intros c. reflexivity.
  - split; [exact Hprofile|]. rewrite Hmuted.
    destruct (decide (-200 = 0)%Z); [discriminate | reflexivity].
Defined.

(** C6 as stated fails: after the example, the older of the user's two
    pending chats is still pending and still muted. *)
Lemma registration_example_leaves_a_chat_muted :
  let w4 := type_texts ∅ (calm "2024-05-01T11:00:00") 1 example_texts
              world_form_started in
  let run := feed_update ∅ (calm "2024-05-01T12:00:00")
               (callback_query_update (button 1 "confirm")) w4 in
  pending world_form_started !! (1, -100)%Z = Some (str_of "2024-05-01T09:00:00") /\
  is_Some (profiles (final_world run) !! 1%Z) /\
  pending (final_world run) !! (1, -100)%Z = Some (str_of "2024-05-01T09:00:00") /\
  (-100, 1)%Z ∈ muted_after (calm "2024-05-01T12:00:00") (calls run) both_muted.
Proof.
  split; [vm_compute; reflexivity|].
  split; [vm_compute; eauto|].
  split; [vm_compute; reflexivity|].
  assert (H : bool_decide
                ((-100, 1)%Z ∈ muted_after (calm "2024-05-01T12:00:00")
                   (calls (feed_update ∅ (calm "2024-05-01T12:00:00")
                             (callback_query_update (button 1 "confirm"))
                             (type_texts ∅ (calm "2024-05-01T11:00:00") 1
                                example_texts world_form_started)))
                   both_muted) = true)
    by (vm_compute; reflexivity).
  exact (bool_decide_eq_true_1 _ H).
Defined.

(** An instance of C8: the e-mail button, then a valid e-mail. *)
Lemma edit_email_then_valid_email_run :
  let w1 := final_world (edit_email (calm "2024-05-01T12:00:00")
                           (button 1 "edit_email") (1, 1)%Z world_two_chats) in
  let s := session_of
             (final_world (reg_email (calm "2024-05-01T12:00:00")
                             (private_message 1 "Ivan.P@Fizmat.KZ") (1, 1)%Z w1))
             (1, 1)%Z in
  state s = Some Reg.confirm /\
  data s !! "email"%string = Some (str_of "ivan.p@fizmat.kz") /\
  data s !! "last_name"%string = Some (str_of "Petrov").
Proof.
  pose proof (edit_reenters_field_then_form_goes_on (calm "2024-05-01T12:00:00")
                (button 1 "edit_email") (private_message 1 "Ivan.P@Fizmat.KZ")
                (1, 1)%Z world_two_chats) as H.
  cbv zeta in H.
  destruct H as (_ & _ & _ & _ & _ & _ & _ & _ & _ & H).
  destruct H as (Hstate & Hmail & Hothers); [vm_compute; reflexivity|].
  split; [exact Hstate|]. split.
  - rewrite Hmail. vm_compute. reflexivity.
  - rewrite Hothers by discriminate. vm_compute. reflexivity.
Defined.

(** C8 as stated fails: after the first-name button the user re-enters the
    first name and has to go through the other three steps to reach the
    confirm state again, where the other values are the new inputs. *)
Lemma reentry_overwrites_other_fields :
  state (session_of
           (type_texts ∅ (calm "2024-05-01T12:01:00") 1 ["Vanya"]%string
              (final_world (feed_update ∅ (calm "2024-05-01T12:01:00")
                              (callback_query_update (button 1 "edit_first"))
                              world_two_chats)))
           (1, 1)%Z) = Some Reg.last_name /\
  ~ reentry_preserves_others ∅ world_two_chats 1.
Proof.
  split; [vm_compute; reflexivity|].
  intros H.
  specialize (H (calm "2024-05-01T12:01:00")
                ["Vanya"; "Sidorov"; "9A"; "v@fizmat.kz"]%string).
  cbv zeta in H.
  specialize (H ltac:(vm_compute; reflexivity) "last_name"%string
                ltac:(cbn; tauto)).
  vm_compute in H. discriminate H.
Defined.

(** An instance of C10. *)
Lemma save_profile_stores_normalized_run :
  let run := save_profile (calm "2024-05-01T12:00:00") 3
               (Some (str_of " Ivan ")) (Some (str_of "Petrov "))
               (Some (str_of " 10B")) (Some (str_of " Ivan.Petrov@FIZMAT.kz "))
               empty_world in
  profiles (final_world run) !! 3%Z =
    Some {| first_name := str_of "Ivan"; last_name := str_of "Petrov";
            school_cls := str_of "10B";
            email := Some (str_of "ivan.petrov@fizmat.kz");
            created_at := str_of "2024-05-01T12:00:00" |}.
Proof.
  pose proof (save_profile_stores_normalized (calm "2024-05-01T12:00:00") 3
                (Some (str_of " Ivan ")) (Some (str_of "Petrov "))
                (Some (str_of " 10B")) (Some (str_of " Ivan.Petrov@FIZMAT.kz "))
                empty_world) as H.
  cbv zeta in H. destruct H as [H _]; [vm_compute; reflexivity|].
  cbv zeta. rewrite H. vm_compute. reflexivity.
Defined.
(** * Further concrete runs *)

(** User 1 is pending in the group [-100] since 09:00. *)
Definition world_one_chat : World :=
  set_pending (fun _ => {[ (1, -100)%Z := str_of "2024-05-01T09:00:00" ]})
    empty_world.

(** An instance of X6: user 2 confirms the address user 1 is registered
    with; the profiles keep distinct addresses. *)
Lemma unique_index_invariant_run :
  let w' := feed_updates ∅
              [(calm "2024-05-01T12:00:00",
                callback_query_update (button 2 "confirm"))] world_same_email in
  idx_profiles_email_unique w' = true /\ unique_emails (profiles w').
Proof.
  assert (Hw : index_holds world_same_email).
  { intros _. apply has_duplicate_email_spec. vm_compute. reflexivity. }
  pose proof (unique_index_invariant ∅ (calm "2024-05-01T12:00:00")
                [(calm "2024-05-01T12:00:00",
                  callback_query_update (button 2 "confirm"))]
                world_same_email Hw) as (_ & _ & H).
  exact (H eq_refl).
Defined.

(** An instance of X7: at 12:00 user 1 becomes pending in [-200] as well,
    and that entry is the one consumed. *)
Lemma add_then_consume_pending_run :
  let run := (add_pending (calm "2024-05-01T12:00:00") 1 (-200) ;;
              consume_pending 1)%py world_one_chat in
  result run = Ok (Some (-200)%Z) /\
  pending (final_world run) = delete (1, -200)%Z (pending world_one_chat).
Proof.
  pose proof (add_then_consume_pending (calm "2024-05-01T12:00:00") 1 (-200)
                world_one_chat) as H.
  cbv zeta in H. destruct H as (Hr & Hp & _).
  - intros c t Hne Hc. cbn [pending world_one_chat set_pending] in Hc.
    apply lookup_singleton_Some in Hc as [_ <-]. vm_compute. reflexivity.
  - split; [exact Hr | exact Hp].
Defined.

(** User 5 becomes a member of the supergroup [-100]. *)
Definition joins (user group : Z) : ChatMemberUpdated :=
  {| event_chat := {| chat_id := group; chat_type := SUPERGROUP |};
     new_chat_member_user := {| user_id := user; is_bot := false |};
     new_chat_member_status := MEMBER |}.

(** A text message of [user] in the supergroup [group]. *)
Definition group_message (user group : Z) (t : string) : Message :=
  {| message_id := 7; chat := {| chat_id := group; chat_type := SUPERGROUP |};
     from_user := Some {| user_id := user; is_bot := false |};
     text := Some (str_of t) |}.

(** A moment at which the platform refuses every request as forbidden. *)
Definition all_forbidden (now : string) : Env :=
  {| utcnow_isoformat := str_of now;
     utcnow_timestamp := 1714564800;
     time_time := 1714564800;
     api_error := fun _ => Some TelegramForbiddenError;
     member_status := fun _ _ => MEMBER;
     sent_message_id := 1000;
     me_username := Some (str_of "fizmat_gate_bot") |}.

(** An instance of X8. *)
Lemma on_user_join_unregistered_run :
  final_world (on_user_join (calm "2024-05-01T12:00:00") (joins 5 (-100)) empty_world)
  = set_pending (insert (5, -100)%Z (str_of "2024-05-01T12:00:00")) empty_world.
Proof.
  pose proof (on_user_join_unregistered (calm "2024-05-01T12:00:00")
                (joins 5 (-100)) empty_world eq_refl eq_refl eq_refl) as [_ H].
  exact H.
Defined.

(** An instance of X9. *)
Lemma guard_unregistered_sender_run :
  let run := guard_group_messages (all_forbidden "2024-05-01T12:00:00")
               (group_message 5 (-100) "hello") empty_world in
  pending (final_world run) !! (5, -100)%Z = Some (str_of "2024-05-01T12:00:00").
Proof.
  pose proof (guard_unregistered_sender (all_forbidden "2024-05-01T12:00:00")
                (group_message 5 (-100) "hello")
                {| user_id := 5; is_bot := false |} empty_world
                eq_refl eq_refl eq_refl) as [H _].
  cbv zeta. rewrite H. apply lookup_insert_eq.
Defined.

(** An instance of X10. *)
Lemma group_handlers_never_raise_run :
  result (feed_update ∅ (all_forbidden "2024-05-01T12:00:00")
            (message_update (group_message 5 (-100) "hello")) empty_world)
  = Ok tt.
Proof.
  apply (group_handlers_never_raise ∅ (all_forbidden "2024-05-01T12:00:00")).
  - intros c e [= <-]. reflexivity.
  - reflexivity.
Defined.

(** An instance of X11: the registered user 7 sends [/export] in a group. *)
Lemma group_message_of_member_ignored_run :
  feed_update ∅ (calm "2024-05-01T12:00:00")
    (message_update (group_message 7 (-100) "/export")) world_with_profile
  = {| result := Ok tt; final_world := world_with_profile; calls := [] |}.
Proof.
  apply (group_message_of_member_ignored ∅ (calm "2024-05-01T12:00:00")).
  - reflexivity.
  - right. vm_compute. eauto.
Defined.

(** An instance of X13: user 1 confirms, and presses confirm again. *)
Lemma buttons_after_confirmation_are_dead_run :
  let w1 := final_world (feed_update ∅ (calm "2024-05-01T12:00:00")
                           (callback_query_update (button 1 "confirm"))
                           world_two_chats) in
  feed_update ∅ (calm "2024-05-01T12:01:00")
    (callback_query_update (button 1 "confirm")) w1
  = {| result := Ok tt; final_world := w1; calls := [] |}.
Proof.
  pose proof (buttons_after_confirmation_are_dead ∅ (calm "2024-05-01T12:00:00")
                (button 1 "confirm") world_two_chats) as [_ H].
  destruct H as [_ H];
    [reflexivity | reflexivity | vm_compute; reflexivity
    | vm_compute; reflexivity |].
  apply H; reflexivity.
Defined.


(** An instance of X15: user 5, who was never seen in [-100], follows a
    deep link for it. *)
Lemma start_of_unregistered_run :
  let run := start (calm "2024-05-01T12:00:00")
               (private_message 5 "/start verify_-100") (5, 5)%Z empty_world in
  pending (final_world run)
  = {[ (5, -100)%Z := str_of "2024-05-01T12:00:00" ]} /\
  state (session_of (final_world run) (5, 5)%Z) = Some Reg.first_name.
Proof.
  pose proof (start_of_unregistered (calm "2024-05-01T12:00:00")
                (private_message 5 "/start verify_-100")
                {| user_id := 5; is_bot := false |} (5, 5)%Z empty_world
                eq_refl eq_refl) as (_ & Hs & _ & _ & Hp).
  cbv zeta. split.
  - rewrite (Hp (str_of "-100") eq_refl). vm_compute. reflexivity.
  - now rewrite Hs.
Defined.

(** An instance of X1. *)
Lemma allowed_admins_of_numerals_run :
  ALLOWED_ADMINS_from (Some (join_comma [str_of "12"; str_of "0012"; str_of "7"]))
  = Some (list_to_set (map digits_value [str_of "12"; str_of "0012"; str_of "7"])).
Proof.
  apply allowed_admins_of_numerals; [discriminate|].
  repeat first
    [ apply List.Forall_cons | apply List.Forall_nil
    | split; [discriminate | split; [reflexivity | vm_compute; lia]] ].
Defined.

(** An instance of X2: the item [-7] is dropped. *)
Lemma allowed_admins_not_negative_run :
  ALLOWED_ADMINS_from (Some (str_of "5,-7, 9")) = Some ({[5%Z; 9%Z]} : gset Z) /\
  (0 <= 9)%Z.
Proof.
  assert (H : ALLOWED_ADMINS_from (Some (str_of "5,-7, 9"))
              = Some ({[5%Z; 9%Z]} : gset Z)) by (vm_compute; reflexivity).
  split; [exact H|].
  apply (allowed_admins_not_negative (Some (str_of "5,-7, 9")) _ H).
  apply elem_of_union. right. now apply elem_of_singleton.
Defined.

(** An instance of X3: a name and a negative number. *)
Lemma allowed_admins_without_numbers_run :
  ALLOWED_ADMINS_from (Some (str_of "admin,-5")) = Some ∅.
Proof.
  apply (allowed_admins_without_numbers (Some (str_of "admin,-5"))).
  intros x Hx. vm_compute in Hx.
  destruct Hx as [<- | [<- | []]]; vm_compute; reflexivity.
Defined.

(** Users 3 and 7 are registered, user 3 since March, user 7 since April. *)
Definition world_two_profiles : World :=
  set_profiles (insert 3%Z
    {| first_name := str_of "Alan"; last_name := str_of "T";
       school_cls := str_of "9B"; email := Some (str_of "alan@fizmat.kz");
       created_at := str_of "2024-03-01T08:00:00" |}) world_with_profile.

(** A moment at which every request succeeds and the platform reports
    every member as an administrator. *)
Definition calm_admin (now : string) : Env :=
  {| utcnow_isoformat := str_of now;
     utcnow_timestamp := 1714564800;
     time_time := 1714564800;
     api_error := fun _ => None;
     member_status := fun _ _ => ADMINISTRATOR;
     sent_message_id := 1000;
     me_username := Some (str_of "fizmat_gate_bot") |}.

(** An instance of X19: the older profile comes first. *)
Lemma export_csv_rows_run :
  let file := {| csv_timestamp := 1714564800;
                 csv_rows := order_by_created_at (profiles world_two_profiles) |} in
  export_csv (calm "2024-05-01T12:00:00") (private_message 5 "/export")
    world_two_profiles
  = {| result := Ok tt; final_world := world_two_profiles;
       calls := [write_file file; answer_document 5 file] |} /\
  map fst (csv_rows file) = [3%Z; 7%Z].
Proof.
  pose proof (export_csv_rows (calm "2024-05-01T12:00:00")
                (private_message 5 "/export") world_two_profiles eq_refl)
    as [H _].
  split; [exact H|]. vm_compute. reflexivity.
Defined.

(** An instance of X20: an administrator sets the group up. *)
Lemma setup_instructions_pins_for_admins_run :
  setup_instructions (calm_admin "2024-05-01T12:00:00")
    (group_message 9 (-100) "/setup_instructions") empty_world
  = {| result := Ok tt; final_world := empty_world;
       calls := [get_chat_member (-100) 9; create_start_link (-100);
                 send_message (-100) (setup_text (Some (-100)%Z));
                 pin_chat_message (-100) 1000] |}.
Proof.
  pose proof (setup_instructions_pins_for_admins (calm_admin "2024-05-01T12:00:00")
                (group_message 9 (-100) "/setup_instructions")
                {| user_id := 9; is_bot := false |} empty_world eq_refl)
    as (_ & _ & _ & H).
  apply H; [reflexivity | reflexivity | intros c; reflexivity].
Defined.

(** An instance of X21: a number SQLite cannot store. *)
Lemma admin_commands_numeric_argument_run :
  remove_cmd ∅ (calm "2024-05-01T12:00:00")
    (private_message 5 "/remove 9223372036854775808") world_with_profile
  = {| result := Raise OverflowError; final_world := world_with_profile;
       calls := [] |}.
Proof.
  pose proof (admin_commands_numeric_argument ∅ (calm "2024-05-01T12:00:00")
                (private_message 5 "/remove 9223372036854775808")
                {| user_id := 5; is_bot := false |}
                (str_of "9223372036854775808") world_with_profile
                eq_refl (or_introl eq_refl)) as H.
  cbv zeta in H.
  assert (Hs : sqlite_integer (digits_value (str_of "9223372036854775808")) = false)
    by (vm_compute; reflexivity).
  rewrite Hs in H. apply H; vm_compute; reflexivity.
Defined.

(** An instance of X22: a member who is no administrator asks in a group. *)
Lemma export_csv_outside_private_run :
  export_csv (calm "2024-05-01T12:00:00") (group_message 5 (-100) "/export")
    world_with_profile
  = {| result := Ok tt; final_world := world_with_profile;
       calls := [get_chat_member (-100) 5;
                 send_message (-100) export_admins_only;
                 asyncio_sleep 8; delete_message (-100) 1000] |}.
Proof.
  pose proof (export_csv_outside_private (calm "2024-05-01T12:00:00")
                (group_message 5 (-100) "/export")
                {| user_id := 5; is_bot := false |} world_with_profile eq_refl)
    as H.
  cbv zeta in H. destruct H as (_ & _ & H & _); [discriminate|].
  apply H; [intros c; reflexivity | reflexivity].
Defined.


(** An instance of X16: the form filled in from an empty state; the session
    reaches the confirm state with an e-mail that passes the check, and the
    button "confirm" is not answered with the domain error. *)
Lemma confirm_recheck_never_fails_run :
  let now := calm "2024-05-01T12:00:00" in
  let steps :=
    map (fun t => (now, message_update (private_message 5 t)))
      ["/start"; "Ivan"; "Petrov"; "10B"; " Ivan.Petrov@FIZMAT.kz "] in
  let w1 := feed_updates ∅ steps empty_world in
  state (session_of w1 (5, 5)%Z) = Some Reg.confirm /\
  is_valid_fizmat_email
    (lower (strip (data_get (data (session_of w1 (5, 5)%Z)) "email"))) = true /\
  Forall (fun c => is_domain_error c = false)
    (calls (feed_update ∅ now (callback_query_update (button 5 "confirm")) w1)).
Proof.
  intros now steps w1.
  assert (Hempty : confirm_ready empty_world).
  { intros ctx Hs. vm_compute in Hs. discriminate Hs. }
  destruct (confirm_recheck_never_fails ∅ now steps
              (callback_query_update (button 5 "confirm")) empty_world Hempty)
    as [Hready Hcalls].
  assert (Hstate : state (session_of w1 (5, 5)%Z) = Some Reg.confirm)
    by (vm_compute; reflexivity).
  split; [exact Hstate|]. split; [|exact Hcalls].
  exact (Hready (5, 5)%Z Hstate).
Defined.


(** An instance of X18: user 1, the only administrator, is in the first
    step of the form and sends [/remove 7]. The profile of user 7 stays and
    the command becomes the first name. *)
Lemma form_step_takes_commands_run :
  let w := set_storage (insert (1, 1)%Z
             {| state := Some Reg.first_name; data := ∅ |}) world_with_profile in
  let run := feed_update {[ 1%Z ]} (calm "2024-05-01T12:00:00")
               (message_update (private_message 1 "/remove 7")) w in
  is_Some (profiles (final_world run) !! 7%Z) /\
  data (session_of (final_world run) (1, 1)%Z) !! "first_name"%string
  = Some (str_of "/remove 7").
Proof.
  intros w run.
  destruct (form_step_takes_commands {[ 1%Z ]} (calm "2024-05-01T12:00:00")
              (private_message 1 "/remove 7") {| user_id := 1; is_bot := false |}
              Reg.first_name w)
    as (Hp & _ & _ & Hd);
    [reflexivity | reflexivity | vm_compute; reflexivity | reflexivity
    | discriminate | ].
  fold run in Hp, Hd. split.
  - rewrite Hp. vm_compute. eexists. reflexivity.
  - pose proof (Hd "first_name"%string eq_refl) as Hv.
    cbn [chat_id chat private_message private_chat user_id] in Hv.
    rewrite Hv. vm_compute. reflexivity.
Defined.
